(** * Essence API: a shallow embedding of the FastAPI/SQLAlchemy service

    The development follows the layout of the repository:
    - [Schemas]  : schemas.py, the pydantic models and their field constraints;
    - [Models]   : models.py, the mapped class [Essence];
    - [sql]      : the engine of database.py, one SQLite table and the
                   statements SQLAlchemy sends to it;
    - [db]       : the [AsyncSession] the handlers receive;
    - [Routers]  : routers.py, the seven handlers and the way each route binds
                   and validates its input.

    Python integers are [Z]; Python strings are [string] with one [ascii]
    for each character, which covers the code points U+0000 to U+00FF;
    [None] is the [None] of [option].  SQLite stores an integer in 64 bits,
    reads a text up to its first NUL character when it matches it, and
    counts a LIKE pattern in UTF-8 bytes: [sql.fits], [sql.c_string] and
    [sql.utf8_length].  A handler is a computation in a state-and-exception
    monad over the session; an ORM object is a reference into the session,
    because [db.commit] and [db.refresh] write to the very object the handler
    holds. *)

From Stdlib Require Import List ZArith String Ascii Bool Lia Sorted.
Import ListNotations.

Local Open Scope string_scope.
Local Open Scope Z_scope.
Local Open Scope list_scope.

(** ** Values shared by the layers *)

(** The exceptions that can leave a request. *)
Inductive Exc : Type :=
| HTTPException (status_code : Z)   (* raised by the handlers *)
| RequestValidationError            (* FastAPI: the input does not validate *)
| ResponseValidationError           (* FastAPI: the output does not validate *)
| IntegrityError                    (* the table rejects a statement *)
| OverflowError                     (* the driver cannot bind an integer *)
| OperationalError                  (* the engine cannot run a statement *)
| InvalidRequestError.              (* the session cannot serve the call *)

Definition HTTP_200_OK : Z := 200.
Definition HTTP_201_CREATED : Z := 201.
Definition HTTP_204_NO_CONTENT : Z := 204.
Definition HTTP_404_NOT_FOUND : Z := 404.
Definition HTTP_422_UNPROCESSABLE : Z := 422.
Definition HTTP_500_INTERNAL : Z := 500.

(** The status the framework answers with when an exception leaves a handler. *)
Definition status_of (e : Exc) : Z :=
  match e with
  | HTTPException c => c
  | RequestValidationError => HTTP_422_UNPROCESSABLE
  | ResponseValidationError | IntegrityError | OverflowError
  | OperationalError | InvalidRequestError =>
      HTTP_500_INTERNAL
  end.

(** One [(key, value)] pair of a dumped model, which is also one keyword
    argument when the model is passed on to the constructor of [Essence].
    The key is one of the three column names; the value may be [None]. *)
Inductive Item : Type :=
| name_item (value : option string)
| quantity_item (value : option Z)
| is_done_item (value : option bool).

(** ** schemas.py *)
Module Schemas.

(** How one field arrives in an input payload.  Reading a JSON or query
    value at the field's declared type is pydantic's work and is not
    modelled further: [Given v] is a value that reads as [v] at that type,
    [Mistyped] one that does not read at all. *)
Inductive Raw (T : Type) : Type :=
| Absent                 (* the key is not in the payload *)
| Null                   (* the key is there, with null *)
| Mistyped               (* the key is there, with a value of another type *)
| Given (v : T).
Arguments Absent {T}.
Arguments Null {T}.
Arguments Mistyped {T}.
Arguments Given {T} v.

(** A payload: the three known keys, and the names of all other keys. *)
Record Payload : Type := {
  raw_name : Raw string;
  raw_quantity : Raw Z;
  raw_is_done : Raw bool;
  raw_extra : list string
}.

(** [Field(..., max_length=255)] *)
Definition max_length_255 (s : string) : bool :=
  (String.length s <=? 255)%nat.

(** [Field(..., ge=0)] *)
Definition ge_0 (q : Z) : bool := 0 <=? q.

(** A required field: [Field(..., constraint)]. *)
Definition required {T} (ok : T -> bool) (r : Raw T) : option T :=
  match r with
  | Given v => if ok v then Some v else None
  | Absent | Null | Mistyped => None
  end.

(** A field with a default: [Field(default)]. *)
Definition defaulted {T} (default : T) (r : Raw T) : option T :=
  match r with
  | Absent => Some default
  | Given v => Some v
  | Null | Mistyped => None
  end.

(** [model_config = ConfigDict(extra='forbid')] *)
Definition extra_forbid (p : Payload) : bool :=
  match raw_extra p with [] => true | _ :: _ => false end.

(** [class EssenceBase(BaseModel)]: a validated instance. *)
Record EssenceBase : Type := {
  name : string;
  quantity : Z;
  is_done : bool
}.

Definition EssenceBase_validate (p : Payload) : option EssenceBase :=
  if extra_forbid p then
    match required max_length_255 (raw_name p),
          required ge_0 (raw_quantity p),
          defaulted false (raw_is_done p) with
    | Some n, Some q, Some d =>
        Some {| name := n; quantity := q; is_done := d |}
    | _, _, _ => None
    end
  else None.

(** [class EssenceCreate(EssenceBase)] and [class EssenceReplace(EssenceBase)]
    add nothing to their base class. *)
Definition EssenceCreate : Type := EssenceBase.
Definition EssenceCreate_validate := EssenceBase_validate.
Definition EssenceReplace : Type := EssenceBase.
Definition EssenceReplace_validate := EssenceBase_validate.

(** [model_dump()] of an [EssenceBase]: every field, in declaration order. *)
Definition model_dump (m : EssenceBase) : list Item :=
  [ name_item (Some (name m));
    quantity_item (Some (quantity m));
    is_done_item (Some (is_done m)) ].

(** A field of [EssenceUpdate]: pydantic records whether the field was set
    by the input, and an [Optional] field that was set may hold [None]. *)
Inductive Setting (T : Type) : Type :=
| Unset
| SetTo (value : option T).
Arguments Unset {T}.
Arguments SetTo {T} value.

(** [Optional[T] = Field(None, constraint)] *)
Definition optional {T} (ok : T -> bool) (r : Raw T) : option (Setting T) :=
  match r with
  | Absent => Some Unset
  | Null => Some (SetTo None)
  | Given v => if ok v then Some (SetTo (Some v)) else None
  | Mistyped => None
  end.

(** [class EssenceUpdate(BaseModel)] *)
Record EssenceUpdate : Type := {
  upd_name : Setting string;
  upd_quantity : Setting Z;
  upd_is_done : Setting bool
}.

Definition EssenceUpdate_validate (p : Payload) : option EssenceUpdate :=
  if extra_forbid p then
    match optional max_length_255 (raw_name p),
          optional ge_0 (raw_quantity p),
          optional (fun _ => true) (raw_is_done p) with
    | Some n, Some q, Some d =>
        Some {| upd_name := n; upd_quantity := q; upd_is_done := d |}
    | _, _, _ => None
    end
  else None.

Definition dump_set {T} (item : option T -> Item) (s : Setting T) : list Item :=
  match s with
  | Unset => []
  | SetTo v => [item v]
  end.

(** [model_dump(exclude_unset=True)] of an [EssenceUpdate]. *)
Definition model_dump_exclude_unset (m : EssenceUpdate) : list Item :=
  (dump_set name_item (upd_name m)
  ++ dump_set quantity_item (upd_quantity m)
  ++ dump_set is_done_item (upd_is_done m))%list.

(** [class EssenceOut(EssenceBase)]: the base fields and [id]. *)
Record EssenceOut : Type := {
  out_id : Z;
  out_name : string;
  out_quantity : Z;
  out_is_done : bool
}.

(** [response_model=EssenceOut] with [from_attributes=True]: the answer is
    read from the attributes of the returned object and validated as an
    [EssenceOut], with the constraints it inherits from [EssenceBase]. *)
Definition EssenceOut_validate
    (id : option Z) (name : option string) (quantity : option Z)
    (is_done : option bool) : option EssenceOut :=
  match id, name, quantity, is_done with
  | Some i, Some n, Some q, Some d =>
      if max_length_255 n && ge_0 q
      then Some {| out_id := i; out_name := n;
                   out_quantity := q; out_is_done := d |}
      else None
  | _, _, _, _ => None
  end.

End Schemas.

(** ** models.py *)
Module Models.

(** [class Essence(Base)]: an instance of the mapped class.  Its attributes
    are plain Python attributes: each can hold [None], whatever the column
    says. *)
Record Essence : Type := {
  id : option Z;
  name : option string;
  quantity : option Z;
  is_done : option bool
}.

(** [setattr(essence, key, value)] *)
Definition setattr (essence : Essence) (kv : Item) : Essence :=
  match kv with
  | name_item v =>
      {| id := id essence; name := v;
         quantity := quantity essence; is_done := is_done essence |}
  | quantity_item v =>
      {| id := id essence; name := name essence;
         quantity := v; is_done := is_done essence |}
  | is_done_item v =>
      {| id := id essence; name := name essence;
         quantity := quantity essence; is_done := v |}
  end.

(** The constructor of [Essence], called on the items of a dumped model as
    keyword arguments: it sets the attributes it is given and leaves the
    others [None]. *)
Definition Essence_init (kwargs : list Item) : Essence :=
  fold_left setattr kwargs
    {| id := None; name := None; quantity := None; is_done := None |}.

End Models.

(** ** database.py, the engine: one SQLite table and the statements on it *)
Module sql.
Import Models.

(** A row of the table [essence].  The mapped columns are [Mapped[int]],
    [Mapped[str]], [Mapped[int]] and a [Boolean] with [nullable=False]:
    none of them admits NULL, so a stored row holds four values.  The
    table declares no CHECK constraint. *)
Record Row : Type := {
  row_id : Z;
  row_name : string;
  row_quantity : Z;
  row_is_done : bool
}.

(** What outlives a request: the rows, in rowid order, and the number of
    transactions committed so far. *)
Record Store : Type := {
  table : list Row;
  commits : nat
}.

(** The attributes an object gets when it is loaded from a row. *)
Definition load (r : Row) : Essence :=
  {| id := Some (row_id r); name := Some (row_name r);
     quantity := Some (row_quantity r); is_done := Some (row_is_done r) |}.

(** An SQLite INTEGER holds 64 bits.  The driver raises [OverflowError]
    when it is asked to bind a Python integer that does not fit in them. *)
Definition fits (z : Z) : bool := (- 2 ^ 63 <=? z) && (z <? 2 ^ 63).

(** The integer parameters of a statement bind when each of them fits;
    [None] binds as NULL. *)
Definition binds (v : option Z) : bool :=
  match v with
  | Some z => fits z
  | None => true
  end.

(** The row with a given id.  The ids of a table are 64-bit integers: no
    row has another id. *)
Definition find_row (i : Z) (tbl : list Row) : option Row :=
  if fits i then find (fun r => row_id r =? i) tbl else None.

(** The rowid SQLite gives to a row inserted without one: 1 in an empty
    table, otherwise one more than the largest rowid in the table.  At the
    largest rowid of all, 2^63 - 1, there is no such rowid: see
    [run_insert]. *)
Fixpoint max_rowid (r : Row) (rest : list Row) : Z :=
  match rest with
  | [] => row_id r
  | r' :: rest' => Z.max (row_id r) (max_rowid r' rest')
  end.

Definition next_rowid (tbl : list Row) : Z :=
  match tbl with
  | [] => 1
  | r :: rest => 1 + max_rowid r rest
  end.

(** What the table makes of an [INSERT] whose parameters are bound
    ([run_insert] is the whole statement): the row the object becomes, or
    [None] when a NOT NULL or the primary key constraint fails.  A missing
    [is_done] takes the column default [False]. *)
Definition insert (e : Essence) (tbl : list Row) : option Row :=
  match name e, quantity e with
  | Some n, Some q =>
      let d := match is_done e with Some d => d | None => false end in
      match id e with
      | None =>
          Some {| row_id := next_rowid tbl; row_name := n;
                  row_quantity := q; row_is_done := d |}
      | Some i =>
          match find_row i tbl with
          | None => Some {| row_id := i; row_name := n;
                            row_quantity := q; row_is_done := d |}
          | Some _ => None
          end
      end
  | _, _ => None
  end.

(** What the table makes of an [UPDATE ... WHERE id = ?] whose parameters
    are bound ([run_update] is the whole statement): the new table, or
    [None] when a NOT NULL constraint fails. *)
Definition update (e : Essence) (tbl : list Row) : option (list Row) :=
  match id e, name e, quantity e, is_done e with
  | Some i, Some n, Some q, Some d =>
      Some (map (fun r =>
                   if row_id r =? i
                   then {| row_id := i; row_name := n;
                           row_quantity := q; row_is_done := d |}
                   else r) tbl)
  | _, _, _, _ => None
  end.

(** [DELETE ... WHERE id = ?] *)
Definition delete_row (i : Z) (tbl : list Row) : list Row :=
  filter (fun r => negb (row_id r =? i)) tbl.

(** The INSERT as the session sends it.  The driver binds the parameters
    first and raises [OverflowError] for an integer outside 64 bits; then
    the table checks its constraints.  When the largest rowid in use is
    2^63 - 1 SQLite has no next rowid and tries rowids at random; the model
    does not follow it there and lets the statement fail, as SQLite does
    when it finds none. *)
Definition run_insert (e : Essence) (tbl : list Row) : Exc + Row :=
  if binds (id e) && binds (quantity e) then
    match insert e tbl with
    | Some row => if fits (row_id row) then inr row else inl OperationalError
    | None => inl IntegrityError
    end
  else inl OverflowError.

(** The SET clause of the UPDATE the session sends holds the attributes
    whose value differs from the loaded one: [Some q] when the quantity is
    among them and is not NULL. *)
Definition sets_quantity (e : Essence) (tbl : list Row) : option Z :=
  match quantity e with
  | Some q =>
      match id e with
      | Some i =>
          match find_row i tbl with
          | Some old => if q =? row_quantity old then None else Some q
          | None => Some q
          end
      | None => Some q
      end
  | None => None
  end.

(** The UPDATE as the session sends it: the parameters are bound, then the
    table checks its constraints. *)
Definition run_update (e : Essence) (tbl : list Row) : Exc + list Row :=
  if binds (sets_quantity e tbl) then
    match update e tbl with
    | Some tbl' => inr tbl'
    | None => inl IntegrityError
    end
  else inl OverflowError.

(** *** [select(Essence)] and its clauses *)

(** Lower case as SQLite's [lower()] computes it: on the letters A to Z. *)
Definition lower_char (c : ascii) : ascii :=
  let n := N_of_ascii c in
  if ((65 <=? n) && (n <=? 90))%N then ascii_of_N (n + 32) else c.

Fixpoint lower (s : string) : string :=
  match s with
  | EmptyString => EmptyString
  | String c s' => String (lower_char c) (lower s')
  end.

(** [text LIKE pattern] with no ESCAPE clause, on a pattern and a text
    as SQLite has read them: [%] stands for any run of characters, [_] for
    any one character, every other character of the pattern for itself.
    How far SQLite reads the two, and which patterns it takes, is in
    [like_lower] and [test] below. *)
Fixpoint like (pattern text : string) : bool :=
  match pattern with
  | EmptyString =>
      match text with EmptyString => true | String _ _ => false end
  | String p pattern' =>
      if (p =? "%")%char then
        (fix any_run (t : string) : bool :=
           like pattern' t
           || match t with
              | EmptyString => false
              | String _ t' => any_run t'
              end) text
      else
        match text with
        | EmptyString => false
        | String c text' =>
            ((p =? "_")%char || (p =? c)%char) && like pattern' text'
        end
  end.

(** SQLite matches a pattern against a text as C strings: it reads each
    of them up to its first NUL character. *)
Fixpoint c_string (s : string) : string :=
  match s with
  | EmptyString => EmptyString
  | String c s' =>
      if (c =? zero)%char then EmptyString else String c (c_string s')
  end.

(** The length of a text in UTF-8 bytes: one byte for a character below
    U+0080, two for the others up to U+00FF. *)
Fixpoint utf8_length (s : string) : Z :=
  match s with
  | EmptyString => 0
  | String c s' =>
      (if (N_of_ascii c <? 128)%N then 1 else 2) + utf8_length s'
  end.

(** SQLite refuses a LIKE pattern of more bytes than this: the pattern is
    too complex, it says. *)
Definition SQLITE_MAX_LIKE_PATTERN_LENGTH : Z := 50000.

(** [lower(text) LIKE lower(pattern)], which is what the SQLite dialect
    renders [ilike] as, for a pattern SQLite accepts. *)
Definition like_lower (text pattern : string) : bool :=
  like (c_string (lower pattern)) (c_string (lower text)).

(** The criteria the handlers build: [column.ilike(pattern)],
    [column == value], [column >= value] and [column <= value].  The
    pattern and the values are the bound parameters of the statement. *)
Inductive Criterion : Type :=
| ilike (column : Row -> string) (pattern : string)
| equals (column : Row -> bool) (value : bool)
| at_least (column : Row -> Z) (value : Z)
| at_most (column : Row -> Z) (value : Z).

Definition criterion_binds (criterion : Criterion) : bool :=
  match criterion with
  | ilike _ _ | equals _ _ => true
  | at_least _ value | at_most _ value => fits value
  end.

(** A criterion evaluated on a row.  The LIKE function checks the length
    of its pattern each time it is called. *)
Definition test (criterion : Criterion) (r : Row) : Exc + bool :=
  match criterion with
  | ilike column pattern =>
      if SQLITE_MAX_LIKE_PATTERN_LENGTH <? utf8_length (lower pattern)
      then inl OperationalError
      else inr (like_lower (column r) pattern)
  | equals column value => inr (Bool.eqb (column r) value)
  | at_least column value => inr (value <=? column r)
  | at_most column value => inr (column r <=? value)
  end.

(** The criteria of a WHERE clause are joined by AND and evaluated from
    the left; the first that is false settles the row. *)
Fixpoint test_all (criteria : list Criterion) (r : Row) : Exc + bool :=
  match criteria with
  | [] => inr true
  | criterion :: criteria' =>
      match test criterion r with
      | inl e => inl e
      | inr false => inr false
      | inr true => test_all criteria' r
      end
  end.

(** A [Select]: the WHERE criteria added so far, LIMIT and OFFSET. *)
Record Select : Type := {
  whereclause : list Criterion;
  limit_clause : option Z;
  offset_clause : option Z
}.

Definition select_Essence : Select :=
  {| whereclause := []; limit_clause := None; offset_clause := None |}.

(** [query.where(criterion)]: criteria accumulate and are joined by AND. *)
Definition where_ (query : Select) (criterion : Criterion) : Select :=
  {| whereclause := whereclause query ++ [criterion];
     limit_clause := limit_clause query;
     offset_clause := offset_clause query |}.

Definition limit (query : Select) (n : Z) : Select :=
  {| whereclause := whereclause query;
     limit_clause := Some n;
     offset_clause := offset_clause query |}.

Definition offset (query : Select) (n : Z) : Select :=
  {| whereclause := whereclause query;
     limit_clause := limit_clause query;
     offset_clause := Some n |}.

(** The scan of the table, in rowid order: the rows that pass the
    criteria, but for the first [skip] of them, until [take] rows are out.
    The scan stops there, and it stops at the first row on which a
    criterion fails to evaluate. *)
Fixpoint scan (criteria : list Criterion) (skip : nat) (take : option nat)
    (rows : list Row) : Exc + list Row :=
  match take with
  | Some O => inr []
  | _ =>
      match rows with
      | [] => inr []
      | r :: rows' =>
          match test_all criteria r with
          | inl e => inl e
          | inr false => scan criteria skip take rows'
          | inr true =>
              match skip with
              | S skip' => scan criteria skip' take rows'
              | O =>
                  match scan criteria O (option_map Nat.pred take) rows' with
                  | inl e => inl e
                  | inr out => inr (r :: out)
                  end
              end
          end
      end
  end.

(** The rows a [Select] yields.  The integer parameters are bound first;
    then the table is scanned: the criteria filter, OFFSET skips and LIMIT
    cuts.  A negative OFFSET skips nothing and a negative LIMIT cuts
    nothing. *)
Definition run_select (query : Select) (tbl : list Row) : Exc + list Row :=
  if forallb criterion_binds (whereclause query)
     && binds (limit_clause query) && binds (offset_clause query)
  then
    scan (whereclause query)
         match offset_clause query with
         | Some k => Z.to_nat k
         | None => O
         end
         match limit_clause query with
         | Some n => if n <? 0 then None else Some (Z.to_nat n)
         | None => None
         end
         tbl
  else inl OverflowError.

End sql.

(** ** database.py, the session: what [AsyncSessionLocal()] hands to a request *)
Module db.
Import Models.
Import sql.

(** The states of an object with respect to its session. *)
Inductive ObjState : Type :=
| Transient | Pending | Persistent | Deleted | Detached
| Expired.   (* persistent, its attributes to be loaded again *)

(** A Python reference to an [Essence] object of the request. *)
Definition ref : Type := nat.

(** [AsyncSession]: the store it talks to and the objects it has seen.
    An object a handler constructs lives here too, transient until added. *)
Record Session : Type := {
  store : Store;
  objects : list (ObjState * Essence)
}.

(** A coroutine that runs against a session. *)
Definition M (A : Type) : Type := Session -> (Exc + A) * Session.

Definition ret {A} (x : A) : M A := fun s => (inr x, s).

Definition raise {A} (e : Exc) : M A := fun s => (inl e, s).

Definition bind {A B} (c : M A) (k : A -> M B) : M B :=
  fun s =>
    match c s with
    | (inr x, s') => k x s'
    | (inl e, s') => (inl e, s')
    end.

(** [for x in xs: await f(x)] *)
Fixpoint for_each {A} (xs : list A) (f : A -> M unit) : M unit :=
  match xs with
  | [] => ret tt
  | x :: xs' => bind (f x) (fun _ => for_each xs' f)
  end.

(** [[await f(x) for x in xs]] *)
Fixpoint collect {A B} (xs : list A) (f : A -> M B) : M (list B) :=
  match xs with
  | [] => ret []
  | x :: xs' =>
      bind (f x) (fun y => bind (collect xs' f) (fun ys => ret (y :: ys)))
  end.

Fixpoint modify {A} (n : nat) (f : A -> A) (l : list A) : list A :=
  match l, n with
  | [], _ => []
  | x :: l', O => f x :: l'
  | x :: l', S n' => x :: modify n' f l'
  end.

Definition with_objects (s : Session) (objs : list (ObjState * Essence)) : Session :=
  {| store := store s; objects := objs |}.

(** A fresh object, known to nobody but the handler. *)
Definition construct (e : Essence) : M ref :=
  fun s => (inr (List.length (objects s)),
            with_objects s (objects s ++ [(Transient, e)])).

(** Reading the attributes of an object. *)
Definition attributes (r : ref) : M Essence :=
  fun s =>
    match nth_error (objects s) r with
    | Some (_, e) => (inr e, s)
    | None => (inl InvalidRequestError, s)
    end.

(** [setattr(obj, key, value)] on an object of the session. *)
Definition set_attribute (r : ref) (kv : Item) : M unit :=
  fun s =>
    (inr tt,
     with_objects s (modify r (fun o => (fst o, setattr (snd o) kv)) (objects s))).

(** [db.add(obj)] *)
Definition add (r : ref) : M unit :=
  fun s =>
    (inr tt,
     with_objects s
       (modify r (fun o => match fst o with
                           | Transient => (Pending, snd o)
                           | _ => o
                           end) (objects s))).

(** [db.add_all(objs)] *)
Definition add_all (rs : list ref) : M unit := for_each rs add.

(** [await db.get(Essence, i)]: the id is bound to a SELECT. *)
Definition get (i : Z) : M (option ref) :=
  fun s =>
    if fits i then
      match find_row i (table (store s)) with
      | Some row =>
          (inr (Some (List.length (objects s))),
           with_objects s (objects s ++ [(Persistent, load row)]))
      | None => (inr None, s)
      end
    else (inl OverflowError, s).

(** [await db.delete(obj)] *)
Definition delete (r : ref) : M unit :=
  fun s =>
    match nth_error (objects s) r with
    | Some (Persistent, _) =>
        (inr tt,
         with_objects s (modify r (fun o => (Deleted, snd o)) (objects s)))
    | _ => (inl InvalidRequestError, s)
    end.

(** The flush inside a commit: every object of the session is written in
    turn, until a statement fails. *)
Fixpoint flush (objs : list (ObjState * Essence)) (tbl : list Row)
  : Exc + (list (ObjState * Essence) * list Row) :=
  match objs with
  | [] => inr ([], tbl)
  | (Pending, e) :: rest =>
      match run_insert e tbl with
      | inr row =>
          match flush rest (tbl ++ [row]) with
          | inr (rest', tbl') => inr ((Persistent, load row) :: rest', tbl')
          | inl exc => inl exc
          end
      | inl exc => inl exc
      end
  | (Persistent, e) :: rest =>
      match run_update e tbl with
      | inr tbl1 =>
          match flush rest tbl1 with
          | inr (rest', tbl') => inr ((Persistent, e) :: rest', tbl')
          | inl exc => inl exc
          end
      | inl exc => inl exc
      end
  | (Deleted, e) :: rest =>
      let tbl1 := match id e with
                  | Some i => delete_row i tbl
                  | None => tbl
                  end in
      match flush rest tbl1 with
      | inr (rest', tbl') => inr ((Detached, e) :: rest', tbl')
      | inl exc => inl exc
      end
  | o :: rest =>
      match flush rest tbl with
      | inr (rest', tbl') => inr (o :: rest', tbl')
      | inl exc => inl exc
      end
  end.

(** What a rollback does to an object of the session: a pending object
    leaves the session, a persistent one is expired. *)
Definition rolled_back (o : ObjState * Essence) : ObjState * Essence :=
  match fst o with
  | Pending => (Transient, snd o)
  | Persistent | Deleted => (Expired, snd o)
  | _ => o
  end.

(** [await db.commit()]: flush and commit, or roll back and raise what the
    failed statement raised.  After a commit the session keeps its objects
    loaded ([expire_on_commit=False]). *)
Definition commit : M unit :=
  fun s =>
    match flush (objects s) (table (store s)) with
    | inr (objs', tbl') =>
        (inr tt,
         {| store := {| table := tbl'; commits := S (commits (store s)) |};
            objects := objs' |})
    | inl exc => (inl exc, with_objects s (map rolled_back (objects s)))
    end.

(** What [refresh] does to a persistent object. *)
Definition reload (r : ref) (e : Essence) : M unit :=
  fun s =>
    match id e with
    | Some i =>
        match find_row i (table (store s)) with
        | Some row =>
            (inr tt,
             with_objects s
               (modify r (fun _ => (Persistent, load row)) (objects s)))
        | None => (inl InvalidRequestError, s)
        end
    | None => (inl InvalidRequestError, s)
    end.

(** [await db.refresh(obj)]: the attributes are read again from the row. *)
Definition refresh (r : ref) : M unit :=
  fun s =>
    match nth_error (objects s) r with
    | Some (Persistent, e) | Some (Expired, e) => reload r e s
    | _ => (inl InvalidRequestError, s)
    end.

(** [(await db.execute(query)).scalars().all()]: the rows, each loaded as
    an object of the session. *)
Definition execute (query : Select) : M (list ref) :=
  fun s =>
    match run_select query (table (store s)) with
    | inr rows =>
        collect rows
                (fun row s' =>
                   (inr (List.length (objects s')),
                    with_objects s' (objects s' ++ [(Persistent, load row)])))
                s
    | inl exc => (inl exc, s)
    end.

End db.

Declare Scope coroutine_scope.
Delimit Scope coroutine_scope with coroutine.
Notation "x <- c ;; k" := (db.bind c (fun x => k))
  (at level 61, c at next level, right associativity) : coroutine_scope.
Notation "c ;; k" := (db.bind c (fun _ => k))
  (at level 61, right associativity) : coroutine_scope.

(** ** routers.py *)
Module Routers.
Import Schemas.
Local Open Scope coroutine_scope.

(** *** The handlers *)

(** [if name:] *)
Definition truthy (s : string) : bool :=
  match s with EmptyString => false | String _ _ => true end.

Definition list_essences
    (name : option string) (is_done : option bool)
    (min_quantity max_quantity : option Z) (limit offset : Z)
  : db.M (list db.ref) :=
  let query := sql.select_Essence in
  let query :=
    match name with
    | Some name =>
        if truthy name
        then sql.where_ query (sql.ilike sql.row_name ("%" ++ name ++ "%")%string)
        else query
    | None => query
    end in
  let query :=
    match is_done with
    | Some is_done =>
        sql.where_ query (sql.equals sql.row_is_done is_done)
    | None => query
    end in
  let query :=
    match min_quantity with
    | Some min_quantity =>
        sql.where_ query (sql.at_least sql.row_quantity min_quantity)
    | None => query
    end in
  let query :=
    match max_quantity with
    | Some max_quantity =>
        sql.where_ query (sql.at_most sql.row_quantity max_quantity)
    | None => query
    end in
  db.execute (sql.offset (sql.limit query limit) offset).

Definition get_essence (essence_id : Z) : db.M db.ref :=
  essence <- db.get essence_id ;;
  match essence with
  | None => db.raise (HTTPException HTTP_404_NOT_FOUND)
  | Some essence => db.ret essence
  end.

Definition create_essences_bulk (essences_in : list EssenceCreate)
  : db.M (list db.ref) :=
  essences <- db.collect essences_in
                (fun item => db.construct (Models.Essence_init (model_dump item))) ;;
  db.add_all essences ;;
  db.commit ;;
  db.for_each essences db.refresh ;;
  db.ret essences.

Definition create_essence (essence_in : EssenceCreate) : db.M db.ref :=
  essence <- db.construct (Models.Essence_init (model_dump essence_in)) ;;
  db.add essence ;;
  db.commit ;;
  db.refresh essence ;;
  db.ret essence.

Definition put_essence (essence_id : Z) (essence_in : EssenceReplace)
  : db.M db.ref :=
  essence <- db.get essence_id ;;
  match essence with
  | None => db.raise (HTTPException HTTP_404_NOT_FOUND)
  | Some essence =>
      db.for_each (model_dump essence_in)
        (fun kv => db.set_attribute essence kv) ;;
      db.commit ;;
      db.refresh essence ;;
      db.ret essence
  end.

Definition patch_essence (essence_id : Z) (essence_in : EssenceUpdate)
  : db.M db.ref :=
  essence <- db.get essence_id ;;
  match essence with
  | None => db.raise (HTTPException HTTP_404_NOT_FOUND)
  | Some essence =>
      db.for_each (model_dump_exclude_unset essence_in)
        (fun kv => db.set_attribute essence kv) ;;
      db.commit ;;
      db.refresh essence ;;
      db.ret essence
  end.

(** The handler returns [Response(status_code=204)]: no content. *)
Definition delete_essence (essence_id : Z) : db.M unit :=
  essence <- db.get essence_id ;;
  match essence with
  | None => db.raise (HTTPException HTTP_404_NOT_FOUND)
  | Some essence =>
      db.delete essence ;;
      db.commit ;;
      db.ret tt
  end.

(** *** The routes: how a request reaches a handler and leaves it *)

(** What the client gets: a status with a content, or the exception that
    left the request ([status_of] gives its status). *)
Inductive Response (A : Type) : Type :=
| Answer (status_code : Z) (content : A)
| Error (e : Exc).
Arguments Answer {A} status_code content.
Arguments Error {A} e.

Definition status {A} (r : Response A) : Z :=
  match r with
  | Answer c _ => c
  | Error e => status_of e
  end.

(** [response_model=EssenceOut] *)
Definition response_EssenceOut (essence : db.ref) : db.M EssenceOut :=
  e <- db.attributes essence ;;
  match EssenceOut_validate (Models.id e) (Models.name e)
          (Models.quantity e) (Models.is_done e) with
  | Some out => db.ret out
  | None => db.raise ResponseValidationError
  end.

(** [response_model=List[EssenceOut]] *)
Definition response_List_EssenceOut (essences : list db.ref)
  : db.M (list EssenceOut) :=
  db.collect essences response_EssenceOut.

(** One request: [get_db] opens a session on the store, the handler runs,
    its result goes through the response model, and the session is closed.
    Whatever was not committed is lost with the session. *)
Definition serve {A B} (status_code : Z) (handler : db.M A)
    (response_model : A -> db.M B) (st : sql.Store)
  : Response B * sql.Store :=
  match (x <- handler ;; response_model x)
          {| db.store := st; db.objects := [] |} with
  | (inr content, s) => (Answer status_code content, db.store s)
  | (inl e, s) => (Error e, db.store s)
  end.

(** The body of a request, once parsed as JSON. *)
Inductive Body : Type :=
| NoBody
| Object (p : Payload)
| Array (items : list Payload).

(** A request to one of the routes: its query string and its body. *)
Record Request : Type := {
  query : Payload;
  body : Body
}.

(** [Annotated[EssenceCreate, Depends()]]: the class is the dependency, so
    its fields are the parameters of the dependency and are looked up in
    the query string; a key of the query that is no parameter is not looked
    at. *)
Definition Depends_EssenceCreate (req : Request) : option EssenceCreate :=
  EssenceCreate_validate
    {| raw_name := raw_name (query req);
       raw_quantity := raw_quantity (query req);
       raw_is_done := raw_is_done (query req);
       raw_extra := [] |}.

(** A parameter annotated with a model alone is read from the body. *)
Definition Body_model {A} (validate : Payload -> option A) (req : Request)
  : option A :=
  match body req with
  | Object p => validate p
  | NoBody | Array _ => None
  end.

Fixpoint validate_each {A} (validate : Payload -> option A)
    (items : list Payload) : option (list A) :=
  match items with
  | [] => Some []
  | p :: items' =>
      match validate p, validate_each validate items' with
      | Some x, Some xs => Some (x :: xs)
      | _, _ => None
      end
  end.

(** A parameter annotated [List[model]] is read from the body, a JSON array. *)
Definition Body_List {A} (validate : Payload -> option A) (req : Request)
  : option (list A) :=
  match body req with
  | Array items => validate_each validate items
  | NoBody | Object _ => None
  end.

(** [Query(default=None, ge=0)] *)
Definition Query_ge_0 (v : option Z) : option (option Z) :=
  match v with
  | None => Some None
  | Some n => if 0 <=? n then Some (Some n) else None
  end.

(** [Query(default=10, ge=1, le=100)] *)
Definition Query_limit (v : option Z) : option Z :=
  match v with
  | None => Some 10
  | Some n => if (1 <=? n) && (n <=? 100) then Some n else None
  end.

(** [Query(default=0, ge=0)] *)
Definition Query_offset (v : option Z) : option Z :=
  match v with
  | None => Some 0
  | Some n => if 0 <=? n then Some n else None
  end.

(** [@router.get('')] *)
Definition router_get
    (name : option string) (is_done : option bool)
    (min_quantity max_quantity limit offset : option Z) (st : sql.Store)
  : Response (list EssenceOut) * sql.Store :=
  match Query_ge_0 min_quantity, Query_ge_0 max_quantity,
        Query_limit limit, Query_offset offset with
  | Some min_quantity, Some max_quantity, Some limit, Some offset =>
      serve HTTP_200_OK
        (list_essences name is_done min_quantity max_quantity limit offset)
        response_List_EssenceOut st
  | _, _, _, _ => (Error RequestValidationError, st)
  end.

(** [@router.get('/{essence_id}')] *)
Definition router_get_id (essence_id : Z) (st : sql.Store)
  : Response EssenceOut * sql.Store :=
  serve HTTP_200_OK (get_essence essence_id) response_EssenceOut st.

(** [@router.post('/bulk', status_code=201)] *)
Definition router_post_bulk (req : Request) (st : sql.Store)
  : Response (list EssenceOut) * sql.Store :=
  match Body_List EssenceCreate_validate req with
  | Some essences_in =>
      serve HTTP_201_CREATED (create_essences_bulk essences_in)
        response_List_EssenceOut st
  | None => (Error RequestValidationError, st)
  end.

(** [@router.post('', status_code=201)] *)
Definition router_post (req : Request) (st : sql.Store)
  : Response EssenceOut * sql.Store :=
  match Depends_EssenceCreate req with
  | Some essence_in =>
      serve HTTP_201_CREATED (create_essence essence_in)
        response_EssenceOut st
  | None => (Error RequestValidationError, st)
  end.

(** [@router.put('/{essence_id}')] *)
Definition router_put (essence_id : Z) (req : Request) (st : sql.Store)
  : Response EssenceOut * sql.Store :=
  match Body_model EssenceReplace_validate req with
  | Some essence_in =>
      serve HTTP_200_OK (put_essence essence_id essence_in)
        response_EssenceOut st
  | None => (Error RequestValidationError, st)
  end.

(** [@router.patch('/{essence_id}')] *)
Definition router_patch (essence_id : Z) (req : Request) (st : sql.Store)
  : Response EssenceOut * sql.Store :=
  match Body_model EssenceUpdate_validate req with
  | Some essence_in =>
      serve HTTP_200_OK (patch_essence essence_id essence_in)
        response_EssenceOut st
  | None => (Error RequestValidationError, st)
  end.

(** [@router.delete('/{essence_id}', status_code=204)] *)
Definition router_delete (essence_id : Z) (st : sql.Store)
  : Response unit * sql.Store :=
  serve HTTP_204_NO_CONTENT (delete_essence essence_id) db.ret st.

(** *** The service as a whole *)

(** A call of one of the routes that can write. *)
Inductive Call : Type :=
| POST (req : Request)
| POST_bulk (req : Request)
| PUT (essence_id : Z) (req : Request)
| PATCH (essence_id : Z) (req : Request)
| DELETE (essence_id : Z).

(** The store a call leaves behind. *)
Definition step (st : sql.Store) (c : Call) : sql.Store :=
  match c with
  | POST req => snd (router_post req st)
  | POST_bulk req => snd (router_post_bulk req st)
  | PUT i req => snd (router_put i req st)
  | PATCH i req => snd (router_patch i req st)
  | DELETE i => snd (router_delete i st)
  end.

(** [Base.metadata.create_all] at startup: the table, with no row. *)
Definition startup : sql.Store := {| sql.table := []; sql.commits := 0 |}.

(** The stores the service can be in. *)
Inductive reachable : sql.Store -> Prop :=
| reachable_startup : reachable startup
| reachable_step st c : reachable st -> reachable (step st c).

End Routers.

(** * Properties *)

(** ** The words of the specification *)

Import Schemas.
Import Routers.

(** The record the service shows for a row. *)
Definition shown (r : sql.Row) : EssenceOut :=
  {| out_id := sql.row_id r; out_name := sql.row_name r;
     out_quantity := sql.row_quantity r; out_is_done := sql.row_is_done r |}.

(** A row whose fields meet the constraints of the schemas. *)
Definition row_ok (r : sql.Row) : Prop :=
  (String.length (sql.row_name r) <= 255)%nat /\ 0 <= sql.row_quantity r.

(** A request that carries payload [p] in its body. *)
Definition with_body (p : Payload) : Request :=
  {| query := {| raw_name := Absent; raw_quantity := Absent;
                 raw_is_done := Absent; raw_extra := [] |};
     body := Object p |}.

(** A request that carries payload [p] in its query string. *)
Definition with_query (p : Payload) : Request :=
  {| query := p; body := NoBody |}.

(** The row a validated model becomes when it is inserted. *)
Definition row_of (tbl : list sql.Row) (m : EssenceBase) : sql.Row :=
  {| sql.row_id := sql.next_rowid tbl; sql.row_name := name m;
     sql.row_quantity := quantity m; sql.row_is_done := is_done m |}.

(** The table after [UPDATE essence SET ... WHERE id = i]. *)
Definition updated (i : Z) (new : sql.Row) (tbl : list sql.Row) : list sql.Row :=
  map (fun r => if sql.row_id r =? i then new else r) tbl.

(** What a partial update makes of one column: an unset field keeps the old
    value, a set field brings its own, which may be NULL. *)
Definition merged {T} (s : Setting T) (old : T) : option T :=
  match s with
  | Unset => Some old
  | SetTo v => v
  end.

(** The row a partial update asks the table to hold, if it can be held. *)
Definition patched (u : EssenceUpdate) (row : sql.Row) : option sql.Row :=
  match merged (upd_name u) (sql.row_name row),
        merged (upd_quantity u) (sql.row_quantity row),
        merged (upd_is_done u) (sql.row_is_done row) with
  | Some n, Some q, Some d =>
      Some {| sql.row_id := sql.row_id row; sql.row_name := n;
              sql.row_quantity := q; sql.row_is_done := d |}
  | _, _, _ => None
  end.

(** What the driver makes of the quantity of an UPDATE: a quantity that is
    not the stored one is bound, and has to fit in 64 bits. *)
Definition storable (old : Z) (new : option Z) : bool :=
  match new with
  | Some q => (q =? old) || sql.fits q
  | None => true
  end.

(** The answer for a row that goes through the response model. *)
Definition answer_row (status_code : Z) (r : sql.Row) : Response EssenceOut :=
  match EssenceOut_validate (Some (sql.row_id r)) (Some (sql.row_name r))
          (Some (sql.row_quantity r)) (Some (sql.row_is_done r)) with
  | Some out => Answer status_code out
  | None => Error ResponseValidationError
  end.

(** Payload [p] with one of its fields sent as null. *)
Definition null_name (p : Payload) : Payload :=
  {| raw_name := Null; raw_quantity := raw_quantity p;
     raw_is_done := raw_is_done p; raw_extra := raw_extra p |}.

Definition null_quantity (p : Payload) : Payload :=
  {| raw_name := raw_name p; raw_quantity := Null;
     raw_is_done := raw_is_done p; raw_extra := raw_extra p |}.

Definition null_is_done (p : Payload) : Payload :=
  {| raw_name := raw_name p; raw_quantity := raw_quantity p;
     raw_is_done := Null; raw_extra := raw_extra p |}.

(** The payload with no key at all. *)
Definition empty_payload : Payload :=
  {| raw_name := Absent; raw_quantity := Absent;
     raw_is_done := Absent; raw_extra := [] |}.

(** The object the loop [for key, value in items: setattr(essence, key, value)]
    makes of the object loaded from [row]. *)
Definition after_setattr (items : list Item) (row : sql.Row) : Models.Essence :=
  fold_left Models.setattr items (sql.load row).

(** Sample data. *)
Definition apple : sql.Row :=
  {| sql.row_id := 1; sql.row_name := "Apple"%string;
     sql.row_quantity := 5; sql.row_is_done := false |}.

Definition apricot : sql.Row :=
  {| sql.row_id := 2; sql.row_name := "Apricot"%string;
     sql.row_quantity := 3; sql.row_is_done := true |}.

Definition banana : sql.Row :=
  {| sql.row_id := 3; sql.row_name := "Banana"%string;
     sql.row_quantity := 10; sql.row_is_done := false |}.

Definition fruit : sql.Store :=
  {| sql.table := [apple; apricot; banana]; sql.commits := 3 |}.

Definition payload (n : string) (q : Z) (d : Raw bool) : Payload :=
  {| raw_name := Given n; raw_quantity := Given q;
     raw_is_done := d; raw_extra := [] |}.

(** The rows a sequence of validated models becomes when they are inserted
    one after the other. *)
Fixpoint inserted (tbl : list sql.Row) (ms : list EssenceBase) : list sql.Row :=
  match ms with
  | [] => []
  | m :: ms' => row_of tbl m :: inserted (tbl ++ [row_of tbl m]) ms'
  end.

(** The table has a 64-bit rowid for each of [n] more rows. *)
Definition has_rowids (tbl : list sql.Row) (n : nat) : Prop :=
  forall k : nat, (k < n)%nat ->
    sql.fits (sql.next_rowid tbl + Z.of_nat k) = true.

(** A model whose fields meet the constraints of [EssenceBase]. *)
Definition model_ok (m : EssenceBase) : Prop :=
  max_length_255 (name m) = true /\ ge_0 (quantity m) = true.

(** Row [r] holds the fields of model [m]. *)
Definition holds (m : EssenceBase) (r : sql.Row) : Prop :=
  sql.row_name r = name m /\ sql.row_quantity r = quantity m
  /\ sql.row_is_done r = is_done m.

(** No row of the store has a negative quantity. *)
Definition quantities_ok (st : sql.Store) : Prop :=
  Forall (fun r => 0 <= sql.row_quantity r) (sql.table st).



(** The string of [n] times the character [c]. *)
Fixpoint replicate (n : nat) (c : ascii) : string :=
  match n with
  | O => EmptyString
  | S n' => String c (replicate n' c)
  end.




(** The filters of the list operation, each applied only when supplied. *)
Definition name_filter (name : option string) (r : sql.Row) : bool :=
  match name with
  | Some n => sql.like_lower (sql.row_name r) ("%" ++ n ++ "%")%string
  | None => true
  end.

Definition is_done_filter (is_done : option bool) (r : sql.Row) : bool :=
  match is_done with
  | Some d => Bool.eqb (sql.row_is_done r) d
  | None => true
  end.

Definition min_filter (min_quantity : option Z) (r : sql.Row) : bool :=
  match min_quantity with
  | Some m => m <=? sql.row_quantity r
  | None => true
  end.

Definition max_filter (max_quantity : option Z) (r : sql.Row) : bool :=
  match max_quantity with
  | Some m => sql.row_quantity r <=? m
  | None => true
  end.

Definition all_filters (name : option string) (is_done : option bool)
    (min_quantity max_quantity : option Z) (r : sql.Row) : bool :=
  name_filter name r && is_done_filter is_done r
  && min_filter min_quantity r && max_filter max_quantity r.

(** The WHERE criteria the list handler builds: one for each filter that
    is supplied, in the order of the handler. *)
Definition criteria (name : option string) (is_done : option bool)
    (min_quantity max_quantity : option Z) : list sql.Criterion :=
  match name with
  | Some n =>
      if truthy n
      then [sql.ilike sql.row_name ("%" ++ n ++ "%")%string]
      else []
  | None => []
  end
  ++ match is_done with
     | Some d => [sql.equals sql.row_is_done d]
     | None => []
     end
  ++ match min_quantity with
     | Some m => [sql.at_least sql.row_quantity m]
     | None => []
     end
  ++ match max_quantity with
     | Some m => [sql.at_most sql.row_quantity m]
     | None => []
     end.

(** What LIMIT keeps of the rows that are left. *)
Definition taken {A} (take : option nat) (l : list A) : list A :=
  match take with
  | Some n => firstn n l
  | None => l
  end.

(** A page: skip [offset] items, then keep at most [limit]. *)
Definition page {A} (limit offset : Z) (l : list A) : list A :=
  firstn (Z.to_nat limit) (skipn (Z.to_nat offset) l).

(** The three fields of a payload are those of a valid Create payload:
    a name of at most 255 characters, a quantity of at least 0, and is_done
    given or left out. *)
Definition create_fields_valid (p : Payload) : Prop :=
  (exists n, raw_name p = Given n /\ (String.length n <= 255)%nat)
  /\ (exists q, raw_quantity p = Given q /\ 0 <= q)
  /\ (raw_is_done p = Absent \/ exists d, raw_is_done p = Given d).

(** The value of a query parameter that has a default. *)
Definition or_default {A} (default : A) (v : option A) : A :=
  match v with
  | Some x => x
  | None => default
  end.

(** The ids of a table, in table order. *)
Definition ids (tbl : list sql.Row) : list Z := map sql.row_id tbl.

(** The store after one create per payload, in order, each payload sent
    where the create route reads it. *)
Definition creates (items : list Payload) (st : sql.Store) : sql.Store :=
  fold_left (fun st p => snd (router_post (with_query p) st)) items st.

(** The records those creates answer with, in order. *)
Fixpoint created (items : list Payload) (st : sql.Store)
  : list (Response EssenceOut) :=
  match items with
  | [] => []
  | p :: items' =>
      fst (router_post (with_query p) st)
      :: created items' (snd (router_post (with_query p) st))
  end.

(** A payload one of whose three fields is sent as null. *)
Definition has_null (p : Payload) : Prop :=
  raw_name p = Null \/ raw_quantity p = Null \/ raw_is_done p = Null.

(** A request that carries a sequence of payloads in its body. *)
Definition with_items (items : list Payload) : Request :=
  {| query := empty_payload; body := Array items |}.

(** ** The table *)

Lemma max_rowid_bound (r : sql.Row) (rest : list sql.Row) (x : sql.Row) :
  In x (r :: rest) -> sql.row_id x <= sql.max_rowid r rest.
Proof.
  revert r; induction rest as [|r' rest IH]; intros r [->|Hin]; simpl.
  - lia.
  - destruct Hin.
  - lia.
  - specialize (IH r' Hin). lia.
Qed.

Lemma next_rowid_above (tbl : list sql.Row) (x : sql.Row) :
  In x tbl -> sql.row_id x < sql.next_rowid tbl.
Proof.
  destruct tbl as [|r rest]; [intros []|].
  intros Hin. apply max_rowid_bound in Hin. unfold sql.next_rowid. lia.
Qed.

Lemma fits_iff (z : Z) : sql.fits z = true <-> - 2 ^ 63 <= z < 2 ^ 63.
Proof. unfold sql.fits. rewrite andb_true_iff, Z.leb_le, Z.ltb_lt. tauto. Qed.

Lemma find_row_fits (i : Z) (tbl : list sql.Row) (r : sql.Row) :
  sql.find_row i tbl = Some r -> sql.fits i = true.
Proof. unfold sql.find_row. destruct (sql.fits i); [reflexivity|discriminate]. Qed.

Lemma find_row_none (i : Z) (tbl : list sql.Row) :
  (forall x, In x tbl -> sql.row_id x <> i) -> sql.find_row i tbl = None.
Proof.
  unfold sql.find_row. destruct (sql.fits i); [|reflexivity].
  induction tbl as [|r tbl IH]; simpl; intros H; [reflexivity|].
  destruct (Z.eqb_spec (sql.row_id r) i) as [E|_].
  - exfalso. apply (H r); auto.
  - apply IH. intros x Hx. apply H. auto.
Qed.

Lemma find_row_next_rowid (tbl : list sql.Row) :
  sql.find_row (sql.next_rowid tbl) tbl = None.
Proof.
  apply find_row_none. intros x Hx E.
  apply next_rowid_above in Hx. lia.
Qed.

Lemma find_row_app (i : Z) (tbl more : list sql.Row) :
  sql.find_row i (tbl ++ more) =
  match sql.find_row i tbl with
  | Some r => Some r
  | None => sql.find_row i more
  end.
Proof.
  unfold sql.find_row. destruct (sql.fits i); [|reflexivity].
  induction tbl as [|r tbl IH]; simpl; [reflexivity|].
  destruct (sql.row_id r =? i); [reflexivity|apply IH].
Qed.

Lemma find_row_id (i : Z) (tbl : list sql.Row) (r : sql.Row) :
  sql.find_row i tbl = Some r -> sql.row_id r = i /\ In r tbl.
Proof.
  unfold sql.find_row. destruct (sql.fits i); [|discriminate].
  intros H. apply find_some in H.
  destruct H as [Hin E]. apply Z.eqb_eq in E. auto.
Qed.

Lemma find_row_delete (i j : Z) (tbl : list sql.Row) :
  sql.find_row j (sql.delete_row i tbl) =
  if j =? i then None else sql.find_row j tbl.
Proof.
  unfold sql.find_row, sql.delete_row.
  destruct (sql.fits j); [|destruct (j =? i); reflexivity].
  induction tbl as [|r tbl IH]; simpl.
  - destruct (j =? i); reflexivity.
  - destruct (Z.eqb_spec (sql.row_id r) i) as [E|N]; simpl.
    + rewrite IH. destruct (Z.eqb_spec j i) as [->|N'].
      * reflexivity.
      * destruct (Z.eqb_spec (sql.row_id r) j); [lia|reflexivity].
    + destruct (Z.eqb_spec (sql.row_id r) j) as [E'|N'].
      * destruct (Z.eqb_spec j i); [lia|reflexivity].
      * apply IH.
Qed.

(** What [UPDATE] leaves in place of the rows it touches. *)
Lemma find_row_update (i j : Z) (new : sql.Row) (tbl : list sql.Row) :
  sql.row_id new = i ->
  sql.find_row j (map (fun r => if sql.row_id r =? i then new else r) tbl) =
  if j =? i
  then match sql.find_row i tbl with Some _ => Some new | None => None end
  else sql.find_row j tbl.
Proof.
  intros Hnew. unfold sql.find_row.
  destruct (Z.eqb_spec j i) as [->|Hji].
  - destruct (sql.fits i); [|reflexivity].
    induction tbl as [|r tbl IH]; simpl; [reflexivity|].
    destruct (Z.eqb_spec (sql.row_id r) i) as [E|N]; simpl.
    + rewrite Hnew, Z.eqb_refl. reflexivity.
    + destruct (Z.eqb_spec (sql.row_id r) i); [lia|apply IH].
  - destruct (sql.fits j); [|reflexivity].
    induction tbl as [|r tbl IH]; simpl; [reflexivity|].
    destruct (Z.eqb_spec (sql.row_id r) i) as [E|N]; simpl.
    + rewrite Hnew.
      destruct (Z.eqb_spec i j); [lia|].
      destruct (Z.eqb_spec (sql.row_id r) j); [lia|apply IH].
    + destruct (sql.row_id r =? j); [reflexivity|apply IH].
Qed.

(** ** Requests on a store *)

Arguments EssenceOut_validate : simpl never.

Ltac run_handler :=
  unfold serve, db.bind, db.get, db.ret, db.raise, db.commit, db.refresh,
    db.delete, db.add, db.construct, db.attributes, db.with_objects; simpl.

Lemma get_found (i : Z) (row : sql.Row) (s : db.Session) :
  sql.find_row i (sql.table (db.store s)) = Some row ->
  db.get i s
  = (inr (Some (List.length (db.objects s))),
     db.with_objects s (db.objects s ++ [(db.Persistent, sql.load row)])).
Proof.
  intros Hrow. unfold db.get.
  rewrite (find_row_fits _ _ _ Hrow), Hrow. reflexivity.
Qed.

Lemma get_none (i : Z) (s : db.Session) :
  sql.fits i = true ->
  sql.find_row i (sql.table (db.store s)) = None ->
  db.get i s = (inr None, s).
Proof. intros Hfits Hmissing. unfold db.get. rewrite Hfits, Hmissing. reflexivity. Qed.

Lemma get_overflow (i : Z) (s : db.Session) :
  sql.fits i = false -> db.get i s = (inl OverflowError, s).
Proof. intros Hfits. unfold db.get. rewrite Hfits. reflexivity. Qed.

Section MissingId.
Variables (st : sql.Store) (i : Z).
Hypothesis Hfits : sql.fits i = true.
Hypothesis Hmissing : sql.find_row i (sql.table st) = None.

Lemma get_missing :
  router_get_id i st = (Error (HTTPException HTTP_404_NOT_FOUND), st).
Proof.
  unfold router_get_id, get_essence. run_handler.
  rewrite Hfits, Hmissing. reflexivity.
Qed.

Lemma put_missing (req : Request) (essence_in : EssenceReplace) :
  Body_model EssenceReplace_validate req = Some essence_in ->
  router_put i req st = (Error (HTTPException HTTP_404_NOT_FOUND), st).
Proof.
  intros Hbody. unfold router_put, put_essence.
  rewrite Hbody. run_handler. rewrite Hfits, Hmissing. reflexivity.
Qed.

Lemma patch_missing (req : Request) (essence_in : EssenceUpdate) :
  Body_model EssenceUpdate_validate req = Some essence_in ->
  router_patch i req st = (Error (HTTPException HTTP_404_NOT_FOUND), st).
Proof.
  intros Hbody. unfold router_patch, patch_essence.
  rewrite Hbody. run_handler. rewrite Hfits, Hmissing. reflexivity.
Qed.

Lemma delete_missing :
  router_delete i st = (Error (HTTPException HTTP_404_NOT_FOUND), st).
Proof.
  unfold router_delete, delete_essence. run_handler.
  rewrite Hfits, Hmissing. reflexivity.
Qed.
End MissingId.

(** An id outside 64 bits does not reach the table. *)
Section UnboundId.
Variables (st : sql.Store) (i : Z).
Hypothesis Hfits : sql.fits i = false.

Lemma get_unbound : router_get_id i st = (Error OverflowError, st).
Proof.
  unfold router_get_id, get_essence. run_handler.
  rewrite Hfits. reflexivity.
Qed.

Lemma put_unbound (req : Request) (essence_in : EssenceReplace) :
  Body_model EssenceReplace_validate req = Some essence_in ->
  router_put i req st = (Error OverflowError, st).
Proof.
  intros Hbody. unfold router_put, put_essence.
  rewrite Hbody. run_handler. rewrite Hfits. reflexivity.
Qed.

Lemma patch_unbound (req : Request) (essence_in : EssenceUpdate) :
  Body_model EssenceUpdate_validate req = Some essence_in ->
  router_patch i req st = (Error OverflowError, st).
Proof.
  intros Hbody. unfold router_patch, patch_essence.
  rewrite Hbody. run_handler. rewrite Hfits. reflexivity.
Qed.

Lemma delete_unbound : router_delete i st = (Error OverflowError, st).
Proof.
  unfold router_delete, delete_essence. run_handler.
  rewrite Hfits. reflexivity.
Qed.
End UnboundId.

(** C7. For an id within the 64 bits of an SQLite integer that has no row
    in the table (never created, or deleted since), get-by-id, full-replace,
    partial-update and delete each answer 404 and leave the store as it
    was.  For full-replace and partial-update the body is one that passes
    validation: the handler is not entered otherwise. *)
Theorem missing_id_not_found (st : sql.Store) (i : Z)
    (Hfits : - 2 ^ 63 <= i < 2 ^ 63)
    (Hmissing : sql.find_row i (sql.table st) = None) :
  router_get_id i st = (Error (HTTPException HTTP_404_NOT_FOUND), st)
  /\ (forall req essence_in,
         Body_model EssenceReplace_validate req = Some essence_in ->
         router_put i req st = (Error (HTTPException HTTP_404_NOT_FOUND), st))
  /\ (forall req essence_in,
         Body_model EssenceUpdate_validate req = Some essence_in ->
         router_patch i req st = (Error (HTTPException HTTP_404_NOT_FOUND), st))
  /\ router_delete i st = (Error (HTTPException HTTP_404_NOT_FOUND), st)
  /\ status (@Error unit (HTTPException HTTP_404_NOT_FOUND)) = 404.
Proof.
  apply fits_iff in Hfits.
  split; [|split; [|split; [|split]]].
  - apply get_missing; assumption.
  - intros req essence_in. apply put_missing; assumption.
  - intros req essence_in. apply patch_missing; assumption.
  - apply delete_missing; assumption.
  - reflexivity.
Qed.

Lemma missing_id_not_found_witness :
  router_put 7 (with_body (payload "a" 1 (Given true))) startup
    = (Error (HTTPException HTTP_404_NOT_FOUND), startup)
  /\ router_patch 7 (with_body (payload "a" 1 (Given true))) startup
    = (Error (HTTPException HTTP_404_NOT_FOUND), startup)
  /\ router_delete 7 startup
    = (Error (HTTPException HTTP_404_NOT_FOUND), startup).
Proof.
  destruct (missing_id_not_found startup 7 ltac:(lia) eq_refl)
    as (_ & Hput & Hpatch & Hdel & _).
  split; [|split].
  - eapply Hput. reflexivity.
  - eapply Hpatch. reflexivity.
  - exact Hdel.
Defined.

(** C7, as it is stated, fails at an id that no SQLite integer holds:
    2^63 has no row, and each of the four operations answers 500 for it,
    the driver refusing to bind the id. *)
Lemma missing_id_beyond_64_bits :
  let i := 2 ^ 63 in
  sql.find_row i (sql.table fruit) = None
  /\ router_get_id i fruit = (Error OverflowError, fruit)
  /\ router_put i (with_body (payload "a" 1 (Given true))) fruit
     = (Error OverflowError, fruit)
  /\ router_patch i (with_body (payload "a" 1 (Given true))) fruit
     = (Error OverflowError, fruit)
  /\ router_delete i fruit = (Error OverflowError, fruit)
  /\ status (@Error unit OverflowError) = 500.
Proof. repeat split. Qed.

(** C8. Deleting an id that has a row answers 204 with no content and
    removes the row in one commit, leaving every other id as it was; the same
    delete again answers 404 and the row stays absent. *)
Theorem delete_then_delete_again (st : sql.Store) (i : Z) (row : sql.Row)
    (Hrow : sql.find_row i (sql.table st) = Some row) :
  let st1 := {| sql.table := sql.delete_row i (sql.table st);
                sql.commits := S (sql.commits st) |} in
  router_delete i st = (Answer HTTP_204_NO_CONTENT tt, st1)
  /\ sql.find_row i (sql.table st1) = None
  /\ (forall j, j <> i ->
        sql.find_row j (sql.table st1) = sql.find_row j (sql.table st))
  /\ router_delete i st1 = (Error (HTTPException HTTP_404_NOT_FOUND), st1)
  /\ router_get_id i st1 = (Error (HTTPException HTTP_404_NOT_FOUND), st1).
Proof.
  intros st1.
  assert (Hgone : sql.find_row i (sql.table st1) = None).
  { simpl. rewrite find_row_delete, Z.eqb_refl. reflexivity. }
  pose proof (find_row_fits _ _ _ Hrow) as Hfits.
  split; [|split; [exact Hgone|split; [|split]]].
  - unfold router_delete, delete_essence. run_handler.
    rewrite Hfits, Hrow. simpl.
    destruct (find_row_id _ _ _ Hrow) as [-> _]. reflexivity.
  - intros j Hj. simpl. rewrite find_row_delete.
    destruct (Z.eqb_spec j i); [contradiction|reflexivity].
  - apply delete_missing; assumption.
  - apply get_missing; assumption.
Qed.

Lemma delete_then_delete_again_witness :
  router_delete 2 fruit
    = (Answer HTTP_204_NO_CONTENT tt,
       {| sql.table := [apple; banana]; sql.commits := 4 |})
  /\ router_delete 2 {| sql.table := [apple; banana]; sql.commits := 4 |}
    = (Error (HTTPException HTTP_404_NOT_FOUND),
       {| sql.table := [apple; banana]; sql.commits := 4 |}).
Proof.
  destruct (delete_then_delete_again fruit 2 apricot eq_refl)
    as (H1 & _ & _ & H2 & _).
  split; [exact H1|exact H2].
Defined.

(** *** Validation *)

Lemma EssenceBase_validate_sound (p : Payload) (m : EssenceBase) :
  EssenceBase_validate p = Some m ->
  max_length_255 (name m) = true /\ ge_0 (quantity m) = true.
Proof.
  unfold EssenceBase_validate, required, defaulted.
  destruct (extra_forbid p); [|discriminate].
  destruct (raw_name p) as [| | |n]; try discriminate.
  destruct (max_length_255 n) eqn:Hn; [|discriminate].
  destruct (raw_quantity p) as [| | |q]; try discriminate.
  destruct (ge_0 q) eqn:Hq; [|discriminate].
  destruct (raw_is_done p); try discriminate;
    intros [= <-]; simpl; auto.
Qed.

Lemma response_ok (i : Z) (n : string) (q : Z) (d : bool) :
  max_length_255 n = true -> ge_0 q = true ->
  EssenceOut_validate (Some i) (Some n) (Some q) (Some d) =
  Some {| out_id := i; out_name := n; out_quantity := q; out_is_done := d |}.
Proof.
  intros Hn Hq. unfold EssenceOut_validate. rewrite Hn, Hq. reflexivity.
Qed.

Lemma row_eta (r : sql.Row) :
  {| sql.row_id := sql.row_id r; sql.row_name := sql.row_name r;
     sql.row_quantity := sql.row_quantity r;
     sql.row_is_done := sql.row_is_done r |} = r.
Proof. destruct r; reflexivity. Qed.

Lemma answer_row_ok (c : Z) (r : sql.Row) :
  row_ok r -> answer_row c r = Answer c (shown r).
Proof.
  intros [Hn Hq]. unfold answer_row.
  rewrite response_ok; [reflexivity| |].
  - apply Nat.leb_le, Hn.
  - apply Z.leb_le, Hq.
Qed.

Lemma answer_row_inv (c : Z) (r : sql.Row) (out : EssenceOut) :
  answer_row c r = Answer c out -> out = shown r.
Proof.
  unfold answer_row, EssenceOut_validate.
  destruct (max_length_255 (sql.row_name r) && ge_0 (sql.row_quantity r));
    [|discriminate].
  intros [= <-]. reflexivity.
Qed.

Lemma run_insert_model (tbl : list sql.Row) (m : EssenceBase) :
  sql.run_insert (Models.Essence_init (model_dump m)) tbl
  = if sql.fits (quantity m)
    then if sql.fits (sql.next_rowid tbl)
         then inr (row_of tbl m)
         else inl OperationalError
    else inl OverflowError.
Proof.
  unfold sql.run_insert. simpl.
  destruct (sql.fits (quantity m)); [|reflexivity].
  destruct (sql.fits (sql.next_rowid tbl)); reflexivity.
Qed.

Lemma find_row_appended (tbl : list sql.Row) (row : sql.Row) :
  sql.row_id row = sql.next_rowid tbl ->
  sql.fits (sql.next_rowid tbl) = true ->
  sql.find_row (sql.next_rowid tbl) (tbl ++ [row]) = Some row.
Proof.
  intros Hid Hfits. rewrite find_row_app, find_row_next_rowid.
  unfold sql.find_row. rewrite Hfits. simpl. rewrite Hid, Z.eqb_refl.
  reflexivity.
Qed.

(** What a create does, whatever the model: the driver binds the quantity,
    the table hands out a rowid, and the row goes through the response
    model. *)
Lemma create_serve (st : sql.Store) (m : EssenceCreate) :
  serve HTTP_201_CREATED (create_essence m) response_EssenceOut st =
  if sql.fits (quantity m)
  then if sql.fits (sql.next_rowid (sql.table st))
       then (answer_row HTTP_201_CREATED (row_of (sql.table st) m),
             {| sql.table := sql.table st ++ [row_of (sql.table st) m];
                sql.commits := S (sql.commits st) |})
       else (Error OperationalError, st)
  else (Error OverflowError, st).
Proof.
  unfold create_essence, response_EssenceOut. run_handler.
  rewrite run_insert_model.
  destruct (sql.fits (quantity m)); [|reflexivity].
  destruct (sql.fits (sql.next_rowid (sql.table st))) eqn:Hfi; [|reflexivity].
  simpl. unfold db.reload. simpl.
  rewrite find_row_appended by (reflexivity || assumption). simpl.
  unfold answer_row. simpl.
  destruct (EssenceOut_validate _ _ _ _); reflexivity.
Qed.

Lemma create_run (st : sql.Store) (m : EssenceCreate) :
  max_length_255 (name m) = true -> ge_0 (quantity m) = true ->
  sql.fits (quantity m) = true ->
  sql.fits (sql.next_rowid (sql.table st)) = true ->
  serve HTTP_201_CREATED (create_essence m) response_EssenceOut st =
  (Answer HTTP_201_CREATED (shown (row_of (sql.table st) m)),
   {| sql.table := sql.table st ++ [row_of (sql.table st) m];
      sql.commits := S (sql.commits st) |}).
Proof.
  intros Hn Hq Hfq Hfi. rewrite create_serve, Hfq, Hfi.
  rewrite answer_row_ok; [reflexivity|].
  split; [apply Nat.leb_le, Hn|apply Z.leb_le, Hq].
Qed.

Lemma get_run (st : sql.Store) (i : Z) (row : sql.Row) :
  sql.find_row i (sql.table st) = Some row ->
  max_length_255 (sql.row_name row) = true ->
  ge_0 (sql.row_quantity row) = true ->
  router_get_id i st = (Answer HTTP_200_OK (shown row), st).
Proof.
  intros Hrow Hn Hq.
  unfold router_get_id, get_essence, response_EssenceOut. run_handler.
  rewrite (find_row_fits _ _ _ Hrow), Hrow. simpl.
  rewrite response_ok by assumption.
  destruct st; reflexivity.
Qed.

Lemma Depends_EssenceCreate_valid (req : Request) (n : string) (q : Z) (d : bool) :
  raw_name (query req) = Given n -> (String.length n <= 255)%nat ->
  raw_quantity (query req) = Given q -> 0 <= q ->
  raw_is_done (query req) = Given d
  \/ (raw_is_done (query req) = Absent /\ d = false) ->
  Depends_EssenceCreate req = Some {| name := n; quantity := q; is_done := d |}.
Proof.
  intros Hname Hlen Hquantity Hq Hdone.
  unfold Depends_EssenceCreate, EssenceCreate_validate, EssenceBase_validate.
  simpl. rewrite Hname, Hquantity. simpl.
  unfold max_length_255, ge_0.
  destruct (Nat.leb_spec (String.length n) 255); [|lia].
  destruct (Z.leb_spec 0 q); [|lia].
  destruct Hdone as [->|[-> ->]]; reflexivity.
Qed.

(** C1. A valid Create payload (name of at most 255 characters, quantity
    from 0 to 2^63 - 1, is_done given or left out, then false), handed to
    the create route where the route reads it, on a table whose next rowid
    is a 64-bit integer, is answered 201 with a record that has the
    payload's fields and an id no row had; the row is appended to the table
    in one commit, and get-by-id with that id then answers the same
    record. *)
Theorem create_then_get (st : sql.Store) (req : Request)
    (n : string) (q : Z) (d : bool)
    (Hname : raw_name (query req) = Given n)
    (Hlen : (String.length n <= 255)%nat)
    (Hquantity : raw_quantity (query req) = Given q)
    (Hq : 0 <= q < 2 ^ 63)
    (Hdone : raw_is_done (query req) = Given d
             \/ (raw_is_done (query req) = Absent /\ d = false))
    (Hroom : sql.fits (sql.next_rowid (sql.table st)) = true) :
  let i := sql.next_rowid (sql.table st) in
  let created := {| out_id := i; out_name := n;
                    out_quantity := q; out_is_done := d |} in
  let st' := {| sql.table := sql.table st ++
                  [ {| sql.row_id := i; sql.row_name := n;
                       sql.row_quantity := q; sql.row_is_done := d |} ];
                sql.commits := S (sql.commits st) |} in
  sql.find_row i (sql.table st) = None
  /\ router_post req st = (Answer HTTP_201_CREATED created, st')
  /\ router_get_id i st' = (Answer HTTP_200_OK created, st').
Proof.
  pose proof (Depends_EssenceCreate_valid req n q d
                Hname Hlen Hquantity (proj1 Hq) Hdone) as Hvalid.
  assert (Hn : max_length_255 n = true)
    by (apply Nat.leb_le; exact Hlen).
  assert (Hge : ge_0 q = true) by (apply Z.leb_le; apply Hq).
  assert (Hfq : sql.fits q = true) by (apply fits_iff; lia).
  simpl.
  split; [apply find_row_next_rowid|split].
  - unfold router_post. rewrite Hvalid.
    rewrite create_run by assumption. reflexivity.
  - apply (get_run _ _ {| sql.row_id := sql.next_rowid (sql.table st);
                          sql.row_name := n; sql.row_quantity := q;
                          sql.row_is_done := d |}); try assumption.
    simpl. apply find_row_appended; [reflexivity|assumption].
Qed.

Lemma create_then_get_witness :
  router_post (with_query (payload "Cherry" 0 Absent)) fruit
    = (Answer HTTP_201_CREATED
         {| out_id := 4; out_name := "Cherry"; out_quantity := 0;
            out_is_done := false |},
       {| sql.table := [apple; apricot; banana;
                        {| sql.row_id := 4; sql.row_name := "Cherry";
                           sql.row_quantity := 0; sql.row_is_done := false |}];
          sql.commits := 4 |}).
Proof.
  destruct (create_then_get fruit (with_query (payload "Cherry" 0 Absent))
              "Cherry" 0 false eq_refl) as (Hnew & Hpost & Hget).
  - simpl. lia.
  - reflexivity.
  - lia.
  - right. split; reflexivity.
  - reflexivity.
  - exact Hpost.
Defined.

(** C1, as it is stated, fails at a quantity that no SQLite integer
    holds.  The payload is a valid Create payload, for the schema bounds the
    quantity from below only; the driver refuses to bind 2^63, the create is
    answered 500 and no row is stored. *)
Lemma create_beyond_64_bits :
  let p := payload "Cherry" (2 ^ 63) Absent in
  Depends_EssenceCreate (with_query p)
  = Some {| name := "Cherry"; quantity := 2 ^ 63; is_done := false |}
  /\ router_post (with_query p) fruit = (Error OverflowError, fruit)
  /\ status (@Error EssenceOut OverflowError) = 500.
Proof. repeat split. Qed.

Lemma commit_persistent (st : sql.Store) (e : Models.Essence) :
  db.commit {| db.store := st; db.objects := [(db.Persistent, e)] |}
  = match sql.run_update e (sql.table st) with
    | inr tbl' =>
        (inr tt,
         {| db.store := {| sql.table := tbl'; sql.commits := S (sql.commits st) |};
            db.objects := [(db.Persistent, e)] |})
    | inl exc =>
        (inl exc, {| db.store := st; db.objects := [(db.Expired, e)] |})
    end.
Proof.
  unfold db.commit. simpl.
  destruct (sql.run_update e (sql.table st)); reflexivity.
Qed.

Lemma run_update_loaded (tbl : list sql.Row) (i : Z) (row : sql.Row)
    (n : option string) (q : option Z) (d : option bool) :
  sql.find_row i tbl = Some row ->
  sql.run_update {| Models.id := Some i; Models.name := n;
                    Models.quantity := q; Models.is_done := d |} tbl
  = if storable (sql.row_quantity row) q
    then match n, q, d with
         | Some n, Some q, Some d =>
             inr (updated i {| sql.row_id := i; sql.row_name := n;
                               sql.row_quantity := q; sql.row_is_done := d |} tbl)
         | _, _, _ => inl IntegrityError
         end
    else inl OverflowError.
Proof.
  intros Hrow. unfold sql.run_update, sql.sets_quantity, storable. simpl.
  rewrite Hrow.
  destruct q as [q|]; simpl.
  - destruct (q =? sql.row_quantity row); simpl.
    + destruct n, d; reflexivity.
    + destruct (sql.fits q); [|reflexivity]. destruct n, d; reflexivity.
  - destruct n; reflexivity.
Qed.

Lemma put_serve (st : sql.Store) (i : Z) (row : sql.Row) (m : EssenceReplace) :
  sql.find_row i (sql.table st) = Some row ->
  let new := {| sql.row_id := i; sql.row_name := name m;
                sql.row_quantity := quantity m; sql.row_is_done := is_done m |} in
  serve HTTP_200_OK (put_essence i m) response_EssenceOut st =
  if storable (sql.row_quantity row) (Some (quantity m))
  then (answer_row HTTP_200_OK new,
        {| sql.table := updated i new (sql.table st);
           sql.commits := S (sql.commits st) |})
  else (Error OverflowError, st).
Proof.
  intros Hrow new.
  destruct (find_row_id _ _ _ Hrow) as [Hid _].
  unfold serve, put_essence, db.bind.
  rewrite (get_found i row) by exact Hrow.
  cbn. rewrite Hid.
  unfold db.with_objects. cbn [db.store].
  rewrite commit_persistent, (run_update_loaded _ _ row) by exact Hrow.
  unfold storable.
  destruct ((quantity m =? sql.row_quantity row) || sql.fits (quantity m));
    [|reflexivity].
  fold new. unfold db.refresh, db.reload, response_EssenceOut, db.bind,
    db.attributes, db.ret, db.raise, db.with_objects, updated. cbn.
  rewrite find_row_update by reflexivity.
  rewrite Z.eqb_refl, Hrow. cbn. unfold answer_row. cbn.
  destruct (EssenceOut_validate _ _ _ _); reflexivity.
Qed.

Lemma put_run (st : sql.Store) (i : Z) (row : sql.Row) (m : EssenceReplace) :
  sql.find_row i (sql.table st) = Some row ->
  max_length_255 (name m) = true -> ge_0 (quantity m) = true ->
  sql.fits (quantity m) = true ->
  let new := {| sql.row_id := i; sql.row_name := name m;
                sql.row_quantity := quantity m; sql.row_is_done := is_done m |} in
  serve HTTP_200_OK (put_essence i m) response_EssenceOut st =
  (Answer HTTP_200_OK (shown new),
   {| sql.table := updated i new (sql.table st);
      sql.commits := S (sql.commits st) |}).
Proof.
  intros Hrow Hn Hq Hfq new.
  rewrite (put_serve st i row m Hrow). unfold storable.
  rewrite Hfq, orb_true_r. fold new.
  rewrite answer_row_ok; [reflexivity|].
  split; [apply Nat.leb_le, Hn|apply Z.leb_le, Hq].
Qed.

Lemma patch_serve (st : sql.Store) (i : Z) (row : sql.Row) (u : EssenceUpdate) :
  sql.find_row i (sql.table st) = Some row ->
  serve HTTP_200_OK (patch_essence i u) response_EssenceOut st =
  if storable (sql.row_quantity row)
       (merged (upd_quantity u) (sql.row_quantity row))
  then match patched u row with
       | Some new =>
           (answer_row HTTP_200_OK new,
            {| sql.table := updated i new (sql.table st);
               sql.commits := S (sql.commits st) |})
       | None => (Error IntegrityError, st)
       end
  else (Error OverflowError, st).
Proof.
  intros Hrow.
  destruct (find_row_id _ _ _ Hrow) as [Hid _].
  unfold serve, patch_essence, db.bind.
  rewrite (get_found i row) by exact Hrow.
  destruct u as [[|n] [|q] [|d]]; cbn; unfold sql.load; rewrite ?Hid;
    unfold db.with_objects; cbn [db.store];
    rewrite commit_persistent, (run_update_loaded _ _ row) by exact Hrow;
    unfold storable, patched; cbn [merged upd_name upd_quantity upd_is_done];
    rewrite ?Z.eqb_refl; cbn [orb].
  all: try (destruct q as [q|]; [destruct ((q =? sql.row_quantity row) || sql.fits q); [|reflexivity]|]).
  all: try destruct n as [n|]; try destruct d as [d|]; try reflexivity.
  all: unfold db.refresh, db.reload, response_EssenceOut, db.bind,
    db.attributes, db.ret, db.raise, db.with_objects, updated; cbn;
    rewrite ?Hid;
    (rewrite find_row_update by reflexivity);
    rewrite Z.eqb_refl, Hrow; cbn; unfold answer_row; cbn;
    destruct (EssenceOut_validate _ _ _ _); reflexivity.
Qed.


Lemma Body_model_replace_valid (p : Payload) (n : string) (q : Z) (d : bool) :
  raw_extra p = [] ->
  raw_name p = Given n -> (String.length n <= 255)%nat ->
  raw_quantity p = Given q -> 0 <= q ->
  raw_is_done p = Given d \/ (raw_is_done p = Absent /\ d = false) ->
  Body_model EssenceReplace_validate (with_body p)
  = Some {| name := n; quantity := q; is_done := d |}.
Proof.
  intros Hextra Hname Hlen Hquantity Hq Hdone.
  unfold Body_model, EssenceReplace_validate, EssenceBase_validate,
    extra_forbid. simpl.
  rewrite Hextra, Hname, Hquantity. simpl.
  unfold max_length_255, ge_0.
  destruct (Nat.leb_spec (String.length n) 255); [|lia].
  destruct (Z.leb_spec 0 q); [|lia].
  destruct Hdone as [->|[-> ->]]; reflexivity.
Qed.

(** C5, as the code has it.  For a row that exists and a Replace payload
    with a name of at most 255 characters, a quantity from 0 to 2^63 - 1
    and is_done given or left out (then false), full-replace answers 200
    with the updated record, writes all three fields of the row, whatever
    they held before, keeps the id and touches no other id. *)
Theorem put_overwrites_every_field (st : sql.Store) (i : Z) (row : sql.Row)
    (p : Payload) (n : string) (q : Z) (d : bool)
    (Hrow : sql.find_row i (sql.table st) = Some row)
    (Hextra : raw_extra p = [])
    (Hname : raw_name p = Given n)
    (Hlen : (String.length n <= 255)%nat)
    (Hquantity : raw_quantity p = Given q)
    (Hq : 0 <= q < 2 ^ 63)
    (Hdone : raw_is_done p = Given d \/ (raw_is_done p = Absent /\ d = false)) :
  let new := {| sql.row_id := i; sql.row_name := n;
                sql.row_quantity := q; sql.row_is_done := d |} in
  let st' := {| sql.table := updated i new (sql.table st);
                sql.commits := S (sql.commits st) |} in
  router_put i (with_body p) st = (Answer HTTP_200_OK (shown new), st')
  /\ sql.find_row i (sql.table st') = Some new
  /\ (forall j, j <> i ->
        sql.find_row j (sql.table st') = sql.find_row j (sql.table st)).
Proof.
  intros new st'.
  pose proof (Body_model_replace_valid p n q d
                Hextra Hname Hlen Hquantity (proj1 Hq) Hdone) as Hvalid.
  split; [|split].
  - unfold router_put. rewrite Hvalid.
    rewrite (put_run st i row) by
      (try assumption; simpl; try apply Nat.leb_le; try apply Z.leb_le;
       try apply fits_iff; try assumption; lia).
    reflexivity.
  - simpl. unfold updated. rewrite find_row_update by reflexivity.
    rewrite Z.eqb_refl, Hrow. reflexivity.
  - intros j Hj. simpl. unfold updated.
    rewrite find_row_update by reflexivity.
    destruct (Z.eqb_spec j i); [contradiction|reflexivity].
Qed.

Lemma put_overwrites_every_field_witness :
  router_put 2 (with_body (payload "Apricot" 3 (Given true))) fruit
  = (Answer HTTP_200_OK (shown apricot),
     {| sql.table := [apple; apricot; banana]; sql.commits := 4 |}).
Proof.
  destruct (put_overwrites_every_field fruit 2 apricot
              (payload "Apricot" 3 (Given true)) "Apricot" 3 true
              eq_refl eq_refl eq_refl) as (Hput & _ & _).
  - simpl. lia.
  - reflexivity.
  - lia.
  - left. reflexivity.
  - exact Hput.
Defined.

(** C5, as it is stated, fails on two counts.  is_done is not required by
    the Replace schema: a body without it is accepted, and the row's
    is_done, true before, is overwritten with false, a value the payload did
    not supply.  And a quantity that no SQLite integer holds is not
    written: the request is answered 500 and the row is as before. *)
Lemma put_is_done_not_required :
  raw_is_done (payload "Apricot" 3 Absent) = Absent
  /\ sql.find_row 2 (sql.table fruit) = Some apricot
  /\ sql.row_is_done apricot = true
  /\ router_put 2 (with_body (payload "Apricot" 3 Absent)) fruit
     = (Answer HTTP_200_OK
          {| out_id := 2; out_name := "Apricot"; out_quantity := 3;
             out_is_done := false |},
        {| sql.table :=
             [apple;
              {| sql.row_id := 2; sql.row_name := "Apricot";
                 sql.row_quantity := 3; sql.row_is_done := false |};
              banana];
           sql.commits := 4 |})
  /\ router_put 2 (with_body (payload "Apricot" (2 ^ 63) (Given true))) fruit
     = (Error OverflowError, fruit).
Proof.
  repeat split.
Qed.

Lemma EssenceUpdate_validate_fields (p : Payload) (u : EssenceUpdate) :
  EssenceUpdate_validate p = Some u ->
  optional max_length_255 (raw_name p) = Some (upd_name u)
  /\ optional ge_0 (raw_quantity p) = Some (upd_quantity u)
  /\ optional (fun _ => true) (raw_is_done p) = Some (upd_is_done u)
  /\ raw_extra p = [].
Proof.
  unfold EssenceUpdate_validate, extra_forbid.
  destruct (raw_extra p); [|discriminate].
  destruct (optional max_length_255 (raw_name p)); [|discriminate].
  destruct (optional ge_0 (raw_quantity p)); [|discriminate].
  destruct (optional (fun _ => true) (raw_is_done p)); [|discriminate].
  intros [= <-]. simpl. auto.
Qed.

Lemma optional_absent {T} (ok : T -> bool) (r : Raw T) (s : Setting T) :
  optional ok r = Some s -> r = Absent -> s = Unset.
Proof. intros H ->. simpl in H. congruence. Qed.

Lemma optional_given {T} (ok : T -> bool) (r : Raw T) (s : Setting T) (v : T) :
  optional ok r = Some s -> r = Given v -> s = SetTo (Some v).
Proof.
  intros H ->. simpl in H. destruct (ok v); congruence.
Qed.

(** What a partial update leaves in the table, for any body at all. *)
Lemma patch_store (st : sql.Store) (i : Z) (row : sql.Row) (p : Payload) :
  sql.find_row i (sql.table st) = Some row ->
  snd (router_patch i (with_body p) st) = st
  \/ exists u new,
       EssenceUpdate_validate p = Some u
       /\ patched u row = Some new
       /\ router_patch i (with_body p) st =
          (answer_row HTTP_200_OK new,
           {| sql.table := updated i new (sql.table st);
              sql.commits := S (sql.commits st) |}).
Proof.
  intros Hrow. unfold router_patch, Body_model. simpl.
  destruct (EssenceUpdate_validate p) as [u|] eqn:Hu; [|left; reflexivity].
  rewrite (patch_serve st i row u Hrow).
  destruct (storable _ _); [|left; reflexivity].
  destruct (patched u row) as [new|] eqn:Hnew; [|left; reflexivity].
  right. exists u, new. auto.
Qed.

Lemma patched_fields (u : EssenceUpdate) (row new : sql.Row) :
  patched u row = Some new ->
  sql.row_id new = sql.row_id row
  /\ merged (upd_name u) (sql.row_name row) = Some (sql.row_name new)
  /\ merged (upd_quantity u) (sql.row_quantity row) = Some (sql.row_quantity new)
  /\ merged (upd_is_done u) (sql.row_is_done row) = Some (sql.row_is_done new).
Proof.
  unfold patched.
  destruct (merged (upd_name u) (sql.row_name row)); [|discriminate].
  destruct (merged (upd_quantity u) (sql.row_quantity row)); [|discriminate].
  destruct (merged (upd_is_done u) (sql.row_is_done row)); [|discriminate].
  intros [= <-]. simpl. auto.
Qed.

(** C6. For a row that exists, whatever the body of a partial update: the
    row is still there under its id, every field the payload leaves out
    holds what it held, and no other id is touched.  When the update is
    answered 200, the answer shows the stored row and every field the
    payload gives holds the given value.  With the empty payload every id
    reads as before, and a row that meets the constraints is answered 200
    unchanged. *)
Theorem patch_leaves_absent_fields (st : sql.Store) (i : Z) (row : sql.Row)
    (p : Payload)
    (Hrow : sql.find_row i (sql.table st) = Some row) :
  let answer := fst (router_patch i (with_body p) st) in
  let st' := snd (router_patch i (with_body p) st) in
  (exists row',
      sql.find_row i (sql.table st') = Some row'
      /\ sql.row_id row' = sql.row_id row
      /\ (raw_name p = Absent -> sql.row_name row' = sql.row_name row)
      /\ (raw_quantity p = Absent -> sql.row_quantity row' = sql.row_quantity row)
      /\ (raw_is_done p = Absent -> sql.row_is_done row' = sql.row_is_done row)
      /\ (forall out, answer = Answer HTTP_200_OK out ->
            out = shown row'
            /\ (forall n, raw_name p = Given n -> sql.row_name row' = n)
            /\ (forall q, raw_quantity p = Given q -> sql.row_quantity row' = q)
            /\ (forall d, raw_is_done p = Given d -> sql.row_is_done row' = d)))
  /\ (forall j, j <> i ->
        sql.find_row j (sql.table st') = sql.find_row j (sql.table st))
  /\ (p = empty_payload ->
        (forall j, sql.find_row j (sql.table st') = sql.find_row j (sql.table st))
        /\ (row_ok row -> answer = Answer HTTP_200_OK (shown row))).
Proof.
  intros answer st'. subst answer st'.
  destruct (find_row_id _ _ _ Hrow) as [Hid _].
  destruct (patch_store st i row p Hrow) as [Hsame|(u & new & Hu & Hnew & Hrun)].
  - (* nothing was committed *)
    assert (Hfail : forall out,
               fst (router_patch i (with_body p) st) <> Answer HTTP_200_OK out).
    { intros out. revert Hsame. unfold router_patch, Body_model. simpl.
      destruct (EssenceUpdate_validate p) as [u|]; [|discriminate].
      rewrite (patch_serve st i row u Hrow).
      destruct (storable _ _); [|discriminate].
      destruct (patched u row) as [new|]; [|discriminate].
      simpl. intros Hst. exfalso.
      apply (f_equal sql.commits) in Hst. simpl in Hst. lia. }
    rewrite Hsame. split; [|split].
    + exists row. split; [exact Hrow|]. split; [reflexivity|].
      repeat (split; [reflexivity|]).
      intros out Hout. elim (Hfail out Hout).
    + reflexivity.
    + intros ->. split; [reflexivity|]. intros _.
      exfalso. revert Hsame. unfold router_patch, Body_model. simpl.
      rewrite (patch_serve st i row _ Hrow). simpl.
      rewrite Z.eqb_refl. simpl.
      intros Hst. apply (f_equal sql.commits) in Hst. simpl in Hst. lia.
  - destruct (EssenceUpdate_validate_fields p u Hu) as (Hn & Hq & Hd & _).
    destruct (patched_fields u row new Hnew) as (Hnid & Hmn & Hmq & Hmd).
    assert (Hnew_id : sql.row_id new = i) by congruence.
    rewrite Hrun. simpl. split; [|split].
    + exists new. unfold updated.
      rewrite find_row_update by assumption.
      rewrite Z.eqb_refl, Hrow.
      split; [reflexivity|]. split; [assumption|].
      split; [|split; [|split]].
      * intros Ha. rewrite (optional_absent _ _ _ Hn Ha) in Hmn.
        simpl in Hmn. congruence.
      * intros Ha. rewrite (optional_absent _ _ _ Hq Ha) in Hmq.
        simpl in Hmq. congruence.
      * intros Ha. rewrite (optional_absent _ _ _ Hd Ha) in Hmd.
        simpl in Hmd. congruence.
      * intros out Hout. apply answer_row_inv in Hout.
        split; [assumption|]. split; [|split].
        -- intros n Hg. rewrite (optional_given _ _ _ n Hn Hg) in Hmn.
           simpl in Hmn. congruence.
        -- intros q Hg. rewrite (optional_given _ _ _ q Hq Hg) in Hmq.
           simpl in Hmq. congruence.
        -- intros d Hg. rewrite (optional_given _ _ _ d Hd Hg) in Hmd.
           simpl in Hmd. congruence.
    + intros j Hj. unfold updated. rewrite find_row_update by assumption.
      destruct (Z.eqb_spec j i); [contradiction|reflexivity].
    + intros ->. simpl in Hu. injection Hu as <-.
      unfold patched in Hnew. simpl in Hnew. rewrite row_eta in Hnew.
      injection Hnew as <-. split.
      * intros j. unfold updated. rewrite find_row_update by assumption.
        destruct (Z.eqb_spec j i) as [->|]; [|reflexivity].
        rewrite Hrow. reflexivity.
      * intros Hok. apply answer_row_ok, Hok.
Qed.

Lemma patch_leaves_absent_fields_witness :
  router_patch 2 (with_body {| raw_name := Absent; raw_quantity := Given 7;
                               raw_is_done := Absent; raw_extra := [] |}) fruit
  = (Answer HTTP_200_OK
       {| out_id := 2; out_name := "Apricot"; out_quantity := 7;
          out_is_done := true |},
     {| sql.table :=
          [apple;
           {| sql.row_id := 2; sql.row_name := "Apricot";
              sql.row_quantity := 7; sql.row_is_done := true |};
           banana];
        sql.commits := 4 |})
  /\ fst (router_patch 2 (with_body empty_payload) fruit)
     = Answer HTTP_200_OK (shown apricot).
Proof.
  split; [reflexivity|].
  destruct (patch_leaves_absent_fields fruit 2 apricot empty_payload eq_refl)
    as (_ & _ & Hempty).
  destruct (Hempty eq_refl) as [_ Hanswer].
  apply Hanswer. split; simpl; lia.
Defined.

(** The partial update as the handler runs it in the session of a request:
    it loads the row, runs the [setattr] loop on the object and commits.
    When the UPDATE fails the commit rolls back, which expires the object,
    and raises what the statement raised. *)
Lemma patch_essence_refused (st : sql.Store) (i : Z) (row : sql.Row)
    (u : EssenceUpdate) (exc : Exc) :
  sql.find_row i (sql.table st) = Some row ->
  sql.run_update (after_setattr (model_dump_exclude_unset u) row) (sql.table st)
  = inl exc ->
  patch_essence i u {| db.store := st; db.objects := [] |}
  = (inl exc,
     {| db.store := st;
        db.objects :=
          [(db.Expired, after_setattr (model_dump_exclude_unset u) row)] |}).
Proof.
  intros Hrow. unfold patch_essence, db.bind.
  rewrite (get_found i row) by exact Hrow.
  unfold after_setattr.
  destruct u as [[|n] [|q] [|d]]; cbn; unfold db.with_objects; cbn [db.store];
    rewrite commit_persistent; intros ->; reflexivity.
Qed.

Lemma after_setattr_update (i : Z) (row : sql.Row) (u : EssenceUpdate) :
  sql.row_id row = i ->
  after_setattr (model_dump_exclude_unset u) row
  = {| Models.id := Some i;
       Models.name := merged (upd_name u) (sql.row_name row);
       Models.quantity := merged (upd_quantity u) (sql.row_quantity row);
       Models.is_done := merged (upd_is_done u) (sql.row_is_done row) |}.
Proof. intros <-. destruct u as [[|n] [|q] [|d]]; reflexivity. Qed.

(** C10. Take any Update payload that validates and send one of its fields
    as null instead.  The payload still validates, with that field set to
    None.  The handler, run in the session of the request, loads the row
    object, assigns None to the attribute in its [setattr] loop and reaches
    the commit: the session is left with that one object, holding None,
    expired by the rollback of the commit.  The UPDATE is refused by the
    table, with an integrity error, unless the payload also brings a new
    quantity beyond 64 bits, which the driver refuses first.  Either way
    the request is answered 500, not 422, and the table is as before.  A
    field left out keeps the loaded value. *)
Theorem patch_null_reaches_commit (st : sql.Store) (i : Z) (row : sql.Row)
    (p : Payload) (u : EssenceUpdate)
    (Hrow : sql.find_row i (sql.table st) = Some row)
    (Hvalid : EssenceUpdate_validate p = Some u) :
  let u_name := {| upd_name := SetTo None; upd_quantity := upd_quantity u;
                   upd_is_done := upd_is_done u |} in
  let u_quantity := {| upd_name := upd_name u; upd_quantity := SetTo None;
                       upd_is_done := upd_is_done u |} in
  let u_is_done := {| upd_name := upd_name u; upd_quantity := upd_quantity u;
                      upd_is_done := SetTo None |} in
  let refused (u' : EssenceUpdate) (exc : Exc) :=
    patch_essence i u' {| db.store := st; db.objects := [] |}
    = (inl exc,
       {| db.store := st;
          db.objects :=
            [(db.Expired, after_setattr (model_dump_exclude_unset u') row)] |}) in
  let exc :=
    if storable (sql.row_quantity row)
         (merged (upd_quantity u) (sql.row_quantity row))
    then IntegrityError else OverflowError in
  (EssenceUpdate_validate (null_name p) = Some u_name
   /\ Models.name (after_setattr (model_dump_exclude_unset u_name) row) = None
   /\ refused u_name exc
   /\ router_patch i (with_body (null_name p)) st = (Error exc, st))
  /\ (EssenceUpdate_validate (null_quantity p) = Some u_quantity
      /\ Models.quantity
           (after_setattr (model_dump_exclude_unset u_quantity) row) = None
      /\ refused u_quantity IntegrityError
      /\ router_patch i (with_body (null_quantity p)) st
         = (Error IntegrityError, st))
  /\ (EssenceUpdate_validate (null_is_done p) = Some u_is_done
      /\ Models.is_done
           (after_setattr (model_dump_exclude_unset u_is_done) row) = None
      /\ refused u_is_done exc
      /\ router_patch i (with_body (null_is_done p)) st = (Error exc, st))
  /\ (upd_name u = Unset ->
      Models.name (after_setattr (model_dump_exclude_unset u) row)
      = Some (sql.row_name row))
  /\ ((forall q, raw_quantity p = Given q -> q < 2 ^ 63) ->
      exc = IntegrityError)
  /\ status (@Error EssenceOut exc) = 500.
Proof.
  intros u_name u_quantity u_is_done.
  destruct (find_row_id _ _ _ Hrow) as [Hid _].
  destruct (EssenceUpdate_validate_fields p u Hvalid) as (Hn & Hq & Hd & Hextra).
  assert (Hupdate : forall u',
             patched u' row = None ->
             sql.run_update (after_setattr (model_dump_exclude_unset u') row)
               (sql.table st)
             = inl (if storable (sql.row_quantity row)
                         (merged (upd_quantity u') (sql.row_quantity row))
                    then IntegrityError else OverflowError)).
  { intros u' Hnone.
    rewrite (after_setattr_update i row u' Hid).
    rewrite (run_update_loaded _ _ row) by exact Hrow.
    destruct (storable _ _); [|reflexivity].
    unfold patched in Hnone.
    destruct (merged (upd_name u') _); [|reflexivity].
    destruct (merged (upd_quantity u') _); [|reflexivity].
    destruct (merged (upd_is_done u') _); [discriminate|reflexivity]. }
  assert (Hrun : forall p' u',
             EssenceUpdate_validate p' = Some u' -> patched u' row = None ->
             router_patch i (with_body p') st
             = (Error (if storable (sql.row_quantity row)
                            (merged (upd_quantity u') (sql.row_quantity row))
                       then IntegrityError else OverflowError), st)).
  { intros p' u' Hp' Hnone. unfold router_patch, Body_model. simpl.
    rewrite Hp', (patch_serve st i row u' Hrow), Hnone.
    destruct (storable _ _); reflexivity. }
  assert (Hvn : EssenceUpdate_validate (null_name p) = Some u_name).
  { unfold EssenceUpdate_validate, extra_forbid. simpl.
    rewrite Hextra, Hq, Hd. reflexivity. }
  assert (Hvq : EssenceUpdate_validate (null_quantity p) = Some u_quantity).
  { unfold EssenceUpdate_validate, extra_forbid. simpl.
    rewrite Hextra, Hn, Hd. reflexivity. }
  assert (Hvd : EssenceUpdate_validate (null_is_done p) = Some u_is_done).
  { unfold EssenceUpdate_validate, extra_forbid. simpl.
    rewrite Hextra, Hn, Hq. reflexivity. }
  assert (Hpn : patched u_name row = None) by reflexivity.
  assert (Hpq : patched u_quantity row = None).
  { unfold patched. simpl.
    destruct (merged (upd_name u) (sql.row_name row)); reflexivity. }
  assert (Hpd : patched u_is_done row = None).
  { unfold patched. simpl.
    destruct (merged (upd_name u) (sql.row_name row));
      destruct (merged (upd_quantity u) (sql.row_quantity row)); reflexivity. }
  intros refused exc.
  split; [|split; [|split; [|split; [|split]]]].
  - split; [exact Hvn|split; [|split]].
    + subst u_name. destruct u as [un [|uq] [|ud]]; reflexivity.
    + apply patch_essence_refused; [exact Hrow|]. apply (Hupdate _ Hpn).
    + apply (Hrun _ _ Hvn Hpn).
  - split; [exact Hvq|split; [|split]].
    + subst u_quantity. destruct u as [[|un] uq [|ud]]; reflexivity.
    + apply patch_essence_refused; [exact Hrow|]. apply (Hupdate _ Hpq).
    + apply (Hrun _ _ Hvq Hpq).
  - split; [exact Hvd|split; [|split]].
    + subst u_is_done. destruct u as [[|un] [|uq] ud]; reflexivity.
    + apply patch_essence_refused; [exact Hrow|]. apply (Hupdate _ Hpd).
    + apply (Hrun _ _ Hvd Hpd).
  - intros Hunset. destruct u as [un [|uq] [|ud]]; simpl in Hunset;
      subst un; reflexivity.
  - intros Hbound. subst exc.
    destruct (raw_quantity p) as [| | |q] eqn:Hraw; simpl in Hq.
    + injection Hq as <-. simpl. rewrite Z.eqb_refl. reflexivity.
    + injection Hq as <-. reflexivity.
    + discriminate.
    + unfold ge_0 in Hq. destruct (Z.leb_spec 0 q); [|discriminate].
      injection Hq as <-. simpl.
      assert (Hfits : sql.fits q = true).
      { apply fits_iff. specialize (Hbound q eq_refl). lia. }
      rewrite Hfits, orb_true_r. reflexivity.
  - subst exc. destruct (storable _ _); reflexivity.
Qed.

Lemma patch_null_reaches_commit_witness :
  patch_essence 2
    {| upd_name := SetTo None; upd_quantity := Unset; upd_is_done := Unset |}
    {| db.store := fruit; db.objects := [] |}
  = (inl IntegrityError,
     {| db.store := fruit;
        db.objects :=
          [(db.Expired,
            {| Models.id := Some 2; Models.name := None;
               Models.quantity := Some 3; Models.is_done := Some true |})] |})
  /\ router_patch 2 (with_body (null_name empty_payload)) fruit
    = (Error IntegrityError, fruit)
  /\ router_patch 2 (with_body (null_quantity empty_payload)) fruit
    = (Error IntegrityError, fruit)
  /\ router_patch 2 (with_body (null_is_done empty_payload)) fruit
    = (Error IntegrityError, fruit).
Proof.
  destruct (patch_null_reaches_commit fruit 2 apricot empty_payload _
              eq_refl eq_refl)
    as ((_ & _ & Hs & Hn) & (_ & _ & _ & Hq) & (_ & _ & _ & Hd) & _).
  split; [exact Hs|split; [exact Hn|split; [exact Hq|exact Hd]]].
Defined.

(** ** Several objects in one session *)

Lemma modify_app {A} (f : A -> A) (pre : list A) (x : A) (rest : list A) :
  db.modify (List.length pre) f (pre ++ x :: rest) = pre ++ f x :: rest.
Proof.
  induction pre as [|y pre IH]; simpl; [reflexivity|].
  rewrite IH. reflexivity.
Qed.

Lemma nth_error_middle {A} (pre : list A) (x : A) (rest : list A) :
  nth_error (pre ++ x :: rest) (List.length pre) = Some x.
Proof.
  induction pre as [|y pre IH]; simpl; [reflexivity|exact IH].
Qed.

Lemma app_cons_assoc {A} (pre : list A) (x : A) (rest : list A) :
  pre ++ x :: rest = (pre ++ [x]) ++ rest.
Proof. rewrite <- app_assoc. reflexivity. Qed.

Lemma length_snoc {A} (pre : list A) (x : A) :
  List.length (pre ++ [x]) = S (List.length pre).
Proof. rewrite length_app. simpl. lia. Qed.

Lemma collect_construct {A} (f : A -> Models.Essence) (xs : list A)
    (st : sql.Store) (pre : list (db.ObjState * Models.Essence)) :
  db.collect xs (fun x => db.construct (f x))
    {| db.store := st; db.objects := pre |}
  = (inr (seq (List.length pre) (List.length xs)),
     {| db.store := st;
        db.objects := pre ++ map (fun x => (db.Transient, f x)) xs |}).
Proof.
  revert pre. induction xs as [|x xs IH]; intros pre; simpl.
  - unfold db.ret. rewrite app_nil_r. reflexivity.
  - unfold db.bind, db.construct at 1, db.with_objects. simpl.
    rewrite IH. unfold db.ret. rewrite length_snoc, <- app_cons_assoc.
    reflexivity.
Qed.

Lemma add_all_run (es : list Models.Essence) (st : sql.Store)
    (pre : list (db.ObjState * Models.Essence)) :
  db.add_all (seq (List.length pre) (List.length es))
    {| db.store := st;
       db.objects := pre ++ map (fun e => (db.Transient, e)) es |}
  = (inr tt,
     {| db.store := st;
        db.objects := pre ++ map (fun e => (db.Pending, e)) es |}).
Proof.
  unfold db.add_all.
  revert pre. induction es as [|e es IH]; intros pre; simpl.
  - reflexivity.
  - unfold db.bind, db.add at 1, db.with_objects. simpl.
    rewrite modify_app. simpl.
    rewrite (app_cons_assoc pre (db.Pending, e)).
    rewrite <- (length_snoc pre (db.Pending, e)).
    rewrite IH. rewrite <- app_cons_assoc. reflexivity.
Qed.

Lemma next_rowid_snoc (tbl : list sql.Row) (row : sql.Row) :
  sql.row_id row = sql.next_rowid tbl ->
  sql.next_rowid (tbl ++ [row]) = sql.next_rowid tbl + 1.
Proof.
  intros Hid. unfold sql.next_rowid in *.
  destruct tbl as [|r rest]; cbn [app sql.max_rowid] in *; [lia|].
  assert (Hmax : forall r rest,
             sql.max_rowid r (rest ++ [row])
             = Z.max (sql.max_rowid r rest) (sql.row_id row)).
  { clear. intros r rest. revert r.
    induction rest as [|r' rest IH]; intros r; simpl; [reflexivity|].
    rewrite IH. lia. }
  rewrite Hmax. lia.
Qed.

Lemma inserted_ids (ms : list EssenceBase) (tbl : list sql.Row) :
  has_rowids tbl (List.length ms) ->
  Forall (fun r => sql.fits (sql.row_id r) = true) (inserted tbl ms).
Proof.
  revert tbl. induction ms as [|m ms IH]; intros tbl Hroom; simpl;
    constructor.
  - simpl. specialize (Hroom 0%nat). simpl in Hroom.
    rewrite Z.add_0_r in Hroom. apply Hroom. lia.
  - apply IH. intros k Hk.
    rewrite next_rowid_snoc by reflexivity.
    specialize (Hroom (S k)). rewrite Nat2Z.inj_succ in Hroom.
    replace (sql.next_rowid tbl + 1 + Z.of_nat k)
      with (sql.next_rowid tbl + Z.succ (Z.of_nat k)) by lia.
    apply Hroom. simpl. lia.
Qed.

Lemma inserted_found (ms : list EssenceBase) (tbl : list sql.Row) :
  Forall (fun r => sql.fits (sql.row_id r) = true) (inserted tbl ms) ->
  Forall (fun r => sql.find_row (sql.row_id r) (tbl ++ inserted tbl ms) = Some r)
         (inserted tbl ms).
Proof.
  revert tbl. induction ms as [|m ms IH]; intros tbl Hfits; simpl in *;
    inversion Hfits as [|r rs Hfit Hrest]; subst; constructor.
  - change (sql.row_id (row_of tbl m)) with (sql.next_rowid tbl) in *.
    rewrite find_row_app, find_row_next_rowid.
    unfold sql.find_row. rewrite Hfit. simpl. rewrite Z.eqb_refl. reflexivity.
  - rewrite app_cons_assoc. apply IH, Hrest.
Qed.

Lemma inserted_holds (ms : list EssenceBase) (tbl : list sql.Row) :
  Forall2 holds ms (inserted tbl ms).
Proof.
  revert tbl. induction ms as [|m ms IH]; intros tbl; simpl; constructor.
  - repeat split.
  - apply IH.
Qed.

Lemma inserted_ok (ms : list EssenceBase) (tbl : list sql.Row) :
  Forall model_ok ms ->
  Forall (fun r => max_length_255 (sql.row_name r) = true
                   /\ ge_0 (sql.row_quantity r) = true) (inserted tbl ms).
Proof.
  intros Hms. revert tbl.
  induction Hms as [|m ms Hm _ IH]; intros tbl; simpl; constructor.
  - exact Hm.
  - apply IH.
Qed.

Lemma flush_pending (ms : list EssenceBase) (tbl : list sql.Row) :
  Forall (fun m => sql.fits (quantity m) = true) ms ->
  Forall (fun r => sql.fits (sql.row_id r) = true) (inserted tbl ms) ->
  db.flush (map (fun m => (db.Pending, Models.Essence_init (model_dump m))) ms) tbl
  = inr (map (fun r => (db.Persistent, sql.load r)) (inserted tbl ms),
         tbl ++ inserted tbl ms).
Proof.
  intros Hms. revert tbl.
  induction Hms as [|m ms Hm _ IH]; intros tbl Hids.
  - simpl. rewrite app_nil_r. reflexivity.
  - cbn [map db.flush inserted] in *.
    inversion Hids as [|r rs Hid Hrest]; subst.
    rewrite run_insert_model, Hm. simpl in Hid. rewrite Hid.
    rewrite (IH _ Hrest), <- app_cons_assoc. reflexivity.
Qed.

(** A flush of pending objects inserts them all or fails. *)
Lemma flush_pending_cases (ms : list EssenceBase) (tbl : list sql.Row) :
  (Forall (fun r => sql.fits (sql.row_id r) = true) (inserted tbl ms)
   /\ Forall (fun m => sql.fits (quantity m) = true) ms)
  \/ exists exc,
       db.flush
         (map (fun m => (db.Pending, Models.Essence_init (model_dump m))) ms) tbl
       = inl exc.
Proof.
  revert tbl. induction ms as [|m ms IH]; intros tbl.
  - left. split; constructor.
  - cbn [map db.flush inserted]. rewrite run_insert_model.
    destruct (sql.fits (quantity m)) eqn:Hq; [|right; eexists; reflexivity].
    destruct (sql.fits (sql.next_rowid tbl)) eqn:Hi;
      [|right; eexists; reflexivity].
    destruct (IH (tbl ++ [row_of tbl m])) as [[Hids Hqs]|[exc Hexc]].
    + left. split; constructor; assumption.
    + right. exists exc. rewrite Hexc. reflexivity.
Qed.

Lemma refresh_loaded (rows : list sql.Row) (st : sql.Store)
    (pre : list (db.ObjState * Models.Essence)) :
  Forall (fun r => sql.find_row (sql.row_id r) (sql.table st) = Some r) rows ->
  @db.for_each db.ref (seq (List.length pre) (List.length rows)) db.refresh
    {| db.store := st;
       db.objects := pre ++ map (fun r => (db.Persistent, sql.load r)) rows |}
  = (inr tt,
     {| db.store := st;
        db.objects := pre ++ map (fun r => (db.Persistent, sql.load r)) rows |}).
Proof.
  intros Hrows. revert pre.
  induction Hrows as [|r rows Hr _ IH]; intros pre; simpl.
  - reflexivity.
  - unfold db.bind, db.refresh at 1, db.reload, db.with_objects. simpl.
    rewrite nth_error_middle. simpl. rewrite Hr, modify_app.
    rewrite (app_cons_assoc pre (db.Persistent, sql.load r)).
    rewrite <- (length_snoc pre (db.Persistent, sql.load r)).
    apply IH.
Qed.

Lemma response_loaded (rows : list sql.Row) (st : sql.Store)
    (pre : list (db.ObjState * Models.Essence)) :
  Forall (fun r => max_length_255 (sql.row_name r) = true
                   /\ ge_0 (sql.row_quantity r) = true) rows ->
  response_List_EssenceOut (seq (List.length pre) (List.length rows))
    {| db.store := st;
       db.objects := pre ++ map (fun r => (db.Persistent, sql.load r)) rows |}
  = (inr (map shown rows),
     {| db.store := st;
        db.objects := pre ++ map (fun r => (db.Persistent, sql.load r)) rows |}).
Proof.
  unfold response_List_EssenceOut.
  intros Hrows. revert pre.
  induction Hrows as [|r rows [Hn Hq] _ IH]; intros pre; simpl.
  - reflexivity.
  - unfold db.bind, response_EssenceOut at 1, db.attributes, db.bind. simpl.
    rewrite nth_error_middle. simpl.
    rewrite response_ok by assumption. unfold db.ret at 1.
    rewrite (app_cons_assoc pre (db.Persistent, sql.load r)).
    rewrite <- (length_snoc pre (db.Persistent, sql.load r)).
    rewrite IH. reflexivity.
Qed.

Lemma bind_run {A B} (c : db.M A) (k : A -> db.M B) (s : db.Session) :
  db.bind c k s =
  match c s with
  | (inr x, s') => k x s'
  | (inl e, s') => (inl e, s')
  end.
Proof. reflexivity. Qed.

Lemma inserted_length (ms : list EssenceBase) (tbl : list sql.Row) :
  List.length (inserted tbl ms) = List.length ms.
Proof.
  revert tbl. induction ms as [|m ms IH]; intros tbl; simpl;
    [reflexivity|rewrite IH; reflexivity].
Qed.

Lemma bulk_run (st : sql.Store) (ms : list EssenceCreate) :
  Forall model_ok ms ->
  Forall (fun m => sql.fits (quantity m) = true) ms ->
  Forall (fun r => sql.fits (sql.row_id r) = true) (inserted (sql.table st) ms) ->
  serve HTTP_201_CREATED (create_essences_bulk ms) response_List_EssenceOut st
  = (Answer HTTP_201_CREATED (map shown (inserted (sql.table st) ms)),
     {| sql.table := sql.table st ++ inserted (sql.table st) ms;
        sql.commits := S (sql.commits st) |}).
Proof.
  intros Hms Hqs Hids. unfold EssenceCreate in *.
  set (rows := inserted (sql.table st) ms).
  set (st' := {| sql.table := sql.table st ++ rows;
                 sql.commits := S (sql.commits st) |}).
  pose proof (collect_construct
                (fun m : EssenceBase => Models.Essence_init (model_dump m))
                ms st []) as Hconstruct.
  pose proof (add_all_run
                (map (fun m : EssenceBase =>
                        Models.Essence_init (model_dump m)) ms) st []) as Hadd.
  rewrite length_map, !map_map in Hadd.
  pose proof (flush_pending ms (sql.table st) Hqs Hids) as Hflush.
  pose proof (refresh_loaded rows st' []
                (inserted_found ms (sql.table st) Hids))
    as Hrefresh.
  pose proof (response_loaded rows st' [] (inserted_ok ms (sql.table st) Hms))
    as Hresponse.
  unfold rows at 1 in Hrefresh. unfold rows at 1 in Hresponse.
  rewrite inserted_length in Hrefresh, Hresponse.
  cbn [app List.length] in Hconstruct, Hadd, Hrefresh, Hresponse.
  unfold serve, create_essences_bulk. unfold EssenceCreate.
  rewrite !bind_run, Hconstruct.
  rewrite !bind_run, Hadd.
  rewrite !bind_run. unfold db.commit at 1. cbn [db.objects db.store].
  rewrite Hflush.
  fold rows. fold st'.
  rewrite !bind_run, Hrefresh.
  unfold db.ret at 1. rewrite Hresponse. reflexivity.
Qed.

(** When the flush fails nothing is stored and the request is answered with
    what the failed statement raised. *)
Lemma bulk_fails (st : sql.Store) (ms : list EssenceCreate) (exc : Exc) :
  db.flush (map (fun m => (db.Pending, Models.Essence_init (model_dump m))) ms)
    (sql.table st) = inl exc ->
  serve HTTP_201_CREATED (create_essences_bulk ms) response_List_EssenceOut st
  = (Error exc, st).
Proof.
  intros Hflush. unfold EssenceCreate in *.
  pose proof (collect_construct
                (fun m : EssenceBase => Models.Essence_init (model_dump m))
                ms st []) as Hconstruct.
  pose proof (add_all_run
                (map (fun m : EssenceBase =>
                        Models.Essence_init (model_dump m)) ms) st []) as Hadd.
  rewrite length_map, !map_map in Hadd.
  cbn [app List.length] in Hconstruct, Hadd.
  unfold serve, create_essences_bulk. unfold EssenceCreate.
  rewrite !bind_run, Hconstruct.
  rewrite !bind_run, Hadd.
  rewrite !bind_run. unfold db.commit at 1. cbn [db.objects db.store].
  rewrite Hflush. reflexivity.
Qed.

(** A bulk-create of validated models stores them all in one commit, or
    fails and stores nothing. *)
Lemma bulk_serve_cases (st : sql.Store) (ms : list EssenceCreate) :
  Forall model_ok ms ->
  (Forall (fun m => sql.fits (quantity m) = true) ms
   /\ Forall (fun r => sql.fits (sql.row_id r) = true)
             (inserted (sql.table st) ms)
   /\ serve HTTP_201_CREATED (create_essences_bulk ms)
        response_List_EssenceOut st
      = (Answer HTTP_201_CREATED (map shown (inserted (sql.table st) ms)),
         {| sql.table := sql.table st ++ inserted (sql.table st) ms;
            sql.commits := S (sql.commits st) |}))
  \/ exists exc,
       status_of exc = 500
       /\ serve HTTP_201_CREATED (create_essences_bulk ms)
            response_List_EssenceOut st
          = (Error exc, st).
Proof.
  intros Hms.
  destruct (flush_pending_cases ms (sql.table st)) as [[Hids Hqs]|[exc Hexc]].
  - left. split; [exact Hqs|]. split; [exact Hids|].
    apply bulk_run; assumption.
  - right. exists exc. split; [|apply bulk_fails, Hexc].
    clear Hms. revert Hexc. generalize (sql.table st) as tbl.
    induction ms as [|m ms IH]; intros tbl; [discriminate|].
    cbn [map db.flush]. rewrite run_insert_model.
    destruct (sql.fits (quantity m)); [|intros [= <-]; reflexivity].
    destruct (sql.fits (sql.next_rowid tbl)); [|intros [= <-]; reflexivity].
    destruct (db.flush _ (tbl ++ [row_of tbl m])) as [exc'|[objs tbl']] eqn:Hrest;
      [|discriminate].
    intros [= <-]. apply (IH _ Hrest).
Qed.

Lemma validate_each_all {A} (validate : Payload -> option A)
    (items : list Payload) (xs : list A) :
  Forall2 (fun p x => validate p = Some x) items xs ->
  validate_each validate items = Some xs.
Proof.
  induction 1 as [|p x items xs Hp _ IH]; simpl; [reflexivity|].
  rewrite Hp, IH. reflexivity.
Qed.

Lemma validate_each_some {A} (validate : Payload -> option A)
    (items : list Payload) (xs : list A) :
  validate_each validate items = Some xs ->
  Forall2 (fun p x => validate p = Some x) items xs.
Proof.
  revert xs. induction items as [|p items IH]; simpl; intros xs.
  - intros [= <-]. constructor.
  - destruct (validate p) as [x|] eqn:Hp; [|discriminate].
    destruct (validate_each validate items) as [xs'|]; [|discriminate].
    intros [= <-]. constructor; [exact Hp|apply IH; reflexivity].
Qed.

Lemma validate_each_one_bad {A} (validate : Payload -> option A)
    (items : list Payload) :
  Exists (fun p => validate p = None) items ->
  validate_each validate items = None.
Proof.
  induction 1 as [p items Hp|p items _ IH]; simpl.
  - rewrite Hp. reflexivity.
  - rewrite IH. destruct (validate p); reflexivity.
Qed.

Lemma validated_models_ok (items : list Payload) (ms : list EssenceBase) :
  Forall2 (fun p m => EssenceBase_validate p = Some m) items ms ->
  Forall model_ok ms.
Proof.
  induction 1 as [|p m items ms Hp _ IH]; constructor; [|exact IH].
  apply (EssenceBase_validate_sound p m Hp).
Qed.

Lemma negative_quantity_invalid (p : Payload) (q : Z) :
  raw_quantity p = Given q -> q < 0 ->
  EssenceBase_validate p = None /\ EssenceUpdate_validate p = None.
Proof.
  intros Hq Hneg.
  unfold EssenceBase_validate, EssenceUpdate_validate. rewrite Hq. simpl.
  unfold ge_0. destruct (Z.leb_spec 0 q); [lia|].
  split.
  - destruct (extra_forbid p); [|reflexivity].
    destruct (required max_length_255 (raw_name p)); reflexivity.
  - destruct (extra_forbid p); [|reflexivity].
    destruct (optional max_length_255 (raw_name p)); reflexivity.
Qed.

Lemma models_fit (ms : list EssenceBase) :
  Forall model_ok ms -> Forall (fun m => quantity m < 2 ^ 63) ms ->
  Forall (fun m => sql.fits (quantity m) = true) ms.
Proof.
  intros Hok Hlt. rewrite Forall_forall in *. intros m Hin.
  destruct (Hok m Hin) as [_ Hq]. apply Z.leb_le in Hq.
  specialize (Hlt m Hin). apply fits_iff. lia.
Qed.

(** C3. Bulk-create of a body that is a sequence of payloads.  When every
    payload validates, with a quantity below 2^63, and the table has a
    64-bit rowid for each, the answer is 201 with one record per payload, in
    the order of the input and with its fields, and the rows are appended
    to the table in that order by a single commit.  When any one payload
    does not validate (a negative quantity, for one), the request is
    answered 422, no row is added and nothing is committed: the store is
    the one before. *)
Theorem bulk_create_all_or_nothing (st : sql.Store) (req : Request)
    (items : list Payload)
    (Hbody : body req = Array items) :
  (forall ms : list EssenceCreate,
      Forall2 (fun p m => EssenceCreate_validate p = Some m) items ms ->
      Forall (fun m => quantity m < 2 ^ 63) ms ->
      has_rowids (sql.table st) (List.length ms) ->
      let rows := inserted (sql.table st) ms in
      router_post_bulk req st
      = (Answer HTTP_201_CREATED (map shown rows),
         {| sql.table := sql.table st ++ rows;
            sql.commits := S (sql.commits st) |})
      /\ Forall2 holds ms rows
      /\ List.length rows = List.length items)
  /\ (Exists (fun p => EssenceCreate_validate p = None) items ->
      router_post_bulk req st = (Error RequestValidationError, st))
  /\ (forall p q, In p items -> raw_quantity p = Given q -> q < 0 ->
      router_post_bulk req st = (Error RequestValidationError, st)
      /\ List.length (sql.table (snd (router_post_bulk req st)))
         = List.length (sql.table st)).
Proof.
  assert (Hbad : Exists (fun p => EssenceCreate_validate p = None) items ->
                 router_post_bulk req st = (Error RequestValidationError, st)).
  { intros Hex. unfold router_post_bulk, Body_List. rewrite Hbody.
    rewrite (validate_each_one_bad _ _ Hex). reflexivity. }
  split; [|split].
  - intros ms Hms Hlt Hroom rows.
    split; [|split].
    + unfold router_post_bulk, Body_List. rewrite Hbody.
      rewrite (validate_each_all _ _ _ Hms).
      pose proof (validated_models_ok items ms Hms) as Hok.
      apply bulk_run; [exact Hok|apply models_fit; assumption|].
      apply inserted_ids, Hroom.
    + apply inserted_holds.
    + unfold rows. rewrite inserted_length.
      symmetry. apply (Forall2_length Hms).
  - exact Hbad.
  - intros p q Hin Hq Hneg.
    assert (Hex : Exists (fun p => EssenceCreate_validate p = None) items).
    { apply Exists_exists. exists p. split; [exact Hin|].
      apply (negative_quantity_invalid p q Hq Hneg). }
    rewrite (Hbad Hex). split; reflexivity.
Qed.

Lemma bulk_create_all_or_nothing_witness :
  router_post_bulk
    {| query := empty_payload;
       body := Array [payload "Apple" 5 (Given false);
                      payload "Apricot" 3 (Given true);
                      payload "Banana" 10 Absent] |} startup
  = (Answer HTTP_201_CREATED [shown apple; shown apricot; shown banana],
     {| sql.table := [apple; apricot; banana]; sql.commits := 1 |})
  /\ router_post_bulk
       {| query := empty_payload;
          body := Array [payload "Cherry" 1 Absent;
                         payload "Damson" (-1) Absent] |} fruit
     = (Error RequestValidationError, fruit).
Proof.
  split.
  - destruct (bulk_create_all_or_nothing startup
                {| query := empty_payload;
                   body := Array [payload "Apple" 5 (Given false);
                                  payload "Apricot" 3 (Given true);
                                  payload "Banana" 10 Absent] |}
                _ eq_refl) as (Hall & _ & _).
    destruct (Hall [ {| name := "Apple"; quantity := 5; is_done := false |};
                     {| name := "Apricot"; quantity := 3; is_done := true |};
                     {| name := "Banana"; quantity := 10; is_done := false |} ])
      as (Hrun & _ & _).
    + repeat constructor.
    + repeat constructor.
    + intros [|[|[|k]]] Hk; try reflexivity. simpl in Hk. lia.
    + exact Hrun.
  - destruct (bulk_create_all_or_nothing fruit
                {| query := empty_payload;
                   body := Array [payload "Cherry" 1 Absent;
                                  payload "Damson" (-1) Absent] |}
                _ eq_refl) as (_ & _ & Hneg).
    destruct (Hneg (payload "Damson" (-1) Absent) (-1)) as [Hrun _].
    + simpl. auto.
    + reflexivity.
    + lia.
    + exact Hrun.
Defined.

(** C3, as it is stated, fails for a quantity that no SQLite integer
    holds.  Both payloads validate; the driver refuses to bind 2^63, and
    the request is answered 500, not 201, with no row stored. *)
Lemma bulk_create_beyond_64_bits :
  let items := [payload "Cherry" 1 Absent; payload "Damson" (2 ^ 63) Absent] in
  validate_each EssenceCreate_validate items
  = Some [ {| name := "Cherry"; quantity := 1; is_done := false |};
           {| name := "Damson"; quantity := 2 ^ 63; is_done := false |} ]
  /\ router_post_bulk (with_items items) fruit = (Error OverflowError, fruit)
  /\ status (@Error (list EssenceOut) OverflowError) = 500.
Proof. repeat split. Qed.

(** ** The stores the service can reach *)

Lemma Body_model_inv {A} (validate : Payload -> option A) (req : Request) (x : A) :
  Body_model validate req = Some x ->
  exists p, body req = Object p /\ validate p = Some x.
Proof.
  unfold Body_model. destruct (body req) as [|p|items]; try discriminate.
  intros H. exists p. auto.
Qed.

Lemma optional_set_ok {T} (ok : T -> bool) (r : Raw T) (v : T) :
  optional ok r = Some (SetTo (Some v)) -> ok v = true.
Proof.
  destruct r as [| | |w]; simpl; try discriminate.
  destruct (ok w) eqn:Hw; [|discriminate].
  intros [= <-]. exact Hw.
Qed.

Lemma checks_row_ok (r : sql.Row) :
  max_length_255 (sql.row_name r) = true ->
  ge_0 (sql.row_quantity r) = true -> row_ok r.
Proof.
  intros Hn Hq. split; [apply Nat.leb_le, Hn|apply Z.leb_le, Hq].
Qed.

Lemma updated_rows_ok (i : Z) (new : sql.Row) (tbl : list sql.Row) :
  row_ok new -> Forall row_ok tbl -> Forall row_ok (updated i new tbl).
Proof.
  intros Hnew Htbl. unfold updated. apply Forall_map.
  apply (Forall_impl _ (P := row_ok)); [|exact Htbl].
  intros r Hr. destruct (sql.row_id r =? i); assumption.
Qed.

Lemma inserted_rows_ok (ms : list EssenceBase) (tbl : list sql.Row) :
  Forall model_ok ms -> Forall row_ok (inserted tbl ms).
Proof.
  intros Hms. apply (Forall_impl _ (P := fun r =>
      max_length_255 (sql.row_name r) = true
      /\ ge_0 (sql.row_quantity r) = true)).
  - intros r [Hn Hq]. apply checks_row_ok; assumption.
  - apply inserted_ok, Hms.
Qed.

(** What full-replace makes of any request on any store. *)
Lemma put_cases (st : sql.Store) (i : Z) (req : Request) :
  router_put i req st = (Error RequestValidationError, st)
  \/ router_put i req st = (Error (HTTPException HTTP_404_NOT_FOUND), st)
  \/ router_put i req st = (Error OverflowError, st)
  \/ exists row m,
       sql.find_row i (sql.table st) = Some row
       /\ Body_model EssenceReplace_validate req = Some m
       /\ model_ok m
       /\ storable (sql.row_quantity row) (Some (quantity m)) = true
       /\ let new := {| sql.row_id := i; sql.row_name := name m;
                        sql.row_quantity := quantity m;
                        sql.row_is_done := is_done m |} in
          router_put i req st
          = (Answer HTTP_200_OK (shown new),
             {| sql.table := updated i new (sql.table st);
                sql.commits := S (sql.commits st) |}).
Proof.
  destruct (Body_model EssenceReplace_validate req) as [m|] eqn:Hm.
  - destruct (sql.find_row i (sql.table st)) as [row|] eqn:Hrow.
    + unfold router_put. rewrite Hm, (put_serve st i row m Hrow).
      destruct (storable _ _) eqn:Hst; [|auto].
      right. right. right. exists row, m.
      destruct (Body_model_inv _ _ _ Hm) as (p & _ & Hp).
      apply EssenceBase_validate_sound in Hp.
      split; [reflexivity|]. split; [reflexivity|]. split; [exact Hp|].
      split; [exact Hst|]. cbv zeta.
      rewrite answer_row_ok; [reflexivity|].
      destruct Hp as [Hn Hq].
      split; [apply Nat.leb_le, Hn|apply Z.leb_le, Hq].
    + destruct (sql.fits i) eqn:Hfits.
      * right. left. apply (put_missing st i Hfits Hrow req m Hm).
      * right. right. left. apply (put_unbound st i Hfits req m Hm).
  - left. unfold router_put. rewrite Hm. reflexivity.
Qed.

(** What partial-update makes of any request on any store. *)
Lemma patch_cases (st : sql.Store) (i : Z) (req : Request) :
  router_patch i req st = (Error RequestValidationError, st)
  \/ router_patch i req st = (Error (HTTPException HTTP_404_NOT_FOUND), st)
  \/ router_patch i req st = (Error OverflowError, st)
  \/ exists row u,
       sql.find_row i (sql.table st) = Some row
       /\ Body_model EssenceUpdate_validate req = Some u
       /\ storable (sql.row_quantity row)
            (merged (upd_quantity u) (sql.row_quantity row)) = true
       /\ router_patch i req st
          = match patched u row with
            | Some new =>
                (answer_row HTTP_200_OK new,
                 {| sql.table := updated i new (sql.table st);
                    sql.commits := S (sql.commits st) |})
            | None => (Error IntegrityError, st)
            end.
Proof.
  destruct (Body_model EssenceUpdate_validate req) as [u|] eqn:Hu.
  - destruct (sql.find_row i (sql.table st)) as [row|] eqn:Hrow.
    + unfold router_patch. rewrite Hu, (patch_serve st i row u Hrow).
      destruct (storable _ _) eqn:Hst; [|auto].
      right. right. right. exists row, u. auto.
    + destruct (sql.fits i) eqn:Hfits.
      * right. left. apply (patch_missing st i Hfits Hrow req u Hu).
      * right. right. left. apply (patch_unbound st i Hfits req u Hu).
  - left. unfold router_patch. rewrite Hu. reflexivity.
Qed.

Lemma delete_run (st : sql.Store) (i : Z) (row : sql.Row) :
  sql.find_row i (sql.table st) = Some row ->
  router_delete i st
  = (Answer HTTP_204_NO_CONTENT tt,
     {| sql.table := sql.delete_row i (sql.table st);
        sql.commits := S (sql.commits st) |}).
Proof.
  intros Hrow. unfold router_delete, delete_essence. run_handler.
  rewrite (find_row_fits _ _ _ Hrow), Hrow. simpl.
  destruct (find_row_id _ _ _ Hrow) as [-> _]. reflexivity.
Qed.

(** What delete makes of any id on any store. *)
Lemma delete_cases (st : sql.Store) (i : Z) :
  router_delete i st = (Error (HTTPException HTTP_404_NOT_FOUND), st)
  \/ router_delete i st = (Error OverflowError, st)
  \/ (exists row, sql.find_row i (sql.table st) = Some row)
     /\ router_delete i st
        = (Answer HTTP_204_NO_CONTENT tt,
           {| sql.table := sql.delete_row i (sql.table st);
              sql.commits := S (sql.commits st) |}).
Proof.
  destruct (sql.find_row i (sql.table st)) as [row|] eqn:Hrow.
  - right. right. split; [exists row; reflexivity|].
    apply (delete_run st i row Hrow).
  - destruct (sql.fits i) eqn:Hfits.
    + left. apply (delete_missing st i Hfits Hrow).
    + right. left. apply (delete_unbound st i Hfits).
Qed.

(** What create makes of any request on any store. *)
Lemma post_cases (st : sql.Store) (req : Request) :
  router_post req st = (Error RequestValidationError, st)
  \/ router_post req st = (Error OverflowError, st)
  \/ router_post req st = (Error OperationalError, st)
  \/ exists m,
       Depends_EssenceCreate req = Some m /\ model_ok m
       /\ sql.fits (quantity m) = true
       /\ sql.fits (sql.next_rowid (sql.table st)) = true
       /\ router_post req st
          = (Answer HTTP_201_CREATED (shown (row_of (sql.table st) m)),
             {| sql.table := sql.table st ++ [row_of (sql.table st) m];
                sql.commits := S (sql.commits st) |}).
Proof.
  unfold router_post.
  destruct (Depends_EssenceCreate req) as [m|] eqn:Hm; [|left; reflexivity].
  pose proof (EssenceBase_validate_sound _ _ Hm) as Hok.
  rewrite create_serve.
  destruct (sql.fits (quantity m)) eqn:Hq; [|auto].
  destruct (sql.fits (sql.next_rowid (sql.table st))) eqn:Hi; [|auto].
  right. right. right. exists m.
  split; [reflexivity|]. split; [exact Hok|]. split; [exact Hq|].
  split; [reflexivity|].
  rewrite answer_row_ok; [reflexivity|].
  destruct Hok as [Hn Hge].
  split; [apply Nat.leb_le, Hn|apply Z.leb_le, Hge].
Qed.

(** What bulk-create makes of any request on any store. *)
Lemma bulk_cases (st : sql.Store) (req : Request) :
  router_post_bulk req st = (Error RequestValidationError, st)
  \/ (exists exc, status_of exc = 500
                  /\ router_post_bulk req st = (Error exc, st))
  \/ exists items ms,
       body req = Array items
       /\ Forall2 (fun p m => EssenceCreate_validate p = Some m) items ms
       /\ Forall model_ok ms
       /\ router_post_bulk req st
          = (Answer HTTP_201_CREATED (map shown (inserted (sql.table st) ms)),
             {| sql.table := sql.table st ++ inserted (sql.table st) ms;
                sql.commits := S (sql.commits st) |}).
Proof.
  unfold router_post_bulk, Body_List.
  destruct (body req) as [|p|items]; try (left; reflexivity).
  destruct (validate_each EssenceCreate_validate items) as [ms|] eqn:Hms;
    [|left; reflexivity].
  apply validate_each_some in Hms.
  pose proof (validated_models_ok items ms Hms) as Hok.
  destruct (bulk_serve_cases st ms Hok) as [(_ & _ & Hrun)|Hfail].
  - right. right. exists items, ms.
    split; [reflexivity|]. split; [exact Hms|]. split; [exact Hok|].
    exact Hrun.
  - right. left. exact Hfail.
Qed.

Lemma patched_row_ok (p : Payload) (u : EssenceUpdate) (row new : sql.Row) :
  EssenceUpdate_validate p = Some u -> patched u row = Some new ->
  row_ok row -> row_ok new.
Proof.
  intros Hp Hnew [Hold_n Hold_q].
  destruct (EssenceUpdate_validate_fields p u Hp) as (Hn & Hq & _ & _).
  destruct (patched_fields u row new Hnew) as (_ & Hmn & Hmq & _).
  split.
  - destruct (upd_name u) as [|[n|]]; simpl in Hmn;
      try discriminate; injection Hmn as <-; [exact Hold_n|].
    apply optional_set_ok in Hn. apply Nat.leb_le, Hn.
  - destruct (upd_quantity u) as [|[q|]]; simpl in Hmq;
      try discriminate; injection Hmq as <-; [exact Hold_q|].
    apply optional_set_ok in Hq. apply Z.leb_le, Hq.
Qed.

(** Every write keeps the rows within the constraints of the schemas. *)
Lemma step_rows_ok (st : sql.Store) (c : Call) :
  Forall row_ok (sql.table st) -> Forall row_ok (sql.table (step st c)).
Proof.
  intros Hst.
  destruct c as [req|req|i req|i req|i]; simpl.
  - (* POST *)
    destruct (post_cases st req) as [H|[H|[H|(m & _ & [Hn Hq] & _ & _ & H)]]];
      rewrite H; try exact Hst.
    simpl. apply Forall_app. split; [exact Hst|].
    constructor; [|constructor]. apply checks_row_ok; assumption.
  - (* POST /bulk *)
    destruct (bulk_cases st req)
      as [H|[(exc & _ & H)|(items & ms & _ & _ & Hms & H)]];
      rewrite H; try exact Hst.
    simpl. apply Forall_app. split; [exact Hst|].
    apply inserted_rows_ok, Hms.
  - (* PUT *)
    destruct (put_cases st i req)
      as [H|[H|[H|(row & m & _ & _ & [Hn Hq] & _ & H)]]];
      rewrite H; try exact Hst.
    simpl. apply updated_rows_ok; [|exact Hst].
    apply checks_row_ok; assumption.
  - (* PATCH *)
    destruct (patch_cases st i req)
      as [H|[H|[H|(row & u & Hrow & Hu & _ & H)]]];
      rewrite H; try exact Hst.
    destruct (patched u row) as [new|] eqn:Hnew; [|exact Hst].
    simpl. apply updated_rows_ok; [|exact Hst].
    destruct (Body_model_inv _ _ _ Hu) as (p & _ & Hp).
    apply (patched_row_ok p u row new Hp Hnew).
    destruct (find_row_id _ _ _ Hrow) as [_ Hin].
    rewrite Forall_forall in Hst. apply Hst, Hin.
  - (* DELETE *)
    destruct (delete_cases st i) as [H|[H|[_ H]]]; rewrite H; try exact Hst.
    simpl. unfold sql.delete_row.
    rewrite Forall_forall in *. intros r Hr.
    apply filter_In in Hr. apply Hst, Hr.
Qed.

Lemma reachable_rows_ok (st : sql.Store) :
  reachable st -> Forall row_ok (sql.table st).
Proof.
  induction 1 as [|st c _ IH].
  - constructor.
  - apply step_rows_ok, IH.
Qed.

(** C9. In every store the service can reach from its start through create,
    bulk-create, full-replace, partial-update and delete, no row has a
    negative quantity.  The statements of the table would take one: INSERT
    and UPDATE store whatever quantity the object carries, and it is the
    schemas that refuse a negative one. *)
Theorem quantity_never_negative :
  (forall st, reachable st -> quantities_ok st)
  /\ (forall tbl n q d,
        sql.insert {| Models.id := None; Models.name := Some n;
                      Models.quantity := Some q; Models.is_done := Some d |} tbl
        = Some {| sql.row_id := sql.next_rowid tbl; sql.row_name := n;
                  sql.row_quantity := q; sql.row_is_done := d |})
  /\ (forall tbl i n q d,
        sql.update {| Models.id := Some i; Models.name := Some n;
                      Models.quantity := Some q; Models.is_done := Some d |} tbl
        = Some (updated i {| sql.row_id := i; sql.row_name := n;
                             sql.row_quantity := q; sql.row_is_done := d |} tbl))
  /\ (forall p q, raw_quantity p = Given q -> q < 0 ->
        EssenceCreate_validate p = None
        /\ EssenceReplace_validate p = None
        /\ EssenceUpdate_validate p = None).
Proof.
  split; [|split; [|split]].
  - intros st Hreach. unfold quantities_ok.
    apply (Forall_impl _ (P := row_ok)).
    + intros r [_ Hq]. exact Hq.
    + apply reachable_rows_ok, Hreach.
  - reflexivity.
  - reflexivity.
  - intros p q Hq Hneg.
    destruct (negative_quantity_invalid p q Hq Hneg) as [Hbase Hupdate].
    auto.
Qed.

(** ** LIKE patterns *)

Lemma lower_app (a b : string) :
  sql.lower (a ++ b) = (sql.lower a ++ sql.lower b)%string.
Proof.
  induction a as [|x a IH]; simpl; [reflexivity|rewrite IH; reflexivity].
Qed.



(** The equation of [%]: it matches nothing, or one more character. *)
Lemma like_percent (p t : string) :
  sql.like (String "%" p) t
  = sql.like p t
    || match t with
       | EmptyString => false
       | String _ t' => sql.like (String "%" p) t'
       end.
Proof. destruct t; reflexivity. Qed.

Lemma like_percent_iff (p t : string) :
  sql.like (String "%" p) t = true <->
  exists pre post, t = (pre ++ post)%string /\ sql.like p post = true.
Proof.
  split.
  - induction t as [|c t IH]; rewrite like_percent; intros H.
    + rewrite orb_false_r in H. exists EmptyString, EmptyString. auto.
    + apply orb_true_iff in H. destruct H as [H|H].
      * exists EmptyString, (String c t). auto.
      * destruct (IH H) as (pre & post & -> & Hpost).
        exists (String c pre), post. auto.
  - intros (pre & post & -> & Hpost).
    induction pre as [|c pre IH]; simpl append.
    + rewrite like_percent, Hpost. reflexivity.
    + rewrite like_percent, IH. apply orb_true_r.
Qed.







Lemma lower_char_width (c : ascii) :
  (N_of_ascii (sql.lower_char c) <? 128)%N = (N_of_ascii c <? 128)%N.
Proof. destruct c as [[] [] [] [] [] [] [] []]; reflexivity. Qed.

Lemma utf8_length_lower (s : string) :
  sql.utf8_length (sql.lower s) = sql.utf8_length s.
Proof.
  induction s as [|c s IH]; cbn [sql.lower sql.utf8_length]; [reflexivity|].
  rewrite lower_char_width, IH. reflexivity.
Qed.

Lemma utf8_length_app (a b : string) :
  sql.utf8_length (a ++ b) = sql.utf8_length a + sql.utf8_length b.
Proof.
  induction a as [|c a IH]; cbn [append sql.utf8_length]; [reflexivity|].
  rewrite IH. lia.
Qed.

Lemma utf8_length_pattern (needle : string) :
  sql.utf8_length (sql.lower ("%" ++ needle ++ "%"))
  = sql.utf8_length needle + 2.
Proof.
  rewrite utf8_length_lower.
  change ("%" ++ needle ++ "%")%string with (String "%" (needle ++ "%")).
  cbn [sql.utf8_length]. rewrite utf8_length_app.
  change (sql.utf8_length "%") with 1.
  change (N_of_ascii "%" <? 128)%N with true. cbv iota. lia.
Qed.


(** ** The list operation *)

Lemma collect_load (rows : list sql.Row) (st : sql.Store)
    (pre : list (db.ObjState * Models.Essence)) :
  db.collect rows
    (fun row s' =>
       (inr (List.length (db.objects s')),
        db.with_objects s' (db.objects s' ++ [(db.Persistent, sql.load row)])))
    {| db.store := st; db.objects := pre |}
  = (inr (seq (List.length pre) (List.length rows)),
     {| db.store := st;
        db.objects := pre ++ map (fun r => (db.Persistent, sql.load r)) rows |}).
Proof.
  revert pre. induction rows as [|r rows IH]; intros pre; simpl.
  - unfold db.ret. rewrite app_nil_r. reflexivity.
  - unfold db.bind, db.with_objects. simpl.
    rewrite IH. unfold db.ret. rewrite length_snoc, <- app_cons_assoc.
    reflexivity.
Qed.

Lemma execute_run (query : sql.Select) (st : sql.Store) :
  db.execute query {| db.store := st; db.objects := [] |}
  = match sql.run_select query (sql.table st) with
    | inr rows =>
        (inr (seq 0 (List.length rows)),
         {| db.store := st;
            db.objects := map (fun r => (db.Persistent, sql.load r)) rows |})
    | inl exc => (inl exc, {| db.store := st; db.objects := [] |})
    end.
Proof.
  unfold db.execute. simpl db.store.
  destruct (sql.run_select query (sql.table st)) as [exc|rows]; [reflexivity|].
  apply (collect_load _ st []).
Qed.

Lemma like_percent_percent (t : string) : sql.like "%%" t = true.
Proof.
  apply like_percent_iff. exists EmptyString, t. split; [reflexivity|].
  apply like_percent_iff. exists t, EmptyString. split; [|reflexivity].
  induction t as [|c t IH]; simpl; [reflexivity|].
  rewrite <- IH. reflexivity.
Qed.

Lemma like_lower_empty_needle (text : string) :
  sql.like_lower text "%%" = true.
Proof. unfold sql.like_lower. apply like_percent_percent. Qed.

Lemma test_all_app (a b : list sql.Criterion) (r : sql.Row) :
  sql.test_all (a ++ b) r
  = match sql.test_all a r with
    | inr true => sql.test_all b r
    | other => other
    end.
Proof.
  induction a as [|c a IH]; simpl; [reflexivity|].
  destruct (sql.test c r) as [exc|[|]]; [reflexivity|exact IH|reflexivity].
Qed.

(** The criteria of the handler, evaluated on a row, are the filters, when
    the pattern is one SQLite accepts. *)
Lemma test_all_criteria (name : option string) (is_done : option bool)
    (min_quantity max_quantity : option Z) (r : sql.Row) :
  (forall needle, name = Some needle -> sql.utf8_length needle <= 49998) ->
  sql.test_all (criteria name is_done min_quantity max_quantity) r
  = inr (all_filters name is_done min_quantity max_quantity r).
Proof.
  intros Hname. unfold criteria, all_filters.
  rewrite !test_all_app.
  assert (Hn : sql.test_all
                 match name with
                 | Some n =>
                     if truthy n
                     then [sql.ilike sql.row_name ("%" ++ n ++ "%")%string]
                     else []
                 | None => []
                 end r = inr (name_filter name r)).
  { destruct name as [n|]; [|reflexivity].
    destruct n as [|c n].
    - simpl. rewrite like_lower_empty_needle. reflexivity.
    - cbn [truthy sql.test_all sql.test name_filter].
      rewrite utf8_length_pattern.
      specialize (Hname _ eq_refl).
      unfold sql.SQLITE_MAX_LIKE_PATTERN_LENGTH.
      destruct (Z.ltb_spec 50000 (sql.utf8_length (String c n) + 2)); [lia|].
      destruct (sql.like_lower _ _); reflexivity. }
  rewrite Hn.
  destruct (name_filter name r); [|reflexivity].
  destruct is_done as [d|], min_quantity as [lo|], max_quantity as [hi|];
    cbn [sql.test_all sql.test is_done_filter min_filter max_filter andb];
    repeat match goal with
           | |- context [Bool.eqb ?a ?b] => destruct (Bool.eqb a b)
           | |- context [?a <=? ?b] => destruct (a <=? b)
           end; reflexivity.
Qed.


(** When every criterion evaluates, the scan is a filter, then OFFSET, then
    LIMIT. *)
Lemma scan_filter (cs : list sql.Criterion) (f : sql.Row -> bool)
    (rows : list sql.Row) (skip : nat) (take : option nat) :
  (forall r, In r rows -> sql.test_all cs r = inr (f r)) ->
  sql.scan cs skip take rows = inr (taken take (skipn skip (filter f rows))).
Proof.
  revert skip take. induction rows as [|r rows IH]; intros skip take Hf.
  - destruct take as [[|n]|]; simpl; rewrite ?skipn_nil, ?firstn_nil;
      reflexivity.
  - assert (Hrest : forall r', In r' rows -> sql.test_all cs r' = inr (f r'))
      by (intros r' Hin; apply Hf; right; exact Hin).
    assert (Hr : sql.test_all cs r = inr (f r)) by (apply Hf; left; reflexivity).
    destruct take as [[|n]|]; cbn [sql.scan filter]; [reflexivity| |];
      rewrite Hr; destruct (f r); rewrite ?(IH _ _ Hrest);
      try reflexivity;
      destruct skip as [|k]; rewrite ?(IH _ _ Hrest); reflexivity.
Qed.



Lemma scan_incl (cs : list sql.Criterion) (rows out : list sql.Row)
    (skip : nat) (take : option nat) :
  sql.scan cs skip take rows = inr out -> incl out rows.
Proof.
  revert skip take out. induction rows as [|r rows IH]; intros skip take out.
  - destruct take as [[|n]|]; intros [= <-]; apply incl_nil_l.
  - assert (Hstep :
      match sql.test_all cs r with
      | inl e => inl e
      | inr false => sql.scan cs skip take rows
      | inr true =>
          match skip with
          | S skip' => sql.scan cs skip' take rows
          | O =>
              match sql.scan cs O (option_map Nat.pred take) rows with
              | inl e => inl e
              | inr out => inr (r :: out)
              end
          end
      end = inr out -> incl out (r :: rows)).
    { destruct (sql.test_all cs r) as [exc'|[|]] eqn:Hr; [discriminate| |].
      - destruct skip as [|k].
        + destruct (sql.scan cs 0 (option_map Nat.pred take) rows) eqn:Hs;
            [discriminate|].
          intros [= <-]. apply incl_cons; [left; reflexivity|].
          apply incl_tl. apply (IH _ _ _ Hs).
        + intros H. apply incl_tl. apply (IH _ _ _ H).
      - intros H. apply incl_tl. apply (IH _ _ _ H). }
    destruct take as [[|n]|];
      [intros [= <-]; apply incl_nil_l|exact Hstep|exact Hstep].
Qed.

Lemma scan_ext (cs1 cs2 : list sql.Criterion) (rows : list sql.Row)
    (skip : nat) (take : option nat) :
  (forall r, sql.test_all cs1 r = sql.test_all cs2 r) ->
  sql.scan cs1 skip take rows = sql.scan cs2 skip take rows.
Proof.
  intros H. revert skip take.
  induction rows as [|r rows IH]; intros skip take.
  - destruct take as [[|n]|]; reflexivity.
  - destruct take as [[|n]|]; cbn [sql.scan]; [reflexivity| |];
      rewrite H; destruct (sql.test_all cs2 r) as [exc|[|]];
      try reflexivity; try apply IH;
      destruct skip as [|k]; try apply IH; rewrite IH; reflexivity.
Qed.


Lemma run_select_incl (query : sql.Select) (tbl rows : list sql.Row) :
  sql.run_select query tbl = inr rows -> incl rows tbl.
Proof.
  unfold sql.run_select. destruct (_ && _); [|discriminate].
  apply scan_incl.
Qed.

(** The query the list handler runs. *)
Lemma list_essences_query (name : option string) (is_done : option bool)
    (min_quantity max_quantity : option Z) (limit offset : Z) :
  list_essences name is_done min_quantity max_quantity limit offset
  = db.execute
      {| sql.whereclause := criteria name is_done min_quantity max_quantity;
         sql.limit_clause := Some limit;
         sql.offset_clause := Some offset |}.
Proof.
  unfold list_essences, criteria.
  destruct name as [[|c n]|], is_done as [d|], min_quantity as [lo|],
    max_quantity as [hi|]; reflexivity.
Qed.

Lemma criteria_bind (name : option string) (is_done : option bool)
    (min_quantity max_quantity : option Z) :
  forallb sql.criterion_binds (criteria name is_done min_quantity max_quantity)
  = sql.binds min_quantity && sql.binds max_quantity.
Proof.
  unfold criteria.
  destruct name as [[|c n]|], is_done as [d|], min_quantity as [lo|],
    max_quantity as [hi|]; simpl; rewrite ?andb_true_r; reflexivity.
Qed.

(** The rows the query of [list_essences] selects. *)
Lemma list_query_rows (name : option string) (is_done : option bool)
    (min_quantity max_quantity : option Z) (limit offset : Z)
    (tbl : list sql.Row) :
  (forall needle, name = Some needle -> sql.utf8_length needle <= 49998) ->
  sql.binds min_quantity = true -> sql.binds max_quantity = true ->
  0 <= limit -> sql.fits limit = true -> sql.fits offset = true ->
  sql.run_select
    {| sql.whereclause := criteria name is_done min_quantity max_quantity;
       sql.limit_clause := Some limit;
       sql.offset_clause := Some offset |} tbl
  = inr (page limit offset
           (filter (all_filters name is_done min_quantity max_quantity) tbl)).
Proof.
  intros Hname Hmin Hmax Hlimit Hfl Hfo. unfold sql.run_select, page.
  cbn [sql.offset_clause sql.limit_clause sql.whereclause sql.binds].
  rewrite criteria_bind, Hmin, Hmax, Hfl, Hfo. cbn [andb].
  destruct (Z.ltb_spec limit 0); [lia|].
  rewrite (scan_filter _ (all_filters name is_done min_quantity max_quantity)).
  - reflexivity.
  - intros r _. apply test_all_criteria, Hname.
Qed.

Lemma Forall_filter_keep {A} (P : A -> Prop) (f : A -> bool) (l : list A) :
  Forall P l -> Forall P (filter f l).
Proof.
  intros H. rewrite Forall_forall in *. intros x Hx.
  apply filter_In in Hx. apply H, Hx.
Qed.

Lemma row_ok_checks (r : sql.Row) :
  row_ok r ->
  max_length_255 (sql.row_name r) = true /\ ge_0 (sql.row_quantity r) = true.
Proof.
  intros [Hn Hq]. split; [apply Nat.leb_le, Hn|apply Z.leb_le, Hq].
Qed.

(** What the list handler answers, on a store whose rows meet the
    constraints, for the rows its query selects. *)
Lemma list_serve (st : sql.Store) (name : option string) (is_done : option bool)
    (min_quantity max_quantity : option Z) (limit offset : Z) :
  Forall row_ok (sql.table st) ->
  serve HTTP_200_OK
    (list_essences name is_done min_quantity max_quantity limit offset)
    response_List_EssenceOut st
  = match sql.run_select
            {| sql.whereclause := criteria name is_done min_quantity max_quantity;
               sql.limit_clause := Some limit;
               sql.offset_clause := Some offset |} (sql.table st) with
    | inr rows => (Answer HTTP_200_OK (map shown rows), st)
    | inl exc => (Error exc, st)
    end.
Proof.
  intros Hok. rewrite list_essences_query.
  unfold serve. rewrite bind_run, execute_run.
  destruct (sql.run_select _ (sql.table st)) as [exc|rows] eqn:Hrows;
    [reflexivity|].
  assert (Hchecks : Forall (fun r => max_length_255 (sql.row_name r) = true
                                     /\ ge_0 (sql.row_quantity r) = true) rows).
  { apply (Forall_impl _ row_ok_checks).
    rewrite Forall_forall in *. intros r Hr.
    apply Hok. apply (run_select_incl _ _ _ Hrows), Hr. }
  pose proof (response_loaded rows st [] Hchecks) as Hresponse.
  cbn [app List.length] in Hresponse.
  rewrite Hresponse. destruct st; reflexivity.
Qed.

(** What the list operation answers on a store whose rows meet the
    constraints, when its integers bind and SQLite accepts its pattern: the
    rows that pass every supplied filter, in table order, [offset] of them
    skipped and at most [limit] kept. *)
Lemma list_run (st : sql.Store) (name : option string) (is_done : option bool)
    (min_quantity max_quantity : option Z) (limit offset : Z) :
  Forall row_ok (sql.table st) ->
  (forall needle, name = Some needle -> sql.utf8_length needle <= 49998) ->
  sql.binds min_quantity = true -> sql.binds max_quantity = true ->
  0 <= limit -> sql.fits limit = true -> sql.fits offset = true ->
  serve HTTP_200_OK
    (list_essences name is_done min_quantity max_quantity limit offset)
    response_List_EssenceOut st
  = (Answer HTTP_200_OK
       (map shown
          (page limit offset
             (filter (all_filters name is_done min_quantity max_quantity)
                     (sql.table st)))),
     st).
Proof.
  intros Hok Hname Hmin Hmax Hlimit Hfl Hfo.
  rewrite (list_serve st _ _ _ _ _ _ Hok).
  rewrite list_query_rows by assumption. reflexivity.
Qed.


Lemma Query_ge_0_valid (v : option Z) :
  (forall m, v = Some m -> 0 <= m) -> Query_ge_0 v = Some v.
Proof.
  intros H. destruct v as [m|]; simpl; [|reflexivity].
  destruct (Z.leb_spec 0 m); [reflexivity|].
  specialize (H m eq_refl). lia.
Qed.

Lemma Query_limit_valid (v : option Z) :
  (forall n, v = Some n -> 1 <= n <= 100) ->
  Query_limit v = Some (or_default 10 v).
Proof.
  intros H. destruct v as [n|]; simpl; [|reflexivity].
  specialize (H n eq_refl).
  destruct (Z.leb_spec 1 n); [|lia].
  destruct (Z.leb_spec n 100); [reflexivity|lia].
Qed.

Lemma Query_offset_valid (v : option Z) :
  (forall k, v = Some k -> 0 <= k) ->
  Query_offset v = Some (or_default 0 v).
Proof.
  intros H. destruct v as [k|]; simpl; [|reflexivity].
  destruct (Z.leb_spec 0 k); [reflexivity|].
  specialize (H k eq_refl). lia.
Qed.

Lemma binds_bounded (v : option Z) :
  (forall m, v = Some m -> 0 <= m < 2 ^ 63) -> sql.binds v = true.
Proof.
  intros H. destruct v as [m|]; [|reflexivity].
  simpl. apply fits_iff. specialize (H m eq_refl). lia.
Qed.

(** The list route on validated parameters that bind and a pattern SQLite
    accepts. *)
Lemma router_get_run (st : sql.Store) (name : option string)
    (is_done : option bool) (min_quantity max_quantity limit offset : option Z) :
  Forall row_ok (sql.table st) ->
  (forall needle, name = Some needle -> sql.utf8_length needle <= 49998) ->
  (forall m, min_quantity = Some m -> 0 <= m < 2 ^ 63) ->
  (forall m, max_quantity = Some m -> 0 <= m < 2 ^ 63) ->
  (forall n, limit = Some n -> 1 <= n <= 100) ->
  (forall k, offset = Some k -> 0 <= k < 2 ^ 63) ->
  router_get name is_done min_quantity max_quantity limit offset st
  = (Answer HTTP_200_OK
       (map shown
          (page (or_default 10 limit) (or_default 0 offset)
             (filter (all_filters name is_done min_quantity max_quantity)
                     (sql.table st)))),
     st).
Proof.
  intros Hok Hname Hmin Hmax Hlimit Hoffset.
  unfold router_get.
  rewrite (Query_ge_0_valid min_quantity), (Query_ge_0_valid max_quantity),
    (Query_limit_valid _ Hlimit), (Query_offset_valid offset).
  2:{ intros k Hk. apply (Hoffset k Hk). }
  2:{ intros m Hm. apply (Hmax m Hm). }
  2:{ intros m Hm. apply (Hmin m Hm). }
  assert (Hl : 1 <= or_default 10 limit <= 100).
  { destruct limit as [n|]; simpl; [apply Hlimit; reflexivity|lia]. }
  assert (Ho : 0 <= or_default 0 offset < 2 ^ 63).
  { destruct offset as [k|]; simpl; [apply Hoffset; reflexivity|lia]. }
  apply list_run; try assumption.
  - apply binds_bounded, Hmin.
  - apply binds_bounded, Hmax.
  - lia.
  - apply fits_iff. lia.
  - apply fits_iff. lia.
Qed.

(** The sample store is one the service reaches: three creates from the
    start. *)
Lemma fruit_reachable : reachable fruit.
Proof.
  assert (H : fruit
              = step (step (step startup
                  (POST (with_query (payload "Apple" 5 Absent))))
                  (POST (with_query (payload "Apricot" 3 (Given true)))))
                  (POST (with_query (payload "Banana" 10 Absent))))
    by reflexivity.
  rewrite H. repeat constructor.
Qed.



Lemma utf8_length_replicate (n : nat) :
  sql.utf8_length (replicate n "a") = Z.of_nat n.
Proof.
  induction n as [|n IH]; [reflexivity|].
  cbn [replicate sql.utf8_length]. rewrite IH.
  change (N_of_ascii "a" <? 128)%N with true. cbv iota. lia.
Qed.

Lemma utf8_length_truthy (s : string) :
  0 < sql.utf8_length s -> truthy s = true.
Proof. destruct s; [simpl; lia|reflexivity]. Qed.

(** A name of more than 49998 bytes makes a pattern SQLite refuses, as soon
    as there is a row to match it against. *)
Lemma list_pattern_too_long (st : sql.Store) (needle : string)
    (is_done : option bool) (min_quantity max_quantity : option Z)
    (limit offset : Z) (r : sql.Row) (rest : list sql.Row) :
  sql.table st = r :: rest ->
  49998 < sql.utf8_length needle ->
  sql.binds min_quantity = true -> sql.binds max_quantity = true ->
  1 <= limit -> sql.fits limit = true -> sql.fits offset = true ->
  serve HTTP_200_OK
    (list_essences (Some needle) is_done min_quantity max_quantity limit offset)
    response_List_EssenceOut st
  = (Error OperationalError, st).
Proof.
  intros Htbl Hlong Hmin Hmax Hlimit Hfl Hfo.
  rewrite list_essences_query. unfold serve.
  rewrite bind_run, execute_run. unfold sql.run_select.
  cbn [sql.whereclause sql.limit_clause sql.offset_clause sql.binds].
  rewrite criteria_bind, Hmin, Hmax, Hfl, Hfo, Htbl. cbn [andb].
  destruct (Z.ltb_spec limit 0); [lia|].
  assert (Htake : exists n, Z.to_nat limit = S n).
  { exists (Z.to_nat (limit - 1)). lia. }
  destruct Htake as (n & ->).
  assert (Htest : sql.test_all
                    (criteria (Some needle) is_done min_quantity max_quantity) r
                  = inl OperationalError).
  { unfold criteria. rewrite utf8_length_truthy by lia.
    cbn [app sql.test_all sql.test]. rewrite utf8_length_pattern.
    unfold sql.SQLITE_MAX_LIKE_PATTERN_LENGTH.
    destruct (Z.ltb_spec 50000 (sql.utf8_length needle + 2)); [reflexivity|lia]. }
  cbn [sql.scan]. rewrite Htest. reflexivity.
Qed.


(** ** Where the create route reads its payload *)

Lemma Depends_EssenceCreate_some (req : Request) (m : EssenceCreate) :
  Depends_EssenceCreate req = Some m -> create_fields_valid (query req).
Proof.
  unfold Depends_EssenceCreate, EssenceCreate_validate, EssenceBase_validate,
    create_fields_valid, required, defaulted. simpl.
  destruct (raw_name (query req)) as [| | |n]; try discriminate.
  unfold max_length_255. destruct (Nat.leb_spec (String.length n) 255);
    [|discriminate].
  destruct (raw_quantity (query req)) as [| | |q]; try discriminate.
  unfold ge_0. destruct (Z.leb_spec 0 q); [|discriminate].
  destruct (raw_is_done (query req)) as [| | |d]; try discriminate; intros _.
  - split; [eauto|split; [eauto|left; reflexivity]].
  - split; [eauto|split; [eauto|right; eauto]].
Qed.

Lemma Depends_EssenceCreate_valid_fields (req : Request) :
  create_fields_valid (query req) ->
  exists m, Depends_EssenceCreate req = Some m /\ model_ok m.
Proof.
  intros ((n & Hn & Hlen) & (q & Hq & Hge) & Hd).
  assert (Hsome : exists d, Depends_EssenceCreate req
                            = Some {| name := n; quantity := q; is_done := d |}).
  { destruct Hd as [Hd|[d Hd]].
    - exists false. apply Depends_EssenceCreate_valid; auto.
    - exists d. apply Depends_EssenceCreate_valid; auto. }
  destruct Hsome as (d & Hsome). eexists. split; [exact Hsome|].
  split; simpl; [apply Nat.leb_le, Hlen|apply Z.leb_le, Hge].
Qed.

(** C2, as the code has it.  The create route reads name, quantity and
    is_done from the query string of the request.  When they are those of a
    valid Create payload, the quantity below 2^63, and the table's next
    rowid is a 64-bit integer, it answers 201 with the created record, in
    one commit; when they are not those of a valid Create payload (a
    required one missing, one of the wrong type, one out of range) it
    answers 422 and the store is as before.  Nothing else of the request
    plays a part: two requests with the same three query parameters get the
    same answer, whatever their bodies and their other query keys. *)
Theorem create_reads_the_query (st : sql.Store) (req : Request) :
  (create_fields_valid (query req) ->
   (forall q, raw_quantity (query req) = Given q -> q < 2 ^ 63) ->
   sql.fits (sql.next_rowid (sql.table st)) = true ->
   exists m : EssenceCreate,
     raw_name (query req) = Given (name m)
     /\ raw_quantity (query req) = Given (quantity m)
     /\ (raw_is_done (query req) = Given (is_done m)
         \/ (raw_is_done (query req) = Absent /\ is_done m = false))
     /\ router_post req st
        = (Answer HTTP_201_CREATED (shown (row_of (sql.table st) m)),
           {| sql.table := sql.table st ++ [row_of (sql.table st) m];
              sql.commits := S (sql.commits st) |}))
  /\ (~ create_fields_valid (query req) ->
      router_post req st = (Error RequestValidationError, st)
      /\ status (fst (router_post req st)) = 422)
  /\ (forall req' : Request,
        raw_name (query req') = raw_name (query req) ->
        raw_quantity (query req') = raw_quantity (query req) ->
        raw_is_done (query req') = raw_is_done (query req) ->
        router_post req' st = router_post req st).
Proof.
  split; [|split].
  - intros Hvalid Hbound Hroom.
    destruct (Depends_EssenceCreate_valid_fields req Hvalid)
      as (m & Hm & Hn & Hq).
    assert (Hfields : raw_name (query req) = Given (name m)
                      /\ raw_quantity (query req) = Given (quantity m)
                      /\ (raw_is_done (query req) = Given (is_done m)
                          \/ (raw_is_done (query req) = Absent
                              /\ is_done m = false))).
    { revert Hm.
      unfold Depends_EssenceCreate, EssenceCreate_validate,
        EssenceBase_validate, required, defaulted. simpl.
      destruct (raw_name (query req)) as [| | |n]; try discriminate.
      destruct (max_length_255 n); [|discriminate].
      destruct (raw_quantity (query req)) as [| | |q]; try discriminate.
      destruct (ge_0 q); [|discriminate].
      destruct (raw_is_done (query req)); try discriminate;
        intros [= <-]; simpl;
        (split; [reflexivity|split; [reflexivity|auto]]). }
    destruct Hfields as (Hname & Hquantity & Hdone).
    assert (Hfq : sql.fits (quantity m) = true).
    { apply fits_iff. apply Z.leb_le in Hq.
      specialize (Hbound _ Hquantity). lia. }
    exists m. unfold router_post. rewrite Hm, create_run by assumption.
    auto.
  - intros Hinvalid.
    assert (Hnone : Depends_EssenceCreate req = None).
    { destruct (Depends_EssenceCreate req) as [m|] eqn:Hm; [|reflexivity].
      elim Hinvalid. apply (Depends_EssenceCreate_some req m Hm). }
    unfold router_post. rewrite Hnone. split; reflexivity.
  - intros req' Hn Hq Hd. unfold router_post, Depends_EssenceCreate.
    rewrite Hn, Hq, Hd. reflexivity.
Qed.

Lemma create_reads_the_query_witness :
  (exists m : EssenceCreate,
      name m = "Cherry"%string /\ quantity m = 1
      /\ fst (router_post (with_query (payload "Cherry" 1 Absent)) fruit)
         = Answer HTTP_201_CREATED (shown (row_of (sql.table fruit) m)))
  /\ router_post (with_query (payload "Cherry" (-1) Absent)) fruit
     = (Error RequestValidationError, fruit).
Proof.
  split.
  - destruct (create_reads_the_query fruit
                (with_query (payload "Cherry" 1 Absent))) as (Hvalid & _ & _).
    destruct Hvalid as (m & Hname & Hquantity & _ & Hrun).
    + split; [exists "Cherry"%string; split; [reflexivity|simpl; lia]|].
      split; [exists 1; split; [reflexivity|lia]|left; reflexivity].
    + intros q [= <-]. lia.
    + reflexivity.
    + exists m. simpl in Hname, Hquantity.
      injection Hname as <-. injection Hquantity as <-.
      rewrite Hrun. auto.
  - destruct (create_reads_the_query fruit
                (with_query (payload "Cherry" (-1) Absent))) as (_ & Hinvalid & _).
    apply Hinvalid.
    intros (_ & (q & Hq & Hge) & _). simpl in Hq. injection Hq as <-. lia.
Defined.

(** C2, as it is stated, fails on three counts.  A valid Create payload
    sent as the body of the request is answered 422 and creates nothing; a
    request whose body is invalid (a negative quantity, an unknown field) is
    answered 201 when its query string carries valid fields, an unknown query
    key being passed over as well; and valid fields with a quantity that no
    SQLite integer holds are answered 500, not 201. *)
Lemma create_does_not_read_the_body :
  router_post (with_body (payload "Cherry" 1 Absent)) fruit
  = (Error RequestValidationError, fruit)
  /\ router_post
       {| query := {| raw_name := Given "Cherry"%string; raw_quantity := Given 1;
                      raw_is_done := Absent; raw_extra := ["colour"%string] |};
          body := Object {| raw_name := Given "Cherry"%string;
                            raw_quantity := Given (-1);
                            raw_is_done := Absent;
                            raw_extra := ["colour"%string] |} |} fruit
     = (Answer HTTP_201_CREATED
          {| out_id := 4; out_name := "Cherry"; out_quantity := 1;
             out_is_done := false |},
        {| sql.table := [apple; apricot; banana;
                         {| sql.row_id := 4; sql.row_name := "Cherry";
                            sql.row_quantity := 1; sql.row_is_done := false |}];
           sql.commits := 4 |})
  /\ router_post (with_query (payload "Cherry" (2 ^ 63) Absent)) fruit
     = (Error OverflowError, fruit).
Proof.
  repeat split.
Qed.

(** * Further properties of the handlers *)

(** ** What a request does to the store *)

Lemma response_EssenceOut_session (r : db.ref) (s : db.Session) :
  snd (response_EssenceOut r s) = s.
Proof.
  unfold response_EssenceOut, db.bind, db.attributes.
  destruct (nth_error (db.objects s) r) as [[o e]|]; [|reflexivity].
  destruct (EssenceOut_validate _ _ _ _); reflexivity.
Qed.

Lemma response_List_session (rs : list db.ref) (s : db.Session) :
  snd (response_List_EssenceOut rs s) = s.
Proof.
  unfold response_List_EssenceOut.
  induction rs as [|r rs IH]; simpl; [reflexivity|].
  unfold db.bind at 1.
  pose proof (response_EssenceOut_session r s) as Hr.
  destruct (response_EssenceOut r s) as [[e|out] s1]; simpl in Hr; subst s1;
    [reflexivity|].
  unfold db.bind at 1.
  destruct (db.collect rs response_EssenceOut s) as [[e|outs] s2];
    simpl in IH; subst s2; reflexivity.
Qed.

Lemma updated_ids (i : Z) (new : sql.Row) (tbl : list sql.Row) :
  sql.row_id new = i -> ids (updated i new tbl) = ids tbl.
Proof.
  intros Hnew. unfold ids, updated. rewrite map_map.
  apply map_ext_in. intros r _.
  destruct (Z.eqb_spec (sql.row_id r) i); congruence.
Qed.

Lemma updated_twice (i : Z) (new : sql.Row) (tbl : list sql.Row) :
  sql.row_id new = i -> updated i new (updated i new tbl) = updated i new tbl.
Proof.
  intros Hnew. unfold updated. rewrite map_map.
  apply map_ext. intros r.
  destruct (Z.eqb_spec (sql.row_id r) i) as [E|N].
  - rewrite Hnew, Z.eqb_refl. reflexivity.
  - destruct (Z.eqb_spec (sql.row_id r) i); [contradiction|reflexivity].
Qed.

(** X1. A call of a writing route either leaves the store exactly as it
    was, table and commit count, or commits exactly once: no request commits
    twice, and none changes the table without a commit. *)
Theorem call_commits_at_most_once (st : sql.Store) (c : Call) :
  step st c = st \/ sql.commits (step st c) = S (sql.commits st).
Proof.
  destruct c as [req|req|i req|i req|i]; simpl.
  - destruct (post_cases st req) as [H|[H|[H|(m & _ & _ & _ & _ & H)]]];
      rewrite H; auto.
  - destruct (bulk_cases st req)
      as [H|[(exc & _ & H)|(items & ms & _ & _ & _ & H)]];
      rewrite H; auto.
  - destruct (put_cases st i req)
      as [H|[H|[H|(row & m & _ & _ & _ & _ & H)]]];
      rewrite H; auto.
  - destruct (patch_cases st i req) as [H|[H|[H|(row & u & _ & _ & _ & H)]]];
      rewrite H; auto.
    destruct (patched u row); auto.
  - destruct (delete_cases st i) as [H|[H|[_ H]]]; rewrite H; auto.
Qed.

(** X2. The two reading routes never write: whatever the store, even one
    with rows the schemas would refuse, and whatever their parameters, list
    and get-by-id hand the store back as it was. *)
Theorem reads_leave_the_store (st : sql.Store) (name : option string)
    (is_done : option bool) (min_quantity max_quantity limit offset : option Z)
    (i : Z) :
  snd (router_get name is_done min_quantity max_quantity limit offset st) = st
  /\ snd (router_get_id i st) = st.
Proof.
  split.
  - unfold router_get.
    destruct (Query_ge_0 min_quantity) as [lo|]; [|reflexivity].
    destruct (Query_ge_0 max_quantity) as [hi|]; [|reflexivity].
    destruct (Query_limit limit) as [n|]; [|reflexivity].
    destruct (Query_offset offset) as [k|]; [|reflexivity].
    rewrite list_essences_query. unfold serve.
    rewrite bind_run, execute_run.
    destruct (sql.run_select _ (sql.table st)) as [exc|rows]; [reflexivity|].
    match goal with
    | |- context [response_List_EssenceOut ?rs ?s] =>
        pose proof (response_List_session rs s) as Hs;
        destruct (response_List_EssenceOut rs s) as [[e|outs] s1]
    end; simpl in Hs; subst s1; reflexivity.
  - unfold router_get_id, serve, get_essence.
    rewrite !bind_run. unfold db.get. simpl.
    destruct (sql.fits i); [|reflexivity].
    destruct (sql.find_row i (sql.table st)) as [row|]; [|reflexivity].
    unfold db.ret.
    match goal with
    | |- context [response_EssenceOut ?r ?s] =>
        pose proof (response_EssenceOut_session r s) as Hs;
        destruct (response_EssenceOut r s) as [[e|out] s1]
    end; simpl in Hs; subst s1; reflexivity.
Qed.

(** X3. Full-replace and partial-update never add, remove or reorder rows:
    whatever the store, the id and the body, the ids of the table, in table
    order, are the same after the request as before. *)
Theorem updates_keep_the_ids (st : sql.Store) (i : Z) (req : Request) :
  ids (sql.table (snd (router_put i req st))) = ids (sql.table st)
  /\ ids (sql.table (snd (router_patch i req st))) = ids (sql.table st).
Proof.
  split.
  - destruct (put_cases st i req)
      as [H|[H|[H|(row & m & _ & _ & _ & _ & H)]]];
      rewrite H; try reflexivity.
    simpl. apply updated_ids. reflexivity.
  - destruct (patch_cases st i req)
      as [H|[H|[H|(row & u & Hrow & _ & _ & H)]]];
      rewrite H; try reflexivity.
    destruct (patched u row) as [new|] eqn:Hnew; [|reflexivity].
    simpl. apply updated_ids.
    destruct (patched_fields u row new Hnew) as (Hid & _).
    destruct (find_row_id _ _ _ Hrow) as [Hrid _]. congruence.
Qed.

(** X4. Get-by-id on any store.  A row that meets the constraints of the
    schemas is answered 200 as it is stored.  A row that breaks them (a
    negative quantity, a name of more than 255 characters) cannot pass the
    response model, which inherits them from [EssenceBase]: the request is
    answered with a response validation error, status 500. *)
Theorem get_shows_or_fails (st : sql.Store) (i : Z) (row : sql.Row)
    (Hrow : sql.find_row i (sql.table st) = Some row) :
  (row_ok row -> router_get_id i st = (Answer HTTP_200_OK (shown row), st))
  /\ (~ row_ok row ->
      router_get_id i st = (Error ResponseValidationError, st)
      /\ status (fst (router_get_id i st)) = 500).
Proof.
  split.
  - intros Hok. destruct (row_ok_checks row Hok) as [Hn Hq].
    apply get_run; assumption.
  - intros Hbad.
    assert (Hrun : router_get_id i st = (Error ResponseValidationError, st)).
    { unfold router_get_id, get_essence, response_EssenceOut. run_handler.
      rewrite (find_row_fits _ _ _ Hrow), Hrow. simpl.
      unfold EssenceOut_validate.
      destruct (max_length_255 (sql.row_name row)) eqn:Hn;
        destruct (ge_0 (sql.row_quantity row)) eqn:Hq; simpl;
        try (destruct st; reflexivity).
      elim Hbad. apply checks_row_ok; assumption. }
    rewrite Hrun. split; reflexivity.
Qed.

Lemma get_shows_or_fails_witness :
  router_get_id 2 fruit = (Answer HTTP_200_OK (shown apricot), fruit)
  /\ router_get_id 1
       {| sql.table := [ {| sql.row_id := 1; sql.row_name := "Apple";
                            sql.row_quantity := -5; sql.row_is_done := false |} ];
          sql.commits := 0 |}
     = (Error ResponseValidationError,
        {| sql.table := [ {| sql.row_id := 1; sql.row_name := "Apple";
                             sql.row_quantity := -5; sql.row_is_done := false |} ];
           sql.commits := 0 |}).
Proof.
  split.
  - destruct (get_shows_or_fails fruit 2 apricot eq_refl) as [Hok _].
    apply Hok. split; simpl; lia.
  - destruct (get_shows_or_fails
                {| sql.table := [ {| sql.row_id := 1; sql.row_name := "Apple";
                                     sql.row_quantity := -5;
                                     sql.row_is_done := false |} ];
                   sql.commits := 0 |} 1 _ eq_refl) as [_ Hbad].
    apply Hbad. intros [_ Hq]. simpl in Hq. lia.
Defined.

(** ** The primary key *)

Lemma sorted_snoc (l : list Z) (x : Z) :
  StronglySorted Z.lt l -> Forall (fun y => y < x) l ->
  StronglySorted Z.lt (l ++ [x]).
Proof.
  induction 1 as [|y l Hl IH Hy]; intros Hx; simpl.
  - repeat constructor.
  - inversion Hx as [|? ? Hyx Hlx]; subst.
    constructor; [apply IH, Hlx|].
    apply Forall_app. split; [exact Hy|repeat constructor; exact Hyx].
Qed.

Lemma sorted_NoDup (l : list Z) : StronglySorted Z.lt l -> NoDup l.
Proof.
  induction 1 as [|y l Hl IH Hy]; constructor; [|exact IH].
  intros Hin. rewrite Forall_forall in Hy. specialize (Hy y Hin). lia.
Qed.

Lemma sorted_filter (f : sql.Row -> bool) (tbl : list sql.Row) :
  StronglySorted Z.lt (ids tbl) -> StronglySorted Z.lt (ids (filter f tbl)).
Proof.
  unfold ids. induction tbl as [|r tbl IH]; simpl; intros H; [constructor|].
  inversion H as [|? ? Hs Hall]; subst.
  destruct (f r); [|apply IH, Hs].
  simpl. constructor; [apply IH, Hs|].
  rewrite Forall_forall in *. intros y Hy. apply Hall.
  apply in_map_iff in Hy. destruct Hy as (x & <- & Hx).
  apply filter_In in Hx. apply in_map, Hx.
Qed.

Lemma ids_below_next (tbl : list sql.Row) :
  Forall (fun y => y < sql.next_rowid tbl) (ids tbl).
Proof.
  unfold ids. rewrite Forall_forall. intros y Hy.
  apply in_map_iff in Hy. destruct Hy as (x & <- & Hx).
  apply next_rowid_above, Hx.
Qed.

Lemma next_rowid_positive (tbl : list sql.Row) :
  Forall (fun r => 1 <= sql.row_id r) tbl -> 1 <= sql.next_rowid tbl.
Proof.
  destruct tbl as [|r rest]; intros H; [simpl; lia|].
  inversion H as [|? ? Hr _]; subst.
  pose proof (max_rowid_bound r rest r (or_introl eq_refl)).
  unfold sql.next_rowid. lia.
Qed.

(** The keys of a table: increasing in table order, and positive. *)
Lemma keys_snoc (tbl : list sql.Row) (m : EssenceBase) :
  StronglySorted Z.lt (ids tbl) /\ Forall (fun r => 1 <= sql.row_id r) tbl ->
  StronglySorted Z.lt (ids (tbl ++ [row_of tbl m]))
  /\ Forall (fun r => 1 <= sql.row_id r) (tbl ++ [row_of tbl m]).
Proof.
  intros [Hs Hp]. split.
  - unfold ids. rewrite map_app. simpl.
    apply sorted_snoc; [exact Hs|apply ids_below_next].
  - apply Forall_app. split; [exact Hp|].
    constructor; [|constructor]. simpl. apply next_rowid_positive, Hp.
Qed.

Lemma keys_inserted (ms : list EssenceBase) (tbl : list sql.Row) :
  StronglySorted Z.lt (ids tbl) /\ Forall (fun r => 1 <= sql.row_id r) tbl ->
  StronglySorted Z.lt (ids (tbl ++ inserted tbl ms))
  /\ Forall (fun r => 1 <= sql.row_id r) (tbl ++ inserted tbl ms).
Proof.
  revert tbl. induction ms as [|m ms IH]; intros tbl H; simpl.
  - rewrite app_nil_r. exact H.
  - rewrite app_cons_assoc. apply IH, keys_snoc, H.
Qed.

Lemma step_keys (st : sql.Store) (c : Call) :
  StronglySorted Z.lt (ids (sql.table st))
  /\ Forall (fun r => 1 <= sql.row_id r) (sql.table st) ->
  StronglySorted Z.lt (ids (sql.table (step st c)))
  /\ Forall (fun r => 1 <= sql.row_id r) (sql.table (step st c)).
Proof.
  intros H.
  destruct c as [req|req|i req|i req|i]; simpl.
  - destruct (post_cases st req) as [E|[E|[E|(m & _ & _ & _ & _ & E)]]];
      rewrite E; try exact H. simpl. apply keys_snoc, H.
  - destruct (bulk_cases st req)
      as [E|[(exc & _ & E)|(items & ms & _ & _ & _ & E)]];
      rewrite E; try exact H. simpl. apply keys_inserted, H.
  - destruct (put_cases st i req)
      as [E|[E|[E|(row & m & _ & _ & _ & _ & E)]]];
      rewrite E; try exact H.
    simpl. destruct H as [Hs Hp]. split.
    + rewrite updated_ids by reflexivity. exact Hs.
    + unfold updated. apply Forall_map.
      apply (Forall_impl _ (P := fun r => 1 <= sql.row_id r)); [|exact Hp].
      intros r Hr. destruct (Z.eqb_spec (sql.row_id r) i); simpl; lia.
  - destruct (patch_cases st i req)
      as [E|[E|[E|(row & u & Hrow & _ & _ & E)]]];
      rewrite E; try exact H.
    destruct (patched u row) as [new|] eqn:Hnew; [|exact H].
    destruct (patched_fields u row new Hnew) as (Hid & _).
    destruct (find_row_id _ _ _ Hrow) as [Hrid _].
    simpl. destruct H as [Hs Hp]. split.
    + rewrite updated_ids by congruence. exact Hs.
    + unfold updated. apply Forall_map.
      apply (Forall_impl _ (P := fun r => 1 <= sql.row_id r)); [|exact Hp].
      intros r Hr. destruct (Z.eqb_spec (sql.row_id r) i); [|exact Hr].
      rewrite Hid, Hrid. lia.
  - destruct (delete_cases st i) as [E|[E|[_ E]]]; rewrite E; try exact H.
    simpl. destruct H as [Hs Hp]. split.
    + apply sorted_filter, Hs.
    + apply Forall_filter_keep, Hp.
Qed.

Lemma reachable_keys (st : sql.Store) :
  reachable st ->
  StronglySorted Z.lt (ids (sql.table st))
  /\ Forall (fun r => 1 <= sql.row_id r) (sql.table st).
Proof.
  induction 1 as [|st c _ IH].
  - split; constructor.
  - apply step_keys, IH.
Qed.

(** X5. In every store the service can reach, the ids of the table are
    positive, pairwise distinct and increasing in table order: the order in
    which the list operation scans the rows is the order of their ids. *)
Theorem ids_distinct_and_increasing (st : sql.Store) (Hreach : reachable st) :
  StronglySorted Z.lt (ids (sql.table st))
  /\ NoDup (ids (sql.table st))
  /\ Forall (fun r => 1 <= sql.row_id r) (sql.table st).
Proof.
  destruct (reachable_keys st Hreach) as [Hs Hp].
  split; [exact Hs|]. split; [apply sorted_NoDup, Hs|exact Hp].
Qed.

Lemma ids_distinct_and_increasing_witness :
  StronglySorted Z.lt (ids (sql.table fruit)) /\ NoDup (ids (sql.table fruit)).
Proof.
  destruct (ids_distinct_and_increasing fruit fruit_reachable) as (Hs & Hn & _).
  split; assumption.
Defined.

Lemma delete_row_splits (i : Z) (row : sql.Row) (tbl : list sql.Row) :
  StronglySorted Z.lt (ids tbl) -> sql.find_row i tbl = Some row ->
  exists pre post,
    tbl = pre ++ row :: post /\ sql.delete_row i tbl = pre ++ post.
Proof.
  intros Hs Hfind. pose proof (find_row_fits _ _ _ Hfind) as Hfits.
  unfold sql.find_row in Hfind. rewrite Hfits in Hfind. clear Hfits.
  revert Hs Hfind. unfold ids, sql.delete_row.
  induction tbl as [|r tbl IH]; simpl; intros Hs Hfind; [discriminate|].
  inversion Hs as [|? ? Hs' Hall]; subst.
  destruct (Z.eqb_spec (sql.row_id r) i) as [E|N]; simpl.
  - injection Hfind as <-. exists [], tbl. split; [reflexivity|]. simpl.
    clear IH Hs Hs'. induction tbl as [|x tbl IH]; simpl; [reflexivity|].
    inversion Hall as [|? ? Hx Hall']; subst.
    destruct (Z.eqb_spec (sql.row_id x) (sql.row_id r)); [lia|]. simpl.
    rewrite (IH Hall'). reflexivity.
  - destruct (IH Hs' Hfind) as (pre & post & -> & Hdel).
    exists (r :: pre), post. split; [reflexivity|]. simpl.
    rewrite Hdel. reflexivity.
Qed.

(** X6. On a store the service can reach, delete of an id that has a row
    removes that one row and nothing else: the rows before it and the rows
    after it stay, in their order, and the table is one row shorter. *)
Theorem delete_removes_one_row (st : sql.Store) (i : Z) (row : sql.Row)
    (Hreach : reachable st)
    (Hrow : sql.find_row i (sql.table st) = Some row) :
  exists pre post,
    sql.table st = pre ++ row :: post
    /\ router_delete i st
       = (Answer HTTP_204_NO_CONTENT tt,
          {| sql.table := pre ++ post; sql.commits := S (sql.commits st) |})
    /\ S (List.length (pre ++ post)) = List.length (sql.table st).
Proof.
  destruct (reachable_keys st Hreach) as [Hs _].
  destruct (delete_row_splits i row (sql.table st) Hs Hrow)
    as (pre & post & Htbl & Hdel).
  exists pre, post. split; [exact Htbl|]. split.
  - rewrite (delete_run st i row Hrow), Hdel. reflexivity.
  - rewrite Htbl, !length_app. simpl. lia.
Qed.

Lemma delete_removes_one_row_witness :
  exists pre post,
    sql.table fruit = pre ++ apricot :: post
    /\ router_delete 2 fruit
       = (Answer HTTP_204_NO_CONTENT tt,
          {| sql.table := pre ++ post; sql.commits := 4 |}).
Proof.
  destruct (delete_removes_one_row fruit 2 apricot fruit_reachable eq_refl)
    as (pre & post & Htbl & Hrun & _).
  exists pre, post. split; assumption.
Defined.

(** ** How the operations compose *)

Lemma find_row_updated_self (i : Z) (new row : sql.Row) (tbl : list sql.Row) :
  sql.row_id new = i -> sql.find_row i tbl = Some row ->
  sql.find_row i (updated i new tbl) = Some new.
Proof.
  intros Hnew Hrow. unfold updated.
  rewrite find_row_update by exact Hnew.
  rewrite Z.eqb_refl, Hrow. reflexivity.
Qed.

(** X7. Full-replace, then read, then replace again.  When full-replace of
    an id is answered 200 with a record, get-by-id of that id answers the
    same record, and the same full-replace once more answers the same record
    and leaves the table as the first one left it. *)
Theorem put_then_get_then_put (st : sql.Store) (i : Z) (req : Request)
    (out : EssenceOut)
    (Hput : fst (router_put i req st) = Answer HTTP_200_OK out) :
  let st1 := snd (router_put i req st) in
  router_get_id i st1 = (Answer HTTP_200_OK out, st1)
  /\ router_put i req st1
     = (Answer HTTP_200_OK out,
        {| sql.table := sql.table st1; sql.commits := S (sql.commits st1) |}).
Proof.
  destruct (put_cases st i req)
    as [E|[E|[E|(row & m & Hrow & Hm & [Hn Hq] & _ & E)]]];
    cbv zeta in E; rewrite E in Hput |- *; simpl in Hput; try discriminate.
  injection Hput as <-.
  set (new := {| sql.row_id := i; sql.row_name := name m;
                 sql.row_quantity := quantity m;
                 sql.row_is_done := is_done m |}) in *.
  cbn [snd].
  assert (Hfound : sql.find_row i (updated i new (sql.table st)) = Some new)
    by (apply (find_row_updated_self i new row); [reflexivity|exact Hrow]).
  set (st1 := {| sql.table := updated i new (sql.table st);
                 sql.commits := S (sql.commits st) |}).
  split.
  - apply (get_run st1 i new); [exact Hfound|exact Hn|exact Hq].
  - unfold router_put. rewrite Hm.
    rewrite (put_serve st1 i new m Hfound). unfold storable.
    cbn [sql.row_quantity new]. rewrite Z.eqb_refl. cbn [orb].
    fold new. rewrite answer_row_ok by (apply checks_row_ok; assumption).
    cbn [sql.table sql.commits st1].
    rewrite updated_twice by reflexivity. reflexivity.
Qed.

Lemma put_then_get_then_put_witness :
  router_get_id 2 (snd (router_put 2 (with_body (payload "Plum" 8 Absent)) fruit))
  = (Answer HTTP_200_OK
       {| out_id := 2; out_name := "Plum"; out_quantity := 8;
          out_is_done := false |},
     snd (router_put 2 (with_body (payload "Plum" 8 Absent)) fruit)).
Proof.
  destruct (put_then_get_then_put fruit 2 (with_body (payload "Plum" 8 Absent))
              {| out_id := 2; out_name := "Plum"; out_quantity := 8;
                 out_is_done := false |} eq_refl) as [Hget _].
  exact Hget.
Defined.

(** X8. A partial update that gives all three fields is a full replace: on
    any store and for any id, a body with a valid name, a valid quantity and
    an is_done gets the same answer and leaves the same store through PATCH
    as through PUT. *)
Theorem patch_of_all_fields_is_put (st : sql.Store) (i : Z) (p : Payload)
    (n : string) (q : Z) (d : bool)
    (Hextra : raw_extra p = [])
    (Hname : raw_name p = Given n) (Hlen : (String.length n <= 255)%nat)
    (Hquantity : raw_quantity p = Given q) (Hq : 0 <= q)
    (Hdone : raw_is_done p = Given d) :
  router_patch i (with_body p) st = router_put i (with_body p) st.
Proof.
  assert (Hn' : max_length_255 n = true) by (apply Nat.leb_le, Hlen).
  assert (Hq' : ge_0 q = true) by (apply Z.leb_le, Hq).
  assert (Hu : Body_model EssenceUpdate_validate (with_body p)
               = Some {| upd_name := SetTo (Some n);
                         upd_quantity := SetTo (Some q);
                         upd_is_done := SetTo (Some d) |}).
  { unfold Body_model, EssenceUpdate_validate, extra_forbid. simpl.
    rewrite Hextra, Hname, Hquantity, Hdone. simpl.
    rewrite Hn', Hq'. reflexivity. }
  pose proof (Body_model_replace_valid p n q d Hextra Hname Hlen Hquantity Hq
                (or_introl Hdone)) as Hm.
  destruct (sql.find_row i (sql.table st)) as [row|] eqn:Hrow.
  - unfold router_patch, router_put. rewrite Hu, Hm.
    rewrite (patch_serve st i row _ Hrow).
    rewrite (put_serve st i row {| name := n; quantity := q; is_done := d |}
               Hrow).
    unfold patched. simpl.
    destruct (find_row_id _ _ _ Hrow) as [-> _]. reflexivity.
  - destruct (sql.fits i) eqn:Hfits.
    + rewrite (patch_missing st i Hfits Hrow _ _ Hu).
      rewrite (put_missing st i Hfits Hrow _ _ Hm). reflexivity.
    + rewrite (patch_unbound st i Hfits _ _ Hu).
      rewrite (put_unbound st i Hfits _ _ Hm). reflexivity.
Qed.

Lemma patch_of_all_fields_is_put_witness :
  router_patch 2 (with_body (payload "Plum" 8 (Given true))) fruit
  = router_put 2 (with_body (payload "Plum" 8 (Given true))) fruit.
Proof.
  apply (patch_of_all_fields_is_put fruit 2 _ "Plum" 8 true);
    try reflexivity; simpl; lia.
Defined.

Lemma merged_twice {T} (s : Setting T) (old new : T) :
  merged s old = Some new -> merged s new = Some new.
Proof. destruct s as [|[v|]]; simpl; congruence. Qed.

Lemma patched_twice (u : EssenceUpdate) (row new : sql.Row) :
  patched u row = Some new -> patched u new = Some new.
Proof.
  intros Hnew.
  destruct (patched_fields u row new Hnew) as (_ & Hn & Hq & Hd).
  unfold patched.
  rewrite (merged_twice _ _ _ Hn), (merged_twice _ _ _ Hq),
    (merged_twice _ _ _ Hd).
  rewrite row_eta. reflexivity.
Qed.

(** X9. Partial-update twice.  For an id that has a row and any body, the
    same partial update sent a second time gets the answer of the first and
    leaves the table as the first left it; and when the first is answered
    200 with a record, get-by-id of that id answers that record. *)
Theorem patch_then_patch_again (st : sql.Store) (i : Z) (row : sql.Row)
    (req : Request)
    (Hrow : sql.find_row i (sql.table st) = Some row) :
  let st1 := snd (router_patch i req st) in
  fst (router_patch i req st1) = fst (router_patch i req st)
  /\ sql.table (snd (router_patch i req st1)) = sql.table st1
  /\ (forall out, fst (router_patch i req st) = Answer HTTP_200_OK out ->
        router_get_id i st1 = (Answer HTTP_200_OK out, st1)).
Proof.
  destruct (patch_cases st i req)
    as [E|[E|[E|(row' & u & Hrow' & Hu & _ & E)]]].
  - rewrite E. simpl. rewrite E. simpl.
    split; [reflexivity|]. split; [reflexivity|]. discriminate.
  - rewrite E. simpl. rewrite E. simpl.
    split; [reflexivity|]. split; [reflexivity|]. discriminate.
  - rewrite E. simpl. rewrite E. simpl.
    split; [reflexivity|]. split; [reflexivity|]. discriminate.
  - assert (row' = row) by congruence. subst row'.
    destruct (patched u row) as [new|] eqn:Hnew.
    + destruct (patched_fields u row new Hnew) as (Hid & _).
      destruct (find_row_id _ _ _ Hrow) as [Hrid _].
      assert (Hnid : sql.row_id new = i) by congruence.
      assert (Hfound : sql.find_row i (updated i new (sql.table st)) = Some new)
        by (apply (find_row_updated_self i new row); assumption).
      rewrite E. cbn [fst snd].
      set (st1 := {| sql.table := updated i new (sql.table st);
                     sql.commits := S (sql.commits st) |}).
      unfold router_patch at 1 2. rewrite Hu.
      rewrite (patch_serve st1 i new u Hfound), (patched_twice u row new Hnew).
      destruct (patched_fields u row new Hnew) as (_ & _ & Hmq & _).
      rewrite (merged_twice _ _ _ Hmq). unfold storable.
      rewrite Z.eqb_refl. cbn [orb].
      cbn [fst snd sql.table st1]. rewrite updated_twice by exact Hnid.
      split; [reflexivity|]. split; [reflexivity|].
      intros out Hout. pose proof (answer_row_inv _ _ _ Hout) as ->.
      unfold answer_row in Hout.
      unfold router_get_id, get_essence, response_EssenceOut. run_handler.
      rewrite (find_row_fits _ _ _ Hfound), Hfound. simpl.
      destruct (EssenceOut_validate _ _ _ _) as [out'|]; [|discriminate].
      injection Hout as ->. reflexivity.
    + rewrite E. simpl. rewrite E.
      split; [reflexivity|]. split; [reflexivity|]. discriminate.
Qed.

Lemma patch_then_patch_again_witness :
  sql.table (snd (router_patch 2 (with_body (null_name empty_payload))
                    (snd (router_patch 2 (with_body (null_name empty_payload))
                            fruit))))
  = sql.table fruit.
Proof.
  destruct (patch_then_patch_again fruit 2 apricot
              (with_body (null_name empty_payload)) eq_refl) as (_ & Htable & _).
  exact Htable.
Defined.

Lemma delete_row_absent (i : Z) (tbl : list sql.Row) :
  (forall x, In x tbl -> sql.row_id x <> i) -> sql.delete_row i tbl = tbl.
Proof.
  unfold sql.delete_row.
  induction tbl as [|r tbl IH]; simpl; intros H; [reflexivity|].
  destruct (Z.eqb_spec (sql.row_id r) i) as [E|N]; simpl.
  - elim (H r (or_introl eq_refl) E).
  - rewrite IH; [reflexivity|]. intros x Hx. apply H. right. exact Hx.
Qed.

(** X10. Create, then delete what was created.  When create is answered
    201 with a record, delete of that record's id is answered 204 and the
    table is again the one before the create, two commits later. *)
Theorem create_then_delete (st : sql.Store) (req : Request) (out : EssenceOut)
    (Hpost : fst (router_post req st) = Answer HTTP_201_CREATED out) :
  router_delete (out_id out) (snd (router_post req st))
  = (Answer HTTP_204_NO_CONTENT tt,
     {| sql.table := sql.table st; sql.commits := S (S (sql.commits st)) |}).
Proof.
  destruct (post_cases st req) as [E|[E|[E|(m & _ & _ & _ & Hroom & E)]]];
    rewrite E in Hpost |- *; simpl in Hpost; try discriminate.
  injection Hpost as <-. cbn [snd shown out_id].
  set (row := row_of (sql.table st) m).
  set (st1 := {| sql.table := sql.table st ++ [row];
                 sql.commits := S (sql.commits st) |}).
  assert (Hfound : sql.find_row (sql.row_id row) (sql.table st1) = Some row).
  { cbn [sql.table st1].
    change (sql.row_id row) with (sql.next_rowid (sql.table st)).
    apply find_row_appended; [reflexivity|exact Hroom]. }
  rewrite (delete_run st1 (sql.row_id row) row Hfound).
  cbn [sql.table sql.commits st1]. f_equal. f_equal.
  unfold sql.delete_row. rewrite filter_app. simpl.
  rewrite Z.eqb_refl. simpl. rewrite app_nil_r.
  apply delete_row_absent.
  change (sql.row_id row) with (sql.next_rowid (sql.table st)).
  intros x Hx E'. apply next_rowid_above in Hx. lia.
Qed.

Lemma create_then_delete_witness :
  router_delete 4 (snd (router_post (with_query (payload "Cherry" 1 Absent)) fruit))
  = (Answer HTTP_204_NO_CONTENT tt,
     {| sql.table := [apple; apricot; banana]; sql.commits := 5 |}).
Proof.
  exact (create_then_delete fruit (with_query (payload "Cherry" 1 Absent))
           {| out_id := 4; out_name := "Cherry"; out_quantity := 1;
              out_is_done := false |} eq_refl).
Defined.

Lemma create_of_valid (st : sql.Store) (p : Payload) (m : EssenceCreate) :
  EssenceCreate_validate p = Some m ->
  quantity m < 2 ^ 63 ->
  sql.fits (sql.next_rowid (sql.table st)) = true ->
  router_post (with_query p) st
  = (Answer HTTP_201_CREATED (shown (row_of (sql.table st) m)),
     {| sql.table := sql.table st ++ [row_of (sql.table st) m];
        sql.commits := S (sql.commits st) |}).
Proof.
  intros Hp Hlt Hroom.
  assert (Hdep : Depends_EssenceCreate (with_query p) = Some m).
  { unfold Depends_EssenceCreate. simpl. rewrite <- Hp.
    revert Hp. unfold EssenceCreate_validate, EssenceBase_validate, extra_forbid.
    destruct p as [n q d extra]. simpl.
    destruct extra; [reflexivity|discriminate]. }
  destruct (EssenceBase_validate_sound p m Hp) as [Hn Hq].
  unfold router_post. rewrite Hdep. apply create_run; try assumption.
  apply fits_iff. apply Z.leb_le in Hq. lia.
Qed.

Lemma has_rowids_step (tbl : list sql.Row) (row : sql.Row) (n : nat) :
  sql.row_id row = sql.next_rowid tbl ->
  has_rowids tbl (S n) ->
  sql.fits (sql.next_rowid tbl) = true /\ has_rowids (tbl ++ [row]) n.
Proof.
  intros Hid Hroom. split.
  - specialize (Hroom 0%nat). simpl in Hroom. rewrite Z.add_0_r in Hroom.
    apply Hroom. lia.
  - intros k Hk. rewrite next_rowid_snoc by exact Hid.
    specialize (Hroom (S k)). rewrite Nat2Z.inj_succ in Hroom.
    replace (sql.next_rowid tbl + 1 + Z.of_nat k)
      with (sql.next_rowid tbl + Z.succ (Z.of_nat k)) by lia.
    apply Hroom. lia.
Qed.

Lemma creates_of_valid (items : list Payload) (ms : list EssenceCreate)
    (st : sql.Store) :
  Forall2 (fun p m => EssenceCreate_validate p = Some m) items ms ->
  Forall (fun m => quantity m < 2 ^ 63) ms ->
  has_rowids (sql.table st) (List.length ms) ->
  creates items st
  = {| sql.table := sql.table st ++ inserted (sql.table st) ms;
       sql.commits := (List.length items + sql.commits st)%nat |}
  /\ created items st
     = map (fun r => Answer HTTP_201_CREATED (shown r))
           (inserted (sql.table st) ms).
Proof.
  intros H. revert st. unfold creates.
  induction H as [|p m items ms Hp _ IH]; intros st Hlt Hroom; simpl.
  - rewrite app_nil_r. destruct st; split; reflexivity.
  - inversion Hlt as [|? ? Hm Hms]; subst.
    destruct (has_rowids_step (sql.table st) (row_of (sql.table st) m) _
                eq_refl Hroom) as [Hfirst Hrest].
    rewrite (create_of_valid st p m Hp Hm Hfirst). cbn [fst snd].
    destruct (IH {| sql.table := sql.table st ++ [row_of (sql.table st) m];
                    sql.commits := S (sql.commits st) |} Hms Hrest)
      as [Hst Hout].
    rewrite Hst, Hout. cbn [sql.table sql.commits].
    rewrite <- app_cons_assoc. split; [|reflexivity].
    f_equal. lia.
Qed.

(** X11. Bulk-create against one create after the other.  When every
    payload of the sequence validates, with a quantity below 2^63, and the
    table has a 64-bit rowid for each, bulk-create leaves the table that
    the creates, sent one by one in the same order, leave, and answers with
    the records they answer with; it commits once where they commit once
    each.  For the empty sequence that is 201 with no record, the table
    untouched and one commit. *)
Theorem bulk_is_a_run_of_creates (st : sql.Store) (items : list Payload)
    (ms : list EssenceCreate)
    (Hvalid : Forall2 (fun p m => EssenceCreate_validate p = Some m) items ms)
    (Hbound : Forall (fun m => quantity m < 2 ^ 63) ms)
    (Hroom : has_rowids (sql.table st) (List.length ms)) :
  exists outs,
    router_post_bulk (with_items items) st
    = (Answer HTTP_201_CREATED outs,
       {| sql.table := sql.table (creates items st);
          sql.commits := S (sql.commits st) |})
    /\ created items st = map (Answer HTTP_201_CREATED) outs
    /\ sql.commits (creates items st)
       = (List.length items + sql.commits st)%nat
    /\ (items = [] -> outs = [] /\ sql.table (creates items st) = sql.table st).
Proof.
  destruct (creates_of_valid items ms st Hvalid Hbound Hroom) as [Hst Hout].
  exists (map shown (inserted (sql.table st) ms)).
  pose proof (validated_models_ok items ms Hvalid) as Hok.
  split; [|split; [|split]].
  - unfold router_post_bulk, Body_List. simpl.
    rewrite (validate_each_all _ _ _ Hvalid).
    rewrite bulk_run;
      [|exact Hok|apply models_fit; assumption|apply inserted_ids, Hroom].
    rewrite Hst. reflexivity.
  - rewrite Hout, map_map. reflexivity.
  - rewrite Hst. reflexivity.
  - intros ->. inversion Hvalid; subst. split; reflexivity.
Qed.

Lemma bulk_is_a_run_of_creates_witness :
  sql.table
    (snd (router_post_bulk
            (with_items [payload "Apple" 5 Absent;
                         payload "Apricot" 3 (Given true);
                         payload "Banana" 10 Absent]) startup))
  = sql.table fruit.
Proof.
  destruct (bulk_is_a_run_of_creates startup
              [payload "Apple" 5 Absent; payload "Apricot" 3 (Given true);
               payload "Banana" 10 Absent]
              [ {| name := "Apple"; quantity := 5; is_done := false |};
                {| name := "Apricot"; quantity := 3; is_done := true |};
                {| name := "Banana"; quantity := 10; is_done := false |} ])
    as (outs & Hrun & _).
  - repeat constructor.
  - repeat constructor.
  - intros [|[|[|k]]] Hk; try reflexivity. simpl in Hk. lia.
  - rewrite Hrun. reflexivity.
Defined.

(** ** Pages of the list operation *)

(** X12. The size of a page.  On a store the service can reach and with
    parameters within their bounds (the quantity bounds and the offset at
    most 2^63 - 1, the name at most 49998 bytes), the list operation
    answers with at most [limit] records (10 when no limit is given), never
    more than 100; and an offset at or beyond the number of rows that pass
    the filters is not an error: the answer is 200 with no record. *)
Theorem page_is_bounded (st : sql.Store) (name : option string)
    (is_done : option bool) (min_quantity max_quantity limit offset : option Z)
    (Hreach : reachable st)
    (Hname : forall needle, name = Some needle ->
               sql.utf8_length needle <= 49998)
    (Hmin : forall m, min_quantity = Some m -> 0 <= m < 2 ^ 63)
    (Hmax : forall m, max_quantity = Some m -> 0 <= m < 2 ^ 63)
    (Hlimit : forall n, limit = Some n -> 1 <= n <= 100)
    (Hoffset : forall k, offset = Some k -> 0 <= k < 2 ^ 63) :
  exists outs,
    router_get name is_done min_quantity max_quantity limit offset st
    = (Answer HTTP_200_OK outs, st)
    /\ Z.of_nat (List.length outs) <= or_default 10 limit
    /\ (List.length outs <= 100)%nat
    /\ (Z.of_nat
          (List.length
             (filter (all_filters name is_done min_quantity max_quantity)
                     (sql.table st)))
        <= or_default 0 offset -> outs = []).
Proof.
  eexists. split.
  - apply router_get_run; try assumption. apply reachable_rows_ok, Hreach.
  - assert (Hn : 1 <= or_default 10 limit <= 100).
    { destruct limit as [n|]; simpl; [apply Hlimit; reflexivity|lia]. }
    set (l := filter _ _). unfold page.
    set (size := Z.to_nat (or_default 10 limit)).
    set (skip := Z.to_nat (or_default 0 offset)).
    assert (Hlen : (List.length (firstn size (skipn skip l)) <= size)%nat)
      by apply firstn_le_length.
    rewrite length_map. split; [lia|]. split; [lia|].
    intros Hoff. rewrite skipn_all2 by lia. rewrite firstn_nil. reflexivity.
Qed.

Lemma page_is_bounded_witness :
  router_get None None None None (Some 2) (Some 7) fruit
  = (Answer HTTP_200_OK [], fruit).
Proof.
  destruct (page_is_bounded fruit None None None None (Some 2) (Some 7)
              fruit_reachable) as (outs & Hrun & _ & _ & Hempty);
    try discriminate; try (intros ? [= <-]; lia).
  rewrite Hrun, Hempty; [reflexivity|simpl; lia].
Defined.

Lemma firstn_then_more {A} (n m : nat) (l : list A) :
  firstn n l ++ firstn m (skipn n l) = firstn (n + m) l.
Proof.
  revert l. induction n as [|n IH]; intros l; simpl; [reflexivity|].
  destruct l as [|x l]; simpl.
  - rewrite firstn_nil. reflexivity.
  - rewrite IH. reflexivity.
Qed.

(** X13. Consecutive pages join without gap or overlap.  On a store the
    service can reach, with the same filters within their bounds, the page
    of [n] records at offset [k] followed by the page of [m] records at
    offset [k + n] is the page of [n + m] records at offset [k], as long as
    [n + m] is a limit the route accepts and [k + n] is below 2^63. *)
Theorem pages_join (st : sql.Store) (name : option string)
    (is_done : option bool) (min_quantity max_quantity : option Z) (n m k : Z)
    (Hreach : reachable st)
    (Hname : forall needle, name = Some needle ->
               sql.utf8_length needle <= 49998)
    (Hmin : forall lo, min_quantity = Some lo -> 0 <= lo < 2 ^ 63)
    (Hmax : forall hi, max_quantity = Some hi -> 0 <= hi < 2 ^ 63)
    (Hn : 1 <= n) (Hm : 1 <= m) (Hnm : n + m <= 100)
    (Hk : 0 <= k) (Hkn : k + n < 2 ^ 63) :
  exists first second,
    router_get name is_done min_quantity max_quantity (Some n) (Some k) st
    = (Answer HTTP_200_OK first, st)
    /\ router_get name is_done min_quantity max_quantity
         (Some m) (Some (k + n)) st
       = (Answer HTTP_200_OK second, st)
    /\ router_get name is_done min_quantity max_quantity
         (Some (n + m)) (Some k) st
       = (Answer HTTP_200_OK (first ++ second), st).
Proof.
  set (l := filter (all_filters name is_done min_quantity max_quantity)
                   (sql.table st)).
  pose proof (reachable_rows_ok st Hreach) as Hrows.
  exists (map shown (page n k l)), (map shown (page m (k + n) l)).
  split; [|split].
  - apply router_get_run; try assumption; intros ? [= <-]; lia.
  - apply router_get_run; try assumption; intros ? [= <-]; lia.
  - rewrite router_get_run; try assumption; try (intros ? [= <-]; lia).
    fold l. simpl or_default. rewrite <- map_app. unfold page.
    replace (Z.to_nat (k + n)) with (Z.to_nat n + Z.to_nat k)%nat by lia.
    rewrite <- skipn_skipn.
    replace (Z.to_nat (n + m)) with (Z.to_nat n + Z.to_nat m)%nat by lia.
    rewrite firstn_then_more. reflexivity.
Qed.

Lemma pages_join_witness :
  exists first second,
    router_get None None None None (Some 1) (Some 0) fruit
    = (Answer HTTP_200_OK first, fruit)
    /\ router_get None None None None (Some 2) (Some (0 + 1)) fruit
       = (Answer HTTP_200_OK second, fruit)
    /\ router_get None None None None (Some (1 + 2)) (Some 0) fruit
       = (Answer HTTP_200_OK (first ++ second), fruit).
Proof.
  apply (pages_join fruit None None None None 1 2 0 fruit_reachable);
    try discriminate; lia.
Defined.

Lemma lower_pattern (needle : string) :
  sql.lower ("%" ++ needle ++ "%") = ("%" ++ sql.lower needle ++ "%")%string.
Proof.
  change ("%" ++ needle ++ "%")%string with (String "%" (needle ++ "%")).
  change (sql.lower (String "%" (needle ++ "%")))
    with (String "%" (sql.lower (needle ++ "%"))).
  rewrite lower_app. reflexivity.
Qed.

Lemma truthy_lower (s : string) : truthy (sql.lower s) = truthy s.
Proof. destruct s; reflexivity. Qed.

(** X14. The needle of the name filter.  Two needles that differ only in
    letter case give the same answer on every store and with every other
    parameter; and an empty needle is no filter at all: the answer is the
    one given when no name is sent. *)
Theorem needle_case_and_empty (st : sql.Store) (is_done : option bool)
    (min_quantity max_quantity limit offset : option Z) :
  (forall n1 n2 : string,
      sql.lower n1 = sql.lower n2 ->
      router_get (Some n1) is_done min_quantity max_quantity limit offset st
      = router_get (Some n2) is_done min_quantity max_quantity limit offset st)
  /\ router_get (Some ""%string) is_done min_quantity max_quantity limit offset st
     = router_get None is_done min_quantity max_quantity limit offset st.
Proof.
  split; [|reflexivity].
  intros n1 n2 Hlower.
  assert (Htruthy : truthy n1 = truthy n2).
  { rewrite <- (truthy_lower n1), <- (truthy_lower n2), Hlower. reflexivity. }
  assert (Hpattern : sql.lower ("%" ++ n1 ++ "%") = sql.lower ("%" ++ n2 ++ "%")).
  { rewrite !lower_pattern, Hlower. reflexivity. }
  assert (Hcriteria : forall lo hi r,
             sql.test_all (criteria (Some n1) is_done lo hi) r
             = sql.test_all (criteria (Some n2) is_done lo hi) r).
  { intros lo hi r. unfold criteria. rewrite !test_all_app, Htruthy.
    destruct (truthy n2); [|reflexivity].
    cbn [sql.test_all sql.test]. unfold sql.like_lower.
    rewrite Hpattern. reflexivity. }
  unfold router_get.
  destruct (Query_ge_0 min_quantity) as [lo|]; [|reflexivity].
  destruct (Query_ge_0 max_quantity) as [hi|]; [|reflexivity].
  destruct (Query_limit limit) as [n|]; [|reflexivity].
  destruct (Query_offset offset) as [k|]; [|reflexivity].
  rewrite !list_essences_query.
  assert (Hselect : forall tbl,
             sql.run_select
               {| sql.whereclause := criteria (Some n1) is_done lo hi;
                  sql.limit_clause := Some n; sql.offset_clause := Some k |} tbl
             = sql.run_select
                 {| sql.whereclause := criteria (Some n2) is_done lo hi;
                    sql.limit_clause := Some n; sql.offset_clause := Some k |}
                 tbl).
  { intros tbl. unfold sql.run_select.
    cbn [sql.whereclause sql.limit_clause sql.offset_clause].
    rewrite !criteria_bind.
    destruct (_ && _); [|reflexivity].
    apply scan_ext. intros r. apply Hcriteria. }
  unfold serve, db.bind, db.execute. cbn [db.store].
  rewrite Hselect. reflexivity.
Qed.

(** ** Errors *)

Lemma Query_limit_some (v : option Z) (n : Z) :
  Query_limit v = Some n -> 1 <= n <= 100.
Proof.
  unfold Query_limit. destruct v as [x|].
  - destruct (Z.leb_spec 1 x); simpl; [|discriminate].
    destruct (Z.leb_spec x 100); [|discriminate].
    intros [= <-]. lia.
  - intros [= <-]. lia.
Qed.

Lemma optional_null {T} (ok : T -> bool) (r : Raw T) :
  optional ok r = Some (SetTo None) -> r = Null.
Proof.
  destruct r as [| | |v]; simpl; try discriminate; [reflexivity|].
  destruct (ok v); discriminate.
Qed.

Lemma merged_none {T} (s : Setting T) (old : T) :
  merged s old = None -> s = SetTo None.
Proof. destruct s as [|[v|]]; simpl; congruence. Qed.

Lemma patched_none (p : Payload) (u : EssenceUpdate) (row : sql.Row) :
  EssenceUpdate_validate p = Some u -> patched u row = None -> has_null p.
Proof.
  intros Hu Hnone.
  destruct (EssenceUpdate_validate_fields p u Hu) as (Hn & Hq & Hd & _).
  unfold patched in Hnone. unfold has_null.
  destruct (merged (upd_name u) (sql.row_name row)) eqn:Hmn.
  - destruct (merged (upd_quantity u) (sql.row_quantity row)) eqn:Hmq.
    + destruct (merged (upd_is_done u) (sql.row_is_done row)) eqn:Hmd;
        [discriminate|].
      right. right. apply merged_none in Hmd. rewrite Hmd in Hd.
      apply (optional_null _ _ Hd).
    + right. left. apply merged_none in Hmq. rewrite Hmq in Hq.
      apply (optional_null _ _ Hq).
  - left. apply merged_none in Hmn. rewrite Hmn in Hn.
    apply (optional_null _ _ Hn).
Qed.

Lemma EssenceBase_validate_quantity (p : Payload) (m : EssenceBase) :
  EssenceBase_validate p = Some m -> raw_quantity p = Given (quantity m).
Proof.
  unfold EssenceBase_validate, required, defaulted.
  destruct (extra_forbid p); [|discriminate].
  destruct (raw_name p) as [| | |n]; try discriminate.
  destruct (max_length_255 n); [|discriminate].
  destruct (raw_quantity p) as [| | |q]; try discriminate.
  destruct (ge_0 q); [|discriminate].
  destruct (raw_is_done p); try discriminate; intros [= <-]; reflexivity.
Qed.

Lemma validated_fits (p : Payload) (m : EssenceBase) :
  EssenceBase_validate p = Some m ->
  (forall q, raw_quantity p = Given q -> q < 2 ^ 63) ->
  sql.fits (quantity m) = true.
Proof.
  intros Hp Hbound.
  destruct (EssenceBase_validate_sound p m Hp) as [_ Hq].
  apply Z.leb_le in Hq. apply fits_iff.
  specialize (Hbound _ (EssenceBase_validate_quantity p m Hp)). lia.
Qed.

Lemma validated_storable (p : Payload) (u : EssenceUpdate) (old : Z) :
  EssenceUpdate_validate p = Some u ->
  (forall q, raw_quantity p = Given q -> q < 2 ^ 63) ->
  storable old (merged (upd_quantity u) old) = true.
Proof.
  intros Hp Hbound.
  destruct (EssenceUpdate_validate_fields p u Hp) as (_ & Hq & _ & _).
  destruct (raw_quantity p) as [| | |q] eqn:Hraw; simpl in Hq.
  - injection Hq as <-. simpl. rewrite Z.eqb_refl. reflexivity.
  - injection Hq as <-. reflexivity.
  - discriminate.
  - unfold ge_0 in Hq. destruct (Z.leb_spec 0 q); [|discriminate].
    injection Hq as <-. simpl.
    assert (Hfits : sql.fits q = true).
    { apply fits_iff. specialize (Hbound q eq_refl). lia. }
    rewrite Hfits. apply orb_true_r.
Qed.

Lemma Query_ge_0_some (v x : option Z) :
  Query_ge_0 v = Some x -> x = v /\ forall m, v = Some m -> 0 <= m.
Proof.
  destruct v as [m|]; simpl.
  - destruct (Z.leb_spec 0 m); [|discriminate].
    intros [= <-]. split; [reflexivity|]. intros m' [= <-]. assumption.
  - intros [= <-]. split; [reflexivity|discriminate].
Qed.

Lemma Query_offset_some (v : option Z) (k : Z) :
  Query_offset v = Some k -> k = or_default 0 v /\ 0 <= k.
Proof.
  destruct v as [x|]; simpl.
  - destruct (Z.leb_spec 0 x); [|discriminate].
    intros [= <-]. split; [reflexivity|assumption].
  - intros [= <-]. split; [reflexivity|lia].
Qed.


(** X15. The statuses of the routes on a store the service can reach, for
    requests whose integers SQLite can hold (ids within 64 bits, quantities,
    quantity bounds and offset below 2^63), whose name is at most 49998
    bytes, and while the table has 64-bit rowids to hand out.  Create and
    bulk-create answer 201 or 422; list answers 200 or 422; get-by-id
    answers 200 or 404; full-replace answers 200, 404 or 422; delete
    answers 204 or 404.  Partial-update answers 200, 404, 422 or 500, and
    500 only for a body that sends one of the three fields as null. *)
Theorem statuses_of_the_routes (st : sql.Store) (Hreach : reachable st) :
  (forall req,
      (forall q, raw_quantity (query req) = Given q -> q < 2 ^ 63) ->
      sql.fits (sql.next_rowid (sql.table st)) = true ->
      In (status (fst (router_post req st))) [201; 422])
  /\ (forall req items,
        body req = Array items ->
        (forall p q, In p items -> raw_quantity p = Given q -> q < 2 ^ 63) ->
        has_rowids (sql.table st) (List.length items) ->
        In (status (fst (router_post_bulk req st))) [201; 422])
  /\ (forall name is_done min_quantity max_quantity limit offset,
        (forall needle, name = Some needle ->
           sql.utf8_length needle <= 49998) ->
        (forall m, min_quantity = Some m -> m < 2 ^ 63) ->
        (forall m, max_quantity = Some m -> m < 2 ^ 63) ->
        (forall k, offset = Some k -> k < 2 ^ 63) ->
        In (status (fst (router_get name is_done min_quantity max_quantity
                           limit offset st))) [200; 422])
  /\ (forall i, - 2 ^ 63 <= i < 2 ^ 63 ->
        In (status (fst (router_get_id i st))) [200; 404])
  /\ (forall i req,
        - 2 ^ 63 <= i < 2 ^ 63 ->
        (forall p q, body req = Object p -> raw_quantity p = Given q ->
           q < 2 ^ 63) ->
        In (status (fst (router_put i req st))) [200; 404; 422])
  /\ (forall i, - 2 ^ 63 <= i < 2 ^ 63 ->
        In (status (fst (router_delete i st))) [204; 404])
  /\ (forall i req,
        - 2 ^ 63 <= i < 2 ^ 63 ->
        (forall p q, body req = Object p -> raw_quantity p = Given q ->
           q < 2 ^ 63) ->
        In (status (fst (router_patch i req st))) [200; 404; 422; 500]
        /\ (status (fst (router_patch i req st)) = 500 ->
            exists p, body req = Object p /\ has_null p)).
Proof.
  pose proof (reachable_rows_ok st Hreach) as Hrows.
  split; [|split; [|split; [|split; [|split; [|split]]]]].
  - intros req Hbound Hroom. unfold router_post.
    destruct (Depends_EssenceCreate req) as [m|] eqn:Hm; [|simpl; auto].
    destruct (EssenceBase_validate_sound _ _ Hm) as [Hn Hq].
    rewrite create_run; try assumption; [simpl; auto|].
    apply (validated_fits _ m Hm). exact Hbound.
  - intros req items Hbody Hbound Hroom.
    unfold router_post_bulk, Body_List. rewrite Hbody.
    destruct (validate_each EssenceCreate_validate items) as [ms|] eqn:Hms;
      [|simpl; auto].
    apply validate_each_some in Hms.
    pose proof (validated_models_ok items ms Hms) as Hok.
    rewrite bulk_run; [simpl; auto|exact Hok| |].
    + clear Hok Hroom Hbody.
      induction Hms as [|p m items ms Hp _ IH]; constructor.
      * apply (validated_fits p m Hp). intros q. apply Hbound. left. reflexivity.
      * apply IH. intros p' q Hin. apply Hbound. right. exact Hin.
    + apply inserted_ids. rewrite <- (Forall2_length Hms). exact Hroom.
  - intros name is_done min_quantity max_quantity limit offset
      Hname Hmin Hmax Hoffset.
    unfold router_get.
    destruct (Query_ge_0 min_quantity) as [lo|] eqn:Hlo; [|simpl; auto].
    destruct (Query_ge_0 max_quantity) as [hi|] eqn:Hhi; [|simpl; auto].
    destruct (Query_limit limit) as [n|] eqn:Hn; [|simpl; auto].
    destruct (Query_offset offset) as [k|] eqn:Hk; [|simpl; auto].
    apply Query_limit_some in Hn.
    destruct (Query_ge_0_some _ _ Hlo) as [-> Hlo0].
    destruct (Query_ge_0_some _ _ Hhi) as [-> Hhi0].
    destruct (Query_offset_some _ _ Hk) as [Hkv Hk0].
    rewrite list_run; try assumption; [simpl; auto| | |lia| |].
    + apply binds_bounded. intros m Hm'.
      split; [apply (Hlo0 m Hm')|apply (Hmin m Hm')].
    + apply binds_bounded. intros m Hm'.
      split; [apply (Hhi0 m Hm')|apply (Hmax m Hm')].
    + apply fits_iff. lia.
    + apply fits_iff. split; [lia|].
      destruct offset as [x|]; simpl in Hkv; subst k;
        [apply Hoffset; reflexivity|lia].
  - intros i Hi. apply fits_iff in Hi.
    destruct (sql.find_row i (sql.table st)) as [row|] eqn:Hrow.
    + destruct (find_row_id _ _ _ Hrow) as [_ Hin].
      rewrite Forall_forall in Hrows.
      destruct (row_ok_checks row (Hrows row Hin)) as [Hn Hq].
      rewrite (get_run st i row Hrow Hn Hq). simpl. auto.
    + rewrite (get_missing st i Hi Hrow). simpl. auto.
  - intros i req Hi Hbound. apply fits_iff in Hi. unfold router_put.
    destruct (Body_model EssenceReplace_validate req) as [m|] eqn:Hm;
      [|simpl; auto].
    destruct (Body_model_inv _ _ _ Hm) as (p & Hbody & Hp).
    destruct (EssenceBase_validate_sound _ _ Hp) as [Hn Hq].
    destruct (sql.find_row i (sql.table st)) as [row|] eqn:Hrow.
    + rewrite (put_run st i row m Hrow Hn Hq); [simpl; auto|].
      apply (validated_fits p m Hp). intros q. apply (Hbound p q Hbody).
    + pose proof (put_missing st i Hi Hrow req m Hm) as E.
      unfold router_put in E. rewrite Hm in E. rewrite E. simpl. auto.
  - intros i Hi. apply fits_iff in Hi.
    destruct (sql.find_row i (sql.table st)) as [row|] eqn:Hrow.
    + rewrite (delete_run st i row Hrow). simpl. auto.
    + rewrite (delete_missing st i Hi Hrow). simpl. auto.
  - intros i req Hi Hbound. apply fits_iff in Hi. unfold router_patch.
    destruct (Body_model EssenceUpdate_validate req) as [u|] eqn:Hu;
      [|simpl; split; [auto|discriminate]].
    destruct (Body_model_inv _ _ _ Hu) as (p & Hbody & Hp).
    destruct (sql.find_row i (sql.table st)) as [row|] eqn:Hrow.
    + rewrite (patch_serve st i row u Hrow).
      rewrite (validated_storable p u _ Hp (fun q => Hbound p q Hbody)).
      destruct (patched u row) as [new|] eqn:Hnew.
      * assert (Hok : row_ok new).
        { apply (patched_row_ok p u row new Hp Hnew).
          destruct (find_row_id _ _ _ Hrow) as [_ Hin].
          rewrite Forall_forall in Hrows. apply Hrows, Hin. }
        rewrite (answer_row_ok _ _ Hok). simpl.
        split; [auto|discriminate].
      * simpl. split; [auto 6|]. intros _.
        exists p. split; [exact Hbody|].
        apply (patched_none p u row Hp Hnew).
    + pose proof (patch_missing st i Hi Hrow req u Hu) as E.
      unfold router_patch in E. rewrite Hu in E. rewrite E. simpl.
      split; [auto|discriminate].
Qed.

Lemma statuses_of_the_routes_witness :
  In (status (fst (router_patch 2 (with_body (null_name empty_payload)) fruit)))
     [200; 404; 422; 500]
  /\ In (status (fst (router_put 9 (with_body (payload "Plum" 8 Absent)) fruit)))
        [200; 404; 422].
Proof.
  destruct (statuses_of_the_routes fruit fruit_reachable)
    as (_ & _ & _ & _ & Hput & _ & Hpatch).
  split.
  - apply Hpatch; [lia|]. intros p q [= <-]. discriminate.
  - apply Hput; [lia|]. intros p q [= <-] [= <-]. lia.
Defined.

(** X16. Full-replace against partial-update when is_done is left out.  For
    an id that has a row and a body with a valid name and a quantity from 0
    to 2^63 - 1 and no is_done, both are accepted and both store the name
    and the quantity; full-replace sets is_done to false, partial-update
    leaves is_done as the row had it. *)
Theorem is_done_left_out (st : sql.Store) (i : Z) (row : sql.Row) (p : Payload)
    (n : string) (q : Z)
    (Hrow : sql.find_row i (sql.table st) = Some row)
    (Hextra : raw_extra p = [])
    (Hname : raw_name p = Given n) (Hlen : (String.length n <= 255)%nat)
    (Hquantity : raw_quantity p = Given q) (Hq : 0 <= q < 2 ^ 63)
    (Hdone : raw_is_done p = Absent) :
  sql.find_row i (sql.table (snd (router_put i (with_body p) st)))
  = Some {| sql.row_id := i; sql.row_name := n; sql.row_quantity := q;
            sql.row_is_done := false |}
  /\ sql.find_row i (sql.table (snd (router_patch i (with_body p) st)))
     = Some {| sql.row_id := i; sql.row_name := n; sql.row_quantity := q;
               sql.row_is_done := sql.row_is_done row |}.
Proof.
  assert (Hn' : max_length_255 n = true) by (apply Nat.leb_le, Hlen).
  assert (Hq' : ge_0 q = true) by (apply Z.leb_le; lia).
  assert (Hfq : sql.fits q = true) by (apply fits_iff; lia).
  destruct (find_row_id _ _ _ Hrow) as [Hrid _].
  split.
  - pose proof (Body_model_replace_valid p n q false Hextra Hname Hlen
                  Hquantity (proj1 Hq) (or_intror (conj Hdone eq_refl))) as Hm.
    unfold router_put. rewrite Hm.
    rewrite (put_run st i row {| name := n; quantity := q; is_done := false |}
               Hrow Hn' Hq' Hfq).
    cbn [snd sql.table name quantity is_done].
    apply (find_row_updated_self i _ row); [reflexivity|exact Hrow].
  - assert (Hu : Body_model EssenceUpdate_validate (with_body p)
                 = Some {| upd_name := SetTo (Some n);
                           upd_quantity := SetTo (Some q);
                           upd_is_done := Unset |}).
    { unfold Body_model, EssenceUpdate_validate, extra_forbid. simpl.
      rewrite Hextra, Hname, Hquantity, Hdone. simpl.
      rewrite Hn', Hq'. reflexivity. }
    unfold router_patch. rewrite Hu, (patch_serve st i row _ Hrow).
    unfold patched, storable.
    cbn [upd_name upd_quantity upd_is_done merged].
    rewrite Hfq, orb_true_r. cbn [snd sql.table].
    rewrite Hrid.
    apply (find_row_updated_self i _ row); [reflexivity|exact Hrow].
Qed.

Lemma is_done_left_out_witness :
  sql.find_row 2 (sql.table (snd (router_put 2
     (with_body (payload "Plum" 8 Absent)) fruit)))
  = Some {| sql.row_id := 2; sql.row_name := "Plum"; sql.row_quantity := 8;
            sql.row_is_done := false |}
  /\ sql.find_row 2 (sql.table (snd (router_patch 2
        (with_body (payload "Plum" 8 Absent)) fruit)))
     = Some {| sql.row_id := 2; sql.row_name := "Plum"; sql.row_quantity := 8;
               sql.row_is_done := true |}.
Proof.
  apply (is_done_left_out fruit 2 apricot (payload "Plum" 8 Absent) "Plum" 8);
    try reflexivity; simpl; lia.
Defined.

(** X17. A body with a key the schema does not know is refused before
    anything is looked up.  Whatever the store and the id, whether the id
    has a row or not, and whatever the known fields hold, full-replace and
    partial-update answer 422, and so does bulk-create when any one of its
    payloads has such a key; the store is as before. *)
Theorem unknown_key_is_refused (st : sql.Store) (i : Z) (p : Payload)
    (items : list Payload)
    (Hextra : raw_extra p <> []) :
  router_put i (with_body p) st = (Error RequestValidationError, st)
  /\ router_patch i (with_body p) st = (Error RequestValidationError, st)
  /\ (In p items ->
      router_post_bulk (with_items items) st
      = (Error RequestValidationError, st))
  /\ status (@Error EssenceOut RequestValidationError) = 422.
Proof.
  assert (Hbase : EssenceBase_validate p = None).
  { unfold EssenceBase_validate, extra_forbid.
    destruct (raw_extra p); [contradiction|reflexivity]. }
  assert (Hupdate : EssenceUpdate_validate p = None).
  { unfold EssenceUpdate_validate, extra_forbid.
    destruct (raw_extra p); [contradiction|reflexivity]. }
  split; [|split; [|split]].
  - unfold router_put, Body_model, EssenceReplace_validate. simpl.
    rewrite Hbase. reflexivity.
  - unfold router_patch, Body_model. simpl. rewrite Hupdate. reflexivity.
  - intros Hin. unfold router_post_bulk, Body_List. simpl.
    rewrite validate_each_one_bad; [reflexivity|].
    apply Exists_exists. exists p. split; [exact Hin|exact Hbase].
  - reflexivity.
Qed.

Lemma unknown_key_is_refused_witness :
  router_put 2 (with_body {| raw_name := Given "Plum"%string;
                             raw_quantity := Given 8; raw_is_done := Absent;
                             raw_extra := ["colour"%string] |}) fruit
  = (Error RequestValidationError, fruit).
Proof.
  destruct (unknown_key_is_refused fruit 2
              {| raw_name := Given "Plum"%string; raw_quantity := Given 8;
                 raw_is_done := Absent; raw_extra := ["colour"%string] |} [])
    as (Hput & _).
  - discriminate.
  - exact Hput.
Defined.

(** ** The bounds of the list parameters *)

Lemma filter_none {A} (f : A -> bool) (l : list A) :
  (forall x, f x = false) -> filter f l = [].
Proof.
  intros H. induction l as [|x l IH]; simpl; [reflexivity|].
  rewrite H. exact IH.
Qed.

(** X18. The two quantity bounds are not checked against each other.  On a
    store the service can reach, a min_quantity greater than the
    max_quantity, both below 2^63, is accepted, and the answer is 200 with
    no record, whatever the other parameters within their bounds. *)
Theorem crossed_bounds_select_nothing (st : sql.Store) (name : option string)
    (is_done : option bool) (lo hi : Z) (limit offset : option Z)
    (Hreach : reachable st)
    (Hname : forall needle, name = Some needle ->
               sql.utf8_length needle <= 49998)
    (Hlo : 0 <= lo < 2 ^ 63) (Hhi : 0 <= hi < 2 ^ 63) (Hcrossed : hi < lo)
    (Hlimit : forall n, limit = Some n -> 1 <= n <= 100)
    (Hoffset : forall k, offset = Some k -> 0 <= k < 2 ^ 63) :
  router_get name is_done (Some lo) (Some hi) limit offset st
  = (Answer HTTP_200_OK [], st).
Proof.
  rewrite router_get_run; try assumption; try (intros ? [= <-]; lia);
    [|apply reachable_rows_ok, Hreach].
  rewrite filter_none.
  - unfold page. rewrite skipn_nil, firstn_nil. reflexivity.
  - intros r. unfold all_filters, min_filter, max_filter.
    destruct (Z.leb_spec lo (sql.row_quantity r)).
    + destruct (Z.leb_spec (sql.row_quantity r) hi); [lia|].
      apply andb_false_r.
    + rewrite andb_false_r. reflexivity.
Qed.

Lemma crossed_bounds_select_nothing_witness :
  router_get None None (Some 6) (Some 4) None None fruit
  = (Answer HTTP_200_OK [], fruit).
Proof.
  apply (crossed_bounds_select_nothing fruit None None 6 4 None None
           fruit_reachable); try discriminate; lia.
Defined.



(** ** The 64 bits of the storage *)

Lemma fits_false (z : Z) : z < - 2 ^ 63 \/ 2 ^ 63 <= z -> sql.fits z = false.
Proof.
  intros H. destruct (sql.fits z) eqn:Hfits; [|reflexivity].
  apply fits_iff in Hfits. lia.
Qed.

(** X20. An id that no SQLite integer holds is not looked up.  Whatever the
    store, for an id below -2^63 or at least 2^63, of at most 4000 digits,
    get-by-id and delete answer 500, and so do full-replace and
    partial-update for every body that passes validation; the store is as
    before. *)
Theorem id_beyond_64_bits (st : sql.Store) (i : Z)
    (Hi : - 10 ^ 4000 < i < - 2 ^ 63 \/ 2 ^ 63 <= i < 10 ^ 4000) :
  router_get_id i st = (Error OverflowError, st)
  /\ router_delete i st = (Error OverflowError, st)
  /\ (forall req essence_in,
        Body_model EssenceReplace_validate req = Some essence_in ->
        router_put i req st = (Error OverflowError, st))
  /\ (forall req essence_in,
        Body_model EssenceUpdate_validate req = Some essence_in ->
        router_patch i req st = (Error OverflowError, st))
  /\ status (@Error EssenceOut OverflowError) = 500.
Proof.
  assert (Hunfit : sql.fits i = false).
  { apply fits_false. destruct Hi as [[_ Hi]|[Hi _]]; [left|right]; exact Hi. }
  clear Hi. rename Hunfit into Hi.
  split; [apply get_unbound, Hi|].
  split; [apply delete_unbound, Hi|].
  split; [intros req m; apply put_unbound, Hi|].
  split; [intros req u; apply patch_unbound, Hi|reflexivity].
Qed.

Lemma id_beyond_64_bits_witness :
  router_get_id (2 ^ 63) fruit = (Error OverflowError, fruit)
  /\ router_delete (- 2 ^ 63 - 1) fruit = (Error OverflowError, fruit).
Proof.
  split.
  - destruct (id_beyond_64_bits fruit (2 ^ 63)) as (Hget & _).
    + right. split; [discriminate|reflexivity].
    + exact Hget.
  - destruct (id_beyond_64_bits fruit (- 2 ^ 63 - 1)) as (_ & Hdel & _).
    + left. split; reflexivity.
    + exact Hdel.
Defined.

Lemma storable_fits (old : Z) (q : Z) :
  sql.fits old = true -> storable old (Some q) = true -> sql.fits q = true.
Proof.
  unfold storable. intros Hold H. apply orb_true_iff in H.
  destruct H as [H|H]; [|exact H].
  apply Z.eqb_eq in H. subst q. exact Hold.
Qed.

Lemma step_fits (st : sql.Store) (c : Call) :
  Forall (fun r => sql.fits (sql.row_id r) = true
                   /\ sql.fits (sql.row_quantity r) = true) (sql.table st) ->
  Forall (fun r => sql.fits (sql.row_id r) = true
                   /\ sql.fits (sql.row_quantity r) = true)
         (sql.table (step st c)).
Proof.
  intros Hst.
  destruct c as [req|req|i req|i req|i]; simpl.
  - destruct (post_cases st req) as [H|[H|[H|(m & _ & _ & Hq & Hi & H)]]];
      rewrite H; try exact Hst.
    simpl. apply Forall_app. split; [exact Hst|].
    constructor; [|constructor]. split; assumption.
  - unfold router_post_bulk, Body_List.
    destruct (body req) as [|p|items]; try exact Hst.
    destruct (validate_each EssenceCreate_validate items) as [ms|] eqn:Hms;
      [|exact Hst].
    apply validate_each_some in Hms.
    pose proof (validated_models_ok items ms Hms) as Hok.
    destruct (bulk_serve_cases st ms Hok)
      as [(Hqs & Hids & H)|(exc & _ & H)]; rewrite H; [|exact Hst].
    simpl. apply Forall_app. split; [exact Hst|].
    clear H Hms Hok. revert Hqs Hids. generalize (sql.table st) as tbl.
    induction ms as [|m ms IH]; intros tbl Hqs Hids; simpl; [constructor|].
    inversion Hqs; subst. inversion Hids; subst.
    constructor; [split; assumption|]. apply IH; assumption.
  - destruct (put_cases st i req)
      as [H|[H|[H|(row & m & Hrow & _ & _ & Hstorable & H)]]];
      rewrite H; try exact Hst.
    simpl. unfold updated. apply Forall_map.
    destruct (find_row_id _ _ _ Hrow) as [_ Hin].
    pose proof Hst as Hall. rewrite Forall_forall in Hall.
    destruct (Hall row Hin) as [_ Hold].
    apply (Forall_impl _ (P := fun r => sql.fits (sql.row_id r) = true
                                       /\ sql.fits (sql.row_quantity r) = true));
      [|exact Hst].
    intros r Hr. destruct (Z.eqb_spec (sql.row_id r) i) as [E|N]; [|exact Hr].
    simpl. split; [rewrite <- E; apply Hr|].
    apply (storable_fits _ _ Hold Hstorable).
  - destruct (patch_cases st i req)
      as [H|[H|[H|(row & u & Hrow & _ & Hstorable & H)]]];
      rewrite H; try exact Hst.
    destruct (patched u row) as [new|] eqn:Hnew; [|exact Hst].
    simpl. unfold updated. apply Forall_map.
    destruct (find_row_id _ _ _ Hrow) as [Hrid Hin].
    pose proof Hst as Hall. rewrite Forall_forall in Hall.
    destruct (Hall row Hin) as [Hid Hold].
    destruct (patched_fields u row new Hnew) as (Hnid & _ & Hmq & _).
    rewrite Hmq in Hstorable.
    apply (Forall_impl _ (P := fun r => sql.fits (sql.row_id r) = true
                                       /\ sql.fits (sql.row_quantity r) = true));
      [|exact Hst].
    intros r Hr. destruct (Z.eqb_spec (sql.row_id r) i) as [E|N]; [|exact Hr].
    split; [rewrite Hnid; exact Hid|].
    apply (storable_fits _ _ Hold Hstorable).
  - destruct (delete_cases st i) as [H|[H|[_ H]]]; rewrite H; try exact Hst.
    simpl. unfold sql.delete_row. apply Forall_filter_keep, Hst.
Qed.

Lemma reachable_fits (st : sql.Store) :
  reachable st ->
  Forall (fun r => sql.fits (sql.row_id r) = true
                   /\ sql.fits (sql.row_quantity r) = true) (sql.table st).
Proof.
  induction 1 as [|st c _ IH].
  - constructor.
  - apply step_fits, IH.
Qed.

(** X21. What the table holds fits in an SQLite integer.  In every store
    the service can reach, each id lies from 1 to 2^63 - 1 and each
    quantity from 0 to 2^63 - 1. *)
Theorem stored_integers_fit (st : sql.Store) (Hreach : reachable st) :
  Forall (fun r => 1 <= sql.row_id r < 2 ^ 63
                   /\ 0 <= sql.row_quantity r < 2 ^ 63) (sql.table st).
Proof.
  pose proof (reachable_fits st Hreach) as Hfits.
  pose proof (reachable_rows_ok st Hreach) as Hok.
  destruct (reachable_keys st Hreach) as [_ Hpos].
  rewrite Forall_forall in *. intros r Hr.
  destruct (Hfits r Hr) as [Hi Hq]. apply fits_iff in Hi, Hq.
  destruct (Hok r Hr) as [_ Hq0]. specialize (Hpos r Hr). lia.
Qed.

Lemma stored_integers_fit_witness :
  Forall (fun r => 1 <= sql.row_id r < 2 ^ 63
                   /\ 0 <= sql.row_quantity r < 2 ^ 63) (sql.table fruit).
Proof. exact (stored_integers_fit fruit fruit_reachable). Defined.

Lemma Forall2_in_left {A B} (R : A -> B -> Prop) (l : list A) (l' : list B)
    (x : A) :
  Forall2 R l l' -> In x l -> exists y, In y l' /\ R x y.
Proof.
  induction 1 as [|a b l l' Hab _ IH]; intros Hin; [destruct Hin|].
  destruct Hin as [->|Hin].
  - exists b. split; [left; reflexivity|exact Hab].
  - destruct (IH Hin) as (y & Hy & Hxy). exists y. split; [right|]; assumption.
Qed.

(** X22. A quantity that no SQLite integer holds is not stored.  On a store
    the service can reach, for a payload with a valid name and a quantity
    of 2^63 or more, of at most 4000 digits, is_done given or left out:
    create answers 500;
    bulk-create of payloads that all validate, this one among them, answers
    500; and full-replace and partial-update of a row that exists answer
    500.  In each case the store is as before. *)
Theorem quantity_beyond_64_bits (st : sql.Store) (n : string) (q : Z)
    (d : Raw bool)
    (Hreach : reachable st)
    (Hlen : (String.length n <= 255)%nat)
    (Hq : 2 ^ 63 <= q < 10 ^ 4000)
    (Hd : d = Absent \/ exists b, d = Given b) :
  router_post (with_query (payload n q d)) st = (Error OverflowError, st)
  /\ (forall items ms,
        Forall2 (fun p m => EssenceCreate_validate p = Some m) items ms ->
        In (payload n q d) items ->
        exists exc,
          status_of exc = 500
          /\ router_post_bulk (with_items items) st = (Error exc, st))
  /\ (forall i row,
        sql.find_row i (sql.table st) = Some row ->
        router_put i (with_body (payload n q d)) st = (Error OverflowError, st)
        /\ router_patch i (with_body (payload n q d)) st
           = (Error OverflowError, st)).
Proof.
  destruct Hq as [Hq _].
  assert (Hq0 : 0 <= q) by lia.
  assert (Hunfit : sql.fits q = false) by (apply fits_false; lia).
  assert (Hdone : exists b, raw_is_done (payload n q d) = Given b
                            \/ (raw_is_done (payload n q d) = Absent
                                /\ b = false)).
  { destruct Hd as [->|[b ->]]; [exists false|exists b]; simpl; auto. }
  destruct Hdone as (b & Hdone).
  split; [|split].
  - unfold router_post.
    rewrite (Depends_EssenceCreate_valid (with_query (payload n q d)) n q b
               eq_refl Hlen eq_refl Hq0 Hdone).
    rewrite create_serve. simpl. rewrite Hunfit. reflexivity.
  - intros items ms Hms Hin.
    pose proof (validated_models_ok items ms Hms) as Hok.
    unfold router_post_bulk, Body_List. simpl.
    rewrite (validate_each_all _ _ _ Hms).
    destruct (bulk_serve_cases st ms Hok) as [(Hqs & _ & _)|Hfail];
      [|exact Hfail].
    exfalso.
    destruct (Forall2_in_left _ _ _ _ Hms Hin) as (m & Hm & Hp).
    rewrite Forall_forall in Hqs. specialize (Hqs m Hm).
    pose proof (EssenceBase_validate_quantity _ _ Hp) as Hraw.
    simpl in Hraw. injection Hraw as Hraw. congruence.
  - intros i row Hrow.
    destruct (find_row_id _ _ _ Hrow) as [_ Hin].
    pose proof (reachable_fits st Hreach) as Hfits.
    rewrite Forall_forall in Hfits. destruct (Hfits row Hin) as [_ Hold].
    assert (Hne : (q =? sql.row_quantity row) = false).
    { apply Z.eqb_neq. intros ->. congruence. }
    split.
    + unfold router_put.
      rewrite (Body_model_replace_valid (payload n q d) n q b
                 eq_refl eq_refl Hlen eq_refl Hq0 Hdone).
      rewrite (put_serve st i row _ Hrow). unfold storable. simpl.
      rewrite Hne, Hunfit. reflexivity.
    + assert (Hu : exists s,
                 Body_model EssenceUpdate_validate (with_body (payload n q d))
                 = Some {| upd_name := SetTo (Some n);
                           upd_quantity := SetTo (Some q);
                           upd_is_done := s |}).
      { unfold Body_model, EssenceUpdate_validate, extra_forbid. simpl.
        unfold max_length_255, ge_0.
        destruct (Nat.leb_spec (String.length n) 255); [|lia].
        destruct (Z.leb_spec 0 q); [|lia].
        destruct Hd as [->|[b' ->]]; simpl; eexists; reflexivity. }
      destruct Hu as (s0 & Hu).
      unfold router_patch. rewrite Hu, (patch_serve st i row _ Hrow).
      unfold storable. simpl. rewrite Hne, Hunfit. reflexivity.
Qed.

Lemma quantity_beyond_64_bits_witness :
  router_post (with_query (payload "Cherry" (2 ^ 63) Absent)) fruit
  = (Error OverflowError, fruit)
  /\ router_patch 2 (with_body (payload "Plum" (2 ^ 63) Absent)) fruit
     = (Error OverflowError, fruit).
Proof.
  split.
  - destruct (quantity_beyond_64_bits fruit "Cherry" (2 ^ 63) Absent
                fruit_reachable) as (Hpost & _).
    + simpl. lia.
    + split; [discriminate|reflexivity].
    + left. reflexivity.
    + exact Hpost.
  - destruct (quantity_beyond_64_bits fruit "Plum" (2 ^ 63) Absent
                fruit_reachable) as (_ & _ & Hrow).
    + simpl. lia.
    + split; [discriminate|reflexivity].
    + left. reflexivity.
    + destruct (Hrow 2 apricot eq_refl) as [_ Hpatch]. exact Hpatch.
Defined.

(** X23. Parameters of the list operation that SQLite cannot take.  On a
    store the service can reach, with the parameters within the bounds the
    route declares and of at most 4000 digits: an offset, a min_quantity or
    a max_quantity of 2^63 or more is answered 500; and so is a name of
    more than 49998 bytes, when the table has a row and the integers are
    below 2^63.  The store is as before. *)
Theorem list_beyond_the_limits (st : sql.Store) (name : option string)
    (is_done : option bool) (min_quantity max_quantity limit offset : option Z)
    (Hreach : reachable st)
    (Hmin : forall m, min_quantity = Some m -> 0 <= m < 10 ^ 4000)
    (Hmax : forall m, max_quantity = Some m -> 0 <= m < 10 ^ 4000)
    (Hlimit : forall n, limit = Some n -> 1 <= n <= 100)
    (Hoffset : forall k, offset = Some k -> 0 <= k < 10 ^ 4000) :
  ((exists k, offset = Some k /\ 2 ^ 63 <= k)
   \/ (exists m, min_quantity = Some m /\ 2 ^ 63 <= m)
   \/ (exists m, max_quantity = Some m /\ 2 ^ 63 <= m) ->
   router_get name is_done min_quantity max_quantity limit offset st
   = (Error OverflowError, st))
  /\ (forall needle,
        name = Some needle -> 49998 < sql.utf8_length needle ->
        sql.table st <> [] ->
        (forall k, offset = Some k -> k < 2 ^ 63) ->
        (forall m, min_quantity = Some m -> m < 2 ^ 63) ->
        (forall m, max_quantity = Some m -> m < 2 ^ 63) ->
        router_get name is_done min_quantity max_quantity limit offset st
        = (Error OperationalError, st))
  /\ status (@Error (list EssenceOut) OverflowError) = 500
  /\ status (@Error (list EssenceOut) OperationalError) = 500.
Proof.
  assert (Hmin' : forall m, min_quantity = Some m -> 0 <= m)
    by (intros m Hm; apply (Hmin m Hm)).
  assert (Hmax' : forall m, max_quantity = Some m -> 0 <= m)
    by (intros m Hm; apply (Hmax m Hm)).
  assert (Hoffset' : forall k, offset = Some k -> 0 <= k)
    by (intros k Hk; apply (Hoffset k Hk)).
  clear Hmin Hmax Hoffset.
  rename Hmin' into Hmin, Hmax' into Hmax, Hoffset' into Hoffset.
  assert (Hl : 1 <= or_default 10 limit <= 100).
  { destruct limit as [n|]; simpl; [apply Hlimit; reflexivity|lia]. }
  assert (Ho : 0 <= or_default 0 offset).
  { destruct offset as [k|]; simpl; [apply Hoffset; reflexivity|lia]. }
  split; [|split; [|split; reflexivity]].
  - intros Hbig. unfold router_get.
    rewrite (Query_ge_0_valid _ Hmin), (Query_ge_0_valid _ Hmax),
      (Query_limit_valid _ Hlimit), (Query_offset_valid _ Hoffset).
    rewrite list_essences_query. unfold serve.
    rewrite bind_run, execute_run. unfold sql.run_select.
    cbn [sql.whereclause sql.limit_clause sql.offset_clause sql.binds].
    rewrite criteria_bind.
    assert (Hunbound : sql.binds min_quantity && sql.binds max_quantity
                       && sql.fits (or_default 10 limit)
                       && sql.fits (or_default 0 offset) = false).
    { destruct Hbig as [(k & -> & Hk)|[(m & -> & Hm)|(m & -> & Hm)]]; simpl.
      - rewrite (fits_false k) by lia. apply andb_false_r.
      - rewrite (fits_false m) by lia. reflexivity.
      - rewrite (fits_false m) by lia. rewrite andb_false_r. reflexivity. }
    rewrite Hunbound. reflexivity.
  - intros needle -> Hlong Hrows Hko Hmo Hmao. unfold router_get.
    rewrite (Query_ge_0_valid _ Hmin), (Query_ge_0_valid _ Hmax),
      (Query_limit_valid _ Hlimit), (Query_offset_valid _ Hoffset).
    destruct (sql.table st) as [|r rest] eqn:Htbl; [contradiction|].
    apply (list_pattern_too_long st needle is_done min_quantity max_quantity
             _ _ r rest Htbl Hlong).
    + apply binds_bounded. intros m Hm. split; [apply (Hmin m Hm)|apply (Hmo m Hm)].
    + apply binds_bounded. intros m Hm. split; [apply (Hmax m Hm)|apply (Hmao m Hm)].
    + lia.
    + apply fits_iff. lia.
    + apply fits_iff. split; [lia|].
      destruct offset as [k|]; simpl; [apply Hko; reflexivity|lia].
Qed.

Lemma list_beyond_the_limits_witness :
  router_get None None None None None (Some (2 ^ 63)) fruit
  = (Error OverflowError, fruit)
  /\ router_get (Some (replicate (Z.to_nat 49999) "a")) None None None None None
       fruit
     = (Error OperationalError, fruit).
Proof.
  split.
  - destruct (list_beyond_the_limits fruit None None None None None
                (Some (2 ^ 63)) fruit_reachable) as (Hover & _);
      try discriminate.
    + intros k [= <-]. split; [discriminate|reflexivity].
    + apply Hover. left. exists (2 ^ 63). split; [reflexivity|lia].
  - destruct (list_beyond_the_limits fruit
                (Some (replicate (Z.to_nat 49999) "a")) None None None None
                None fruit_reachable) as (_ & Hlong & _);
      try discriminate.
    apply (Hlong _ eq_refl); try discriminate.
    rewrite utf8_length_replicate. lia.
Defined.
